(** * Verification of the text analytics pipeline of socnganalis

    Shallow embedding of the Python analytics engines of
    [src/fastapi_app]: text normalisation ([preprocess_text]),
    the lexicon classifiers ([predict_emotion], [_fallback_sentiment]),
    the distribution part of the reports, the performance score and the
    priority sort, rule batteries and insights of
    [RecommendationProcessor], and of [DataProcessor] the guard and
    post-processing of [get_peak_activity_hours], the hashtag and
    permalink helpers and the statistics over tweet.xlsx; the word
    frequencies of both engines.

    Python strings are lists of Unicode code points ([ustr]).  The
    character predicates used by [re] and [str] ([\w], [\s],
    [str.lower]) are taken from the Unicode tables of CPython 3.11,
    reproduced below as interval tables. *)

From Stdlib Require Import String Ascii.
From Stdlib Require Import ZArith List Bool Lia QArith Qround Lqa DecimalString.
From Stdlib Require Import Sorting.Permutation Sorting.Sorted.
From Stdlib Require Floats.
Import (notations) PrimFloat.
Import ListNotations.
Open Scope Z_scope.

(** A Python [str], as its sequence of code points. *)
Abbreviation ustr := (list Z).

(** ASCII string literal as a code-point list. *)
Definition u (s : string) : ustr :=
  map (fun a => Z.of_nat (nat_of_ascii a)) (list_ascii_of_string s).

Module Unicode.

(** Code points [c] with [chr(c).isalnum()]. *)
Definition alnum_ranges : list (Z * Z) := [
  (48, 57); (65, 90); (97, 122); (170, 170); (178, 179); (181, 181);
  (185, 186); (188, 190); (192, 214); (216, 246); (248, 705); (710, 721);
  (736, 740); (748, 748); (750, 750); (880, 884); (886, 887); (890, 893);
  (895, 895); (902, 902); (904, 906); (908, 908); (910, 929); (931, 1013);
  (1015, 1153); (1162, 1327); (1329, 1366); (1369, 1369); (1376, 1416);
  (1488, 1514); (1519, 1522); (1568, 1610); (1632, 1641); (1646, 1647);
  (1649, 1747); (1749, 1749); (1765, 1766); (1774, 1788); (1791, 1791);
  (1808, 1808); (1810, 1839); (1869, 1957); (1969, 1969); (1984, 2026);
  (2036, 2037); (2042, 2042); (2048, 2069); (2074, 2074); (2084, 2084);
  (2088, 2088); (2112, 2136); (2144, 2154); (2160, 2183); (2185, 2190);
  (2208, 2249); (2308, 2361); (2365, 2365); (2384, 2384); (2392, 2401);
  (2406, 2415); (2417, 2432); (2437, 2444); (2447, 2448); (2451, 2472);
  (2474, 2480); (2482, 2482); (2486, 2489); (2493, 2493); (2510, 2510);
  (2524, 2525); (2527, 2529); (2534, 2545); (2548, 2553); (2556, 2556);
  (2565, 2570); (2575, 2576); (2579, 2600); (2602, 2608); (2610, 2611);
  (2613, 2614); (2616, 2617); (2649, 2652); (2654, 2654); (2662, 2671);
  (2674, 2676); (2693, 2701); (2703, 2705); (2707, 2728); (2730, 2736);
  (2738, 2739); (2741, 2745); (2749, 2749); (2768, 2768); (2784, 2785);
  (2790, 2799); (2809, 2809); (2821, 2828); (2831, 2832); (2835, 2856);
  (2858, 2864); (2866, 2867); (2869, 2873); (2877, 2877); (2908, 2909);
  (2911, 2913); (2918, 2927); (2929, 2935); (2947, 2947); (2949, 2954);
  (2958, 2960); (2962, 2965); (2969, 2970); (2972, 2972); (2974, 2975);
  (2979, 2980); (2984, 2986); (2990, 3001); (3024, 3024); (3046, 3058);
  (3077, 3084); (3086, 3088); (3090, 3112); (3114, 3129); (3133, 3133);
  (3160, 3162); (3165, 3165); (3168, 3169); (3174, 3183); (3192, 3198);
  (3200, 3200); (3205, 3212); (3214, 3216); (3218, 3240); (3242, 3251);
  (3253, 3257); (3261, 3261); (3293, 3294); (3296, 3297); (3302, 3311);
  (3313, 3314); (3332, 3340); (3342, 3344); (3346, 3386); (3389, 3389);
  (3406, 3406); (3412, 3414); (3416, 3425); (3430, 3448); (3450, 3455);
  (3461, 3478); (3482, 3505); (3507, 3515); (3517, 3517); (3520, 3526);
  (3558, 3567); (3585, 3632); (3634, 3635); (3648, 3654); (3664, 3673);
  (3713, 3714); (3716, 3716); (3718, 3722); (3724, 3747); (3749, 3749);
  (3751, 3760); (3762, 3763); (3773, 3773); (3776, 3780); (3782, 3782);
  (3792, 3801); (3804, 3807); (3840, 3840); (3872, 3891); (3904, 3911);
  (3913, 3948); (3976, 3980); (4096, 4138); (4159, 4169); (4176, 4181);
  (4186, 4189); (4193, 4193); (4197, 4198); (4206, 4208); (4213, 4225);
  (4238, 4238); (4240, 4249); (4256, 4293); (4295, 4295); (4301, 4301);
  (4304, 4346); (4348, 4680); (4682, 4685); (4688, 4694); (4696, 4696);
  (4698, 4701); (4704, 4744); (4746, 4749); (4752, 4784); (4786, 4789);
  (4792, 4798); (4800, 4800); (4802, 4805); (4808, 4822); (4824, 4880);
  (4882, 4885); (4888, 4954); (4969, 4988); (4992, 5007); (5024, 5109);
  (5112, 5117); (5121, 5740); (5743, 5759); (5761, 5786); (5792, 5866);
  (5870, 5880); (5888, 5905); (5919, 5937); (5952, 5969); (5984, 5996);
  (5998, 6000); (6016, 6067); (6103, 6103); (6108, 6108); (6112, 6121);
  (6128, 6137); (6160, 6169); (6176, 6264); (6272, 6276); (6279, 6312);
  (6314, 6314); (6320, 6389); (6400, 6430); (6470, 6509); (6512, 6516);
  (6528, 6571); (6576, 6601); (6608, 6618); (6656, 6678); (6688, 6740);
  (6784, 6793); (6800, 6809); (6823, 6823); (6917, 6963); (6981, 6988);
  (6992, 7001); (7043, 7072); (7086, 7141); (7168, 7203); (7232, 7241);
  (7245, 7293); (7296, 7304); (7312, 7354); (7357, 7359); (7401, 7404);
  (7406, 7411); (7413, 7414); (7418, 7418); (7424, 7615); (7680, 7957);
  (7960, 7965); (7968, 8005); (8008, 8013); (8016, 8023); (8025, 8025);
  (8027, 8027); (8029, 8029); (8031, 8061); (8064, 8116); (8118, 8124);
  (8126, 8126); (8130, 8132); (8134, 8140); (8144, 8147); (8150, 8155);
  (8160, 8172); (8178, 8180); (8182, 8188); (8304, 8305); (8308, 8313);
  (8319, 8329); (8336, 8348); (8450, 8450); (8455, 8455); (8458, 8467);
  (8469, 8469); (8473, 8477); (8484, 8484); (8486, 8486); (8488, 8488);
  (8490, 8493); (8495, 8505); (8508, 8511); (8517, 8521); (8526, 8526);
  (8528, 8585); (9312, 9371); (9450, 9471); (10102, 10131); (11264, 11492);
  (11499, 11502); (11506, 11507); (11517, 11517); (11520, 11557);
  (11559, 11559); (11565, 11565); (11568, 11623); (11631, 11631);
  (11648, 11670); (11680, 11686); (11688, 11694); (11696, 11702);
  (11704, 11710); (11712, 11718); (11720, 11726); (11728, 11734);
  (11736, 11742); (11823, 11823); (12293, 12295); (12321, 12329);
  (12337, 12341); (12344, 12348); (12353, 12438); (12445, 12447);
  (12449, 12538); (12540, 12543); (12549, 12591); (12593, 12686);
  (12690, 12693); (12704, 12735); (12784, 12799); (12832, 12841);
  (12872, 12879); (12881, 12895); (12928, 12937); (12977, 12991);
  (13312, 19903); (19968, 42124); (42192, 42237); (42240, 42508);
  (42512, 42539); (42560, 42606); (42623, 42653); (42656, 42735);
  (42775, 42783); (42786, 42888); (42891, 42954); (42960, 42961);
  (42963, 42963); (42965, 42969); (42994, 43009); (43011, 43013);
  (43015, 43018); (43020, 43042); (43056, 43061); (43072, 43123);
  (43138, 43187); (43216, 43225); (43250, 43255); (43259, 43259);
  (43261, 43262); (43264, 43301); (43312, 43334); (43360, 43388);
  (43396, 43442); (43471, 43481); (43488, 43492); (43494, 43518);
  (43520, 43560); (43584, 43586); (43588, 43595); (43600, 43609);
  (43616, 43638); (43642, 43642); (43646, 43695); (43697, 43697);
  (43701, 43702); (43705, 43709); (43712, 43712); (43714, 43714);
  (43739, 43741); (43744, 43754); (43762, 43764); (43777, 43782);
  (43785, 43790); (43793, 43798); (43808, 43814); (43816, 43822);
  (43824, 43866); (43868, 43881); (43888, 44002); (44016, 44025);
  (44032, 55203); (55216, 55238); (55243, 55291); (63744, 64109);
  (64112, 64217); (64256, 64262); (64275, 64279); (64285, 64285);
  (64287, 64296); (64298, 64310); (64312, 64316); (64318, 64318);
  (64320, 64321); (64323, 64324); (64326, 64433); (64467, 64829);
  (64848, 64911); (64914, 64967); (65008, 65019); (65136, 65140);
  (65142, 65276); (65296, 65305); (65313, 65338); (65345, 65370);
  (65382, 65470); (65474, 65479); (65482, 65487); (65490, 65495);
  (65498, 65500); (65536, 65547); (65549, 65574); (65576, 65594);
  (65596, 65597); (65599, 65613); (65616, 65629); (65664, 65786);
  (65799, 65843); (65856, 65912); (65930, 65931); (66176, 66204);
  (66208, 66256); (66273, 66299); (66304, 66339); (66349, 66378);
  (66384, 66421); (66432, 66461); (66464, 66499); (66504, 66511);
  (66513, 66517); (66560, 66717); (66720, 66729); (66736, 66771);
  (66776, 66811); (66816, 66855); (66864, 66915); (66928, 66938);
  (66940, 66954); (66956, 66962); (66964, 66965); (66967, 66977);
  (66979, 66993); (66995, 67001); (67003, 67004); (67072, 67382);
  (67392, 67413); (67424, 67431); (67456, 67461); (67463, 67504);
  (67506, 67514); (67584, 67589); (67592, 67592); (67594, 67637);
  (67639, 67640); (67644, 67644); (67647, 67669); (67672, 67702);
  (67705, 67742); (67751, 67759); (67808, 67826); (67828, 67829);
  (67835, 67867); (67872, 67897); (67968, 68023); (68028, 68047);
  (68050, 68096); (68112, 68115); (68117, 68119); (68121, 68149);
  (68160, 68168); (68192, 68222); (68224, 68255); (68288, 68295);
  (68297, 68324); (68331, 68335); (68352, 68405); (68416, 68437);
  (68440, 68466); (68472, 68497); (68521, 68527); (68608, 68680);
  (68736, 68786); (68800, 68850); (68858, 68899); (68912, 68921);
  (69216, 69246); (69248, 69289); (69296, 69297); (69376, 69415);
  (69424, 69445); (69457, 69460); (69488, 69505); (69552, 69579);
  (69600, 69622); (69635, 69687); (69714, 69743); (69745, 69746);
  (69749, 69749); (69763, 69807); (69840, 69864); (69872, 69881);
  (69891, 69926); (69942, 69951); (69956, 69956); (69959, 69959);
  (69968, 70002); (70006, 70006); (70019, 70066); (70081, 70084);
  (70096, 70106); (70108, 70108); (70113, 70132); (70144, 70161);
  (70163, 70187); (70272, 70278); (70280, 70280); (70282, 70285);
  (70287, 70301); (70303, 70312); (70320, 70366); (70384, 70393);
  (70405, 70412); (70415, 70416); (70419, 70440); (70442, 70448);
  (70450, 70451); (70453, 70457); (70461, 70461); (70480, 70480);
  (70493, 70497); (70656, 70708); (70727, 70730); (70736, 70745);
  (70751, 70753); (70784, 70831); (70852, 70853); (70855, 70855);
  (70864, 70873); (71040, 71086); (71128, 71131); (71168, 71215);
  (71236, 71236); (71248, 71257); (71296, 71338); (71352, 71352);
  (71360, 71369); (71424, 71450); (71472, 71483); (71488, 71494);
  (71680, 71723); (71840, 71922); (71935, 71942); (71945, 71945);
  (71948, 71955); (71957, 71958); (71960, 71983); (71999, 71999);
  (72001, 72001); (72016, 72025); (72096, 72103); (72106, 72144);
  (72161, 72161); (72163, 72163); (72192, 72192); (72203, 72242);
  (72250, 72250); (72272, 72272); (72284, 72329); (72349, 72349);
  (72368, 72440); (72704, 72712); (72714, 72750); (72768, 72768);
  (72784, 72812); (72818, 72847); (72960, 72966); (72968, 72969);
  (72971, 73008); (73030, 73030); (73040, 73049); (73056, 73061);
  (73063, 73064); (73066, 73097); (73112, 73112); (73120, 73129);
  (73440, 73458); (73648, 73648); (73664, 73684); (73728, 74649);
  (74752, 74862); (74880, 75075); (77712, 77808); (77824, 78894);
  (82944, 83526); (92160, 92728); (92736, 92766); (92768, 92777);
  (92784, 92862); (92864, 92873); (92880, 92909); (92928, 92975);
  (92992, 92995); (93008, 93017); (93019, 93025); (93027, 93047);
  (93053, 93071); (93760, 93846); (93952, 94026); (94032, 94032);
  (94099, 94111); (94176, 94177); (94179, 94179); (94208, 100343);
  (100352, 101589); (101632, 101640); (110576, 110579); (110581, 110587);
  (110589, 110590); (110592, 110882); (110928, 110930); (110948, 110951);
  (110960, 111355); (113664, 113770); (113776, 113788); (113792, 113800);
  (113808, 113817); (119520, 119539); (119648, 119672); (119808, 119892);
  (119894, 119964); (119966, 119967); (119970, 119970); (119973, 119974);
  (119977, 119980); (119982, 119993); (119995, 119995); (119997, 120003);
  (120005, 120069); (120071, 120074); (120077, 120084); (120086, 120092);
  (120094, 120121); (120123, 120126); (120128, 120132); (120134, 120134);
  (120138, 120144); (120146, 120485); (120488, 120512); (120514, 120538);
  (120540, 120570); (120572, 120596); (120598, 120628); (120630, 120654);
  (120656, 120686); (120688, 120712); (120714, 120744); (120746, 120770);
  (120772, 120779); (120782, 120831); (122624, 122654); (123136, 123180);
  (123191, 123197); (123200, 123209); (123214, 123214); (123536, 123565);
  (123584, 123627); (123632, 123641); (124896, 124902); (124904, 124907);
  (124909, 124910); (124912, 124926); (124928, 125124); (125127, 125135);
  (125184, 125251); (125259, 125259); (125264, 125273); (126065, 126123);
  (126125, 126127); (126129, 126132); (126209, 126253); (126255, 126269);
  (126464, 126467); (126469, 126495); (126497, 126498); (126500, 126500);
  (126503, 126503); (126505, 126514); (126516, 126519); (126521, 126521);
  (126523, 126523); (126530, 126530); (126535, 126535); (126537, 126537);
  (126539, 126539); (126541, 126543); (126545, 126546); (126548, 126548);
  (126551, 126551); (126553, 126553); (126555, 126555); (126557, 126557);
  (126559, 126559); (126561, 126562); (126564, 126564); (126567, 126570);
  (126572, 126578); (126580, 126583); (126585, 126588); (126590, 126590);
  (126592, 126601); (126603, 126619); (126625, 126627); (126629, 126633);
  (126635, 126651); (127232, 127244); (130032, 130041); (131072, 173791);
  (173824, 177976); (177984, 178205); (178208, 183969); (183984, 191456);
  (194560, 195101); (196608, 201546)].

(** Code points [c] with [chr(c).isspace()]. *)
Definition space_ranges : list (Z * Z) := [
  (9, 13); (28, 32); (133, 133); (160, 160); (5760, 5760); (8192, 8202);
  (8232, 8233); (8239, 8239); (8287, 8287); (12288, 12288)].

(** Case-ignorable code points, as used by the final-sigma rule of [str.lower]. *)
Definition case_ignorable_ranges : list (Z * Z) := [
  (39, 39); (46, 46); (58, 58); (94, 94); (96, 96); (168, 168); (173, 173);
  (175, 175); (180, 180); (183, 184); (688, 879); (884, 885); (890, 890);
  (900, 901); (903, 903); (1155, 1161); (1369, 1369); (1375, 1375);
  (1425, 1469); (1471, 1471); (1473, 1474); (1476, 1477); (1479, 1479);
  (1524, 1524); (1536, 1541); (1552, 1562); (1564, 1564); (1600, 1600);
  (1611, 1631); (1648, 1648); (1750, 1757); (1759, 1768); (1770, 1773);
  (1807, 1807); (1809, 1809); (1840, 1866); (1958, 1968); (2027, 2037);
  (2042, 2042); (2045, 2045); (2070, 2093); (2137, 2139); (2184, 2184);
  (2192, 2193); (2200, 2207); (2249, 2306); (2362, 2362); (2364, 2364);
  (2369, 2376); (2381, 2381); (2385, 2391); (2402, 2403); (2417, 2417);
  (2433, 2433); (2492, 2492); (2497, 2500); (2509, 2509); (2530, 2531);
  (2558, 2558); (2561, 2562); (2620, 2620); (2625, 2626); (2631, 2632);
  (2635, 2637); (2641, 2641); (2672, 2673); (2677, 2677); (2689, 2690);
  (2748, 2748); (2753, 2757); (2759, 2760); (2765, 2765); (2786, 2787);
  (2810, 2815); (2817, 2817); (2876, 2876); (2879, 2879); (2881, 2884);
  (2893, 2893); (2901, 2902); (2914, 2915); (2946, 2946); (3008, 3008);
  (3021, 3021); (3072, 3072); (3076, 3076); (3132, 3132); (3134, 3136);
  (3142, 3144); (3146, 3149); (3157, 3158); (3170, 3171); (3201, 3201);
  (3260, 3260); (3263, 3263); (3270, 3270); (3276, 3277); (3298, 3299);
  (3328, 3329); (3387, 3388); (3393, 3396); (3405, 3405); (3426, 3427);
  (3457, 3457); (3530, 3530); (3538, 3540); (3542, 3542); (3633, 3633);
  (3636, 3642); (3654, 3662); (3761, 3761); (3764, 3772); (3782, 3782);
  (3784, 3789); (3864, 3865); (3893, 3893); (3895, 3895); (3897, 3897);
  (3953, 3966); (3968, 3972); (3974, 3975); (3981, 3991); (3993, 4028);
  (4038, 4038); (4141, 4144); (4146, 4151); (4153, 4154); (4157, 4158);
  (4184, 4185); (4190, 4192); (4209, 4212); (4226, 4226); (4229, 4230);
  (4237, 4237); (4253, 4253); (4348, 4348); (4957, 4959); (5906, 5908);
  (5938, 5939); (5970, 5971); (6002, 6003); (6068, 6069); (6071, 6077);
  (6086, 6086); (6089, 6099); (6103, 6103); (6109, 6109); (6155, 6159);
  (6211, 6211); (6277, 6278); (6313, 6313); (6432, 6434); (6439, 6440);
  (6450, 6450); (6457, 6459); (6679, 6680); (6683, 6683); (6742, 6742);
  (6744, 6750); (6752, 6752); (6754, 6754); (6757, 6764); (6771, 6780);
  (6783, 6783); (6823, 6823); (6832, 6862); (6912, 6915); (6964, 6964);
  (6966, 6970); (6972, 6972); (6978, 6978); (7019, 7027); (7040, 7041);
  (7074, 7077); (7080, 7081); (7083, 7085); (7142, 7142); (7144, 7145);
  (7149, 7149); (7151, 7153); (7212, 7219); (7222, 7223); (7288, 7293);
  (7376, 7378); (7380, 7392); (7394, 7400); (7405, 7405); (7412, 7412);
  (7416, 7417); (7468, 7530); (7544, 7544); (7579, 7679); (8125, 8125);
  (8127, 8129); (8141, 8143); (8157, 8159); (8173, 8175); (8189, 8190);
  (8203, 8207); (8216, 8217); (8228, 8228); (8231, 8231); (8234, 8238);
  (8288, 8292); (8294, 8303); (8305, 8305); (8319, 8319); (8336, 8348);
  (8400, 8432); (11388, 11389); (11503, 11505); (11631, 11631);
  (11647, 11647); (11744, 11775); (11823, 11823); (12293, 12293);
  (12330, 12333); (12337, 12341); (12347, 12347); (12441, 12446);
  (12540, 12542); (40981, 40981); (42232, 42237); (42508, 42508);
  (42607, 42610); (42612, 42621); (42623, 42623); (42652, 42655);
  (42736, 42737); (42752, 42785); (42864, 42864); (42888, 42890);
  (42994, 42996); (43000, 43001); (43010, 43010); (43014, 43014);
  (43019, 43019); (43045, 43046); (43052, 43052); (43204, 43205);
  (43232, 43249); (43263, 43263); (43302, 43309); (43335, 43345);
  (43392, 43394); (43443, 43443); (43446, 43449); (43452, 43453);
  (43471, 43471); (43493, 43494); (43561, 43566); (43569, 43570);
  (43573, 43574); (43587, 43587); (43596, 43596); (43632, 43632);
  (43644, 43644); (43696, 43696); (43698, 43700); (43703, 43704);
  (43710, 43711); (43713, 43713); (43741, 43741); (43756, 43757);
  (43763, 43764); (43766, 43766); (43867, 43871); (43881, 43883);
  (44005, 44005); (44008, 44008); (44013, 44013); (64286, 64286);
  (64434, 64450); (65024, 65039); (65043, 65043); (65056, 65071);
  (65106, 65106); (65109, 65109); (65279, 65279); (65287, 65287);
  (65294, 65294); (65306, 65306); (65342, 65342); (65344, 65344);
  (65392, 65392); (65438, 65439); (65507, 65507); (65529, 65531);
  (66045, 66045); (66272, 66272); (66422, 66426); (67456, 67461);
  (67463, 67504); (67506, 67514); (68097, 68099); (68101, 68102);
  (68108, 68111); (68152, 68154); (68159, 68159); (68325, 68326);
  (68900, 68903); (69291, 69292); (69446, 69456); (69506, 69509);
  (69633, 69633); (69688, 69702); (69744, 69744); (69747, 69748);
  (69759, 69761); (69811, 69814); (69817, 69818); (69821, 69821);
  (69826, 69826); (69837, 69837); (69888, 69890); (69927, 69931);
  (69933, 69940); (70003, 70003); (70016, 70017); (70070, 70078);
  (70089, 70092); (70095, 70095); (70191, 70193); (70196, 70196);
  (70198, 70199); (70206, 70206); (70367, 70367); (70371, 70378);
  (70400, 70401); (70459, 70460); (70464, 70464); (70502, 70508);
  (70512, 70516); (70712, 70719); (70722, 70724); (70726, 70726);
  (70750, 70750); (70835, 70840); (70842, 70842); (70847, 70848);
  (70850, 70851); (71090, 71093); (71100, 71101); (71103, 71104);
  (71132, 71133); (71219, 71226); (71229, 71229); (71231, 71232);
  (71339, 71339); (71341, 71341); (71344, 71349); (71351, 71351);
  (71453, 71455); (71458, 71461); (71463, 71467); (71727, 71735);
  (71737, 71738); (71995, 71996); (71998, 71998); (72003, 72003);
  (72148, 72151); (72154, 72155); (72160, 72160); (72193, 72202);
  (72243, 72248); (72251, 72254); (72263, 72263); (72273, 72278);
  (72281, 72283); (72330, 72342); (72344, 72345); (72752, 72758);
  (72760, 72765); (72767, 72767); (72850, 72871); (72874, 72880);
  (72882, 72883); (72885, 72886); (73009, 73014); (73018, 73018);
  (73020, 73021); (73023, 73029); (73031, 73031); (73104, 73105);
  (73109, 73109); (73111, 73111); (73459, 73460); (78896, 78904);
  (92912, 92916); (92976, 92982); (92992, 92995); (94031, 94031);
  (94095, 94111); (94176, 94177); (94179, 94180); (110576, 110579);
  (110581, 110587); (110589, 110590); (113821, 113822); (113824, 113827);
  (118528, 118573); (118576, 118598); (119143, 119145); (119155, 119170);
  (119173, 119179); (119210, 119213); (119362, 119364); (121344, 121398);
  (121403, 121452); (121461, 121461); (121476, 121476); (121499, 121503);
  (121505, 121519); (122880, 122886); (122888, 122904); (122907, 122913);
  (122915, 122916); (122918, 122922); (123184, 123197); (123566, 123566);
  (123628, 123631); (125136, 125142); (125252, 125259); (127995, 127999);
  (917505, 917505); (917536, 917631); (917760, 917999)].

(** Cased code points (among the non-case-ignorable ones), as used by the final-sigma rule of [str.lower]. *)
Definition cased_ranges : list (Z * Z) := [
  (65, 90); (97, 122); (170, 170); (181, 181); (186, 186); (192, 214);
  (216, 246); (248, 442); (444, 447); (452, 659); (661, 687); (880, 883);
  (886, 887); (891, 893); (895, 895); (902, 902); (904, 906); (908, 908);
  (910, 929); (931, 1013); (1015, 1153); (1162, 1327); (1329, 1366);
  (1376, 1416); (4256, 4293); (4295, 4295); (4301, 4301); (4304, 4346);
  (4349, 4351); (5024, 5109); (5112, 5117); (7296, 7304); (7312, 7354);
  (7357, 7359); (7424, 7467); (7531, 7543); (7545, 7578); (7680, 7957);
  (7960, 7965); (7968, 8005); (8008, 8013); (8016, 8023); (8025, 8025);
  (8027, 8027); (8029, 8029); (8031, 8061); (8064, 8116); (8118, 8124);
  (8126, 8126); (8130, 8132); (8134, 8140); (8144, 8147); (8150, 8155);
  (8160, 8172); (8178, 8180); (8182, 8188); (8450, 8450); (8455, 8455);
  (8458, 8467); (8469, 8469); (8473, 8477); (8484, 8484); (8486, 8486);
  (8488, 8488); (8490, 8493); (8495, 8500); (8505, 8505); (8508, 8511);
  (8517, 8521); (8526, 8526); (8544, 8575); (8579, 8580); (9398, 9449);
  (11264, 11387); (11390, 11492); (11499, 11502); (11506, 11507);
  (11520, 11557); (11559, 11559); (11565, 11565); (42560, 42605);
  (42624, 42651); (42786, 42863); (42865, 42887); (42891, 42894);
  (42896, 42954); (42960, 42961); (42963, 42963); (42965, 42969);
  (42997, 42998); (43002, 43002); (43824, 43866); (43872, 43880);
  (43888, 43967); (64256, 64262); (64275, 64279); (65313, 65338);
  (65345, 65370); (66560, 66639); (66736, 66771); (66776, 66811);
  (66928, 66938); (66940, 66954); (66956, 66962); (66964, 66965);
  (66967, 66977); (66979, 66993); (66995, 67001); (67003, 67004);
  (68736, 68786); (68800, 68850); (71840, 71903); (93760, 93823);
  (119808, 119892); (119894, 119964); (119966, 119967); (119970, 119970);
  (119973, 119974); (119977, 119980); (119982, 119993); (119995, 119995);
  (119997, 120003); (120005, 120069); (120071, 120074); (120077, 120084);
  (120086, 120092); (120094, 120121); (120123, 120126); (120128, 120132);
  (120134, 120134); (120138, 120144); (120146, 120485); (120488, 120512);
  (120514, 120538); (120540, 120570); (120572, 120596); (120598, 120628);
  (120630, 120654); (120656, 120686); (120688, 120712); (120714, 120744);
  (120746, 120770); (120772, 120779); (122624, 122633); (122635, 122654);
  (125184, 125251); (127280, 127305); (127312, 127337); (127344, 127369)].

(** One-to-one lowercase mappings: [(first, last, step, delta)] maps every [c = first + k*step <= last] to [c + delta]. *)
Definition lower_runs : list (Z * Z * Z * Z) := [
  (65, 90, 1, 32); (192, 214, 1, 32); (216, 222, 1, 32); (256, 302, 2, 1);
  (306, 310, 2, 1); (313, 327, 2, 1); (330, 374, 2, 1);
  (376, 376, 1, -121); (377, 381, 2, 1); (385, 385, 1, 210);
  (386, 388, 2, 1); (390, 390, 1, 206); (391, 391, 1, 1);
  (393, 394, 1, 205); (395, 395, 1, 1); (398, 398, 1, 79);
  (399, 399, 1, 202); (400, 400, 1, 203); (401, 401, 1, 1);
  (403, 403, 1, 205); (404, 404, 1, 207); (406, 406, 1, 211);
  (407, 407, 1, 209); (408, 408, 1, 1); (412, 412, 1, 211);
  (413, 413, 1, 213); (415, 415, 1, 214); (416, 420, 2, 1);
  (422, 422, 1, 218); (423, 423, 1, 1); (425, 425, 1, 218);
  (428, 428, 1, 1); (430, 430, 1, 218); (431, 431, 1, 1);
  (433, 434, 1, 217); (435, 437, 2, 1); (439, 439, 1, 219);
  (440, 440, 1, 1); (444, 444, 1, 1); (452, 452, 1, 2); (453, 453, 1, 1);
  (455, 455, 1, 2); (456, 456, 1, 1); (458, 458, 1, 2); (459, 475, 2, 1);
  (478, 494, 2, 1); (497, 497, 1, 2); (498, 500, 2, 1); (502, 502, 1, -97);
  (503, 503, 1, -56); (504, 542, 2, 1); (544, 544, 1, -130);
  (546, 562, 2, 1); (570, 570, 1, 10795); (571, 571, 1, 1);
  (573, 573, 1, -163); (574, 574, 1, 10792); (577, 577, 1, 1);
  (579, 579, 1, -195); (580, 580, 1, 69); (581, 581, 1, 71);
  (582, 590, 2, 1); (880, 882, 2, 1); (886, 886, 1, 1); (895, 895, 1, 116);
  (902, 902, 1, 38); (904, 906, 1, 37); (908, 908, 1, 64);
  (910, 911, 1, 63); (913, 929, 1, 32); (931, 939, 1, 32);
  (975, 975, 1, 8); (984, 1006, 2, 1); (1012, 1012, 1, -60);
  (1015, 1015, 1, 1); (1017, 1017, 1, -7); (1018, 1018, 1, 1);
  (1021, 1023, 1, -130); (1024, 1039, 1, 80); (1040, 1071, 1, 32);
  (1120, 1152, 2, 1); (1162, 1214, 2, 1); (1216, 1216, 1, 15);
  (1217, 1229, 2, 1); (1232, 1326, 2, 1); (1329, 1366, 1, 48);
  (4256, 4293, 1, 7264); (4295, 4295, 1, 7264); (4301, 4301, 1, 7264);
  (5024, 5103, 1, 38864); (5104, 5109, 1, 8); (7312, 7354, 1, -3008);
  (7357, 7359, 1, -3008); (7680, 7828, 2, 1); (7838, 7838, 1, -7615);
  (7840, 7934, 2, 1); (7944, 7951, 1, -8); (7960, 7965, 1, -8);
  (7976, 7983, 1, -8); (7992, 7999, 1, -8); (8008, 8013, 1, -8);
  (8025, 8031, 2, -8); (8040, 8047, 1, -8); (8072, 8079, 1, -8);
  (8088, 8095, 1, -8); (8104, 8111, 1, -8); (8120, 8121, 1, -8);
  (8122, 8123, 1, -74); (8124, 8124, 1, -9); (8136, 8139, 1, -86);
  (8140, 8140, 1, -9); (8152, 8153, 1, -8); (8154, 8155, 1, -100);
  (8168, 8169, 1, -8); (8170, 8171, 1, -112); (8172, 8172, 1, -7);
  (8184, 8185, 1, -128); (8186, 8187, 1, -126); (8188, 8188, 1, -9);
  (8486, 8486, 1, -7517); (8490, 8490, 1, -8383); (8491, 8491, 1, -8262);
  (8498, 8498, 1, 28); (8544, 8559, 1, 16); (8579, 8579, 1, 1);
  (9398, 9423, 1, 26); (11264, 11311, 1, 48); (11360, 11360, 1, 1);
  (11362, 11362, 1, -10743); (11363, 11363, 1, -3814);
  (11364, 11364, 1, -10727); (11367, 11371, 2, 1);
  (11373, 11373, 1, -10780); (11374, 11374, 1, -10749);
  (11375, 11375, 1, -10783); (11376, 11376, 1, -10782);
  (11378, 11378, 1, 1); (11381, 11381, 1, 1); (11390, 11391, 1, -10815);
  (11392, 11490, 2, 1); (11499, 11501, 2, 1); (11506, 11506, 1, 1);
  (42560, 42604, 2, 1); (42624, 42650, 2, 1); (42786, 42798, 2, 1);
  (42802, 42862, 2, 1); (42873, 42875, 2, 1); (42877, 42877, 1, -35332);
  (42878, 42886, 2, 1); (42891, 42891, 1, 1); (42893, 42893, 1, -42280);
  (42896, 42898, 2, 1); (42902, 42920, 2, 1); (42922, 42922, 1, -42308);
  (42923, 42923, 1, -42319); (42924, 42924, 1, -42315);
  (42925, 42925, 1, -42305); (42926, 42926, 1, -42308);
  (42928, 42928, 1, -42258); (42929, 42929, 1, -42282);
  (42930, 42930, 1, -42261); (42931, 42931, 1, 928); (42932, 42946, 2, 1);
  (42948, 42948, 1, -48); (42949, 42949, 1, -42307);
  (42950, 42950, 1, -35384); (42951, 42953, 2, 1); (42960, 42960, 1, 1);
  (42966, 42968, 2, 1); (42997, 42997, 1, 1); (65313, 65338, 1, 32);
  (66560, 66599, 1, 40); (66736, 66771, 1, 40); (66928, 66938, 1, 39);
  (66940, 66954, 1, 39); (66956, 66962, 1, 39); (66964, 66965, 1, 39);
  (68736, 68786, 1, 64); (71840, 71871, 1, 32); (93760, 93791, 1, 32);
  (125184, 125217, 1, 34)].

Definition in_ranges (rs : list (Z * Z)) (c : Z) : bool :=
  existsb (fun '(a, b) => (a <=? c) && (c <=? b)) rs.

(** [Py_UNICODE_ISALNUM], i.e. [str.isalnum] on one character. *)
Definition isalnum (c : Z) : bool := in_ranges alnum_ranges c.

(** [Py_UNICODE_ISSPACE]: the class [\s] of [re], and the separators of
    [str.split()] and [str.strip()]. *)
Definition isspace (c : Z) : bool := in_ranges space_ranges c.

(** The class [\w] of [re] on [str] patterns: alphanumeric or ['_']. *)
Definition is_word (c : Z) : bool := isalnum c || (c =? 95).

Definition case_ignorable (c : Z) : bool := in_ranges case_ignorable_ranges c.
Definition cased (c : Z) : bool := in_ranges cased_ranges c.

Definition lower_delta (c : Z) : Z :=
  match find (fun '(a, b, st, _) =>
                (a <=? c) && (c <=? b) && (Z.modulo (c - a) st =? 0)) lower_runs with
  | Some (_, _, _, d) => d
  | None => 0
  end.

(** Full lowercase mapping of one code point outside the final-sigma
    context; U+0130 is the only code point mapped to two. *)
Definition lower_char (c : Z) : ustr :=
  if c =? 304 then [105; 775] else [c + lower_delta c].

Fixpoint skip_ignorable (s : ustr) : ustr :=
  match s with
  | c :: r => if case_ignorable c then skip_ignorable r else s
  | [] => []
  end.

(** [handle_capital_sigma] of CPython: [before] is the text before the
    capital sigma, reversed, [after] the text after it. *)
Definition capital_sigma (before after : ustr) : Z :=
  let final_before :=
    match skip_ignorable before with c :: _ => cased c | [] => false end in
  let final :=
    final_before &&
    match after with
    | [] => true
    | _ => match skip_ignorable after with
           | [] => true
           | c :: _ => negb (cased c)
           end
    end in
  if final then 962 else 963.

Fixpoint lower_aux (before : ustr) (s : ustr) : ustr :=
  match s with
  | [] => []
  | c :: r =>
      (if c =? 931 then [capital_sigma before r] else lower_char c)
        ++ lower_aux (c :: before) r
  end.

(** [str.lower()]. *)
Definition lower (s : ustr) : ustr := lower_aux [] s.

End Unicode.

(** ** Python string and [re] operations *)
Module Py.

Fixpoint ustr_eqb (a b : ustr) : bool :=
  match a, b with
  | [], [] => true
  | x :: a', y :: b' => (x =? y) && ustr_eqb a' b'
  | _, _ => false
  end.

Fixpoint strip_prefix (p s : ustr) : option ustr :=
  match p, s with
  | [], _ => Some s
  | a :: p', b :: s' => if a =? b then strip_prefix p' s' else None
  | _ :: _, [] => None
  end.

(** [w in s] for strings: [w] occurs as a substring of [s]. *)
Fixpoint contains (w s : ustr) : bool :=
  match strip_prefix w s with
  | Some _ => true
  | None => match s with [] => false | _ :: r => contains w r end
  end.

Fixpoint span (p : Z -> bool) (s : ustr) : ustr * ustr :=
  match s with
  | c :: r => if p c then let (a, b) := span p r in (c :: a, b) else ([], s)
  | [] => ([], [])
  end.

(** A greedy [X+] over a one-character class [p] at the head of the
    text: the maximal non-empty run and what follows it. *)
Definition plus (p : Z -> bool) (s : ustr) : option (ustr * ustr) :=
  match span p s with
  | ([], _) => None
  | (run, rest) => Some (run, rest)
  end.

Definition first_some {A} (a b : option A) : option A :=
  match a with Some _ => a | None => b end.

(** A pattern tried at the head of the text: on a match of a non-empty
    prefix it returns the replacement and the unmatched rest. *)
Definition matcher := ustr -> option (ustr * ustr).

Fixpoint sub_fuel (fuel : nat) (m : matcher) (s : ustr) : ustr :=
  match fuel with
  | O => s
  | S f =>
      match s with
      | [] => []
      | c :: r =>
          match m s with
          | Some (rep, rest) => rep ++ sub_fuel f m rest
          | None => c :: sub_fuel f m r
          end
      end
  end.

(** [re.sub(pattern, repl, s)] (and [str.replace]) for a pattern that
    never matches the empty string: scan left to right, replace each
    leftmost match, resume after it. *)
Definition sub (m : matcher) (s : ustr) : ustr := sub_fuel (length s) m s.

(** [s.replace(old, new)] for a non-empty [old]. *)
Definition replace (old new : ustr) (s : ustr) : ustr :=
  sub (fun t => match strip_prefix old t with
                | Some rest => Some (new, rest)
                | None => None
                end) s.

Definition not_space (c : Z) : bool := negb (Unicode.isspace c).

(** [s.strip()]. *)
Definition strip (s : ustr) : ustr :=
  rev (snd (span Unicode.isspace (rev (snd (span Unicode.isspace s))))).

Fixpoint split_aux (cur : ustr) (s : ustr) : list ustr :=
  match s with
  | [] => match cur with [] => [] | _ => [rev cur] end
  | c :: r =>
      if Unicode.isspace c then
        match cur with
        | [] => split_aux [] r
        | _ => rev cur :: split_aux [] r
        end
      else split_aux (c :: cur) r
  end.

(** [s.split()] without arguments. *)
Definition split (s : ustr) : list ustr := split_aux [] s.

(** [sep.join(ws)]. *)
Fixpoint join (sep : ustr) (ws : list ustr) : ustr :=
  match ws with
  | [] => []
  | [w] => w
  | w :: ws' => w ++ sep ++ join sep ws'
  end.

Definition mem (w : ustr) (ws : list ustr) : bool := existsb (ustr_eqb w) ws.

End Py.

(** ** Steps of [preprocess_text] shared by both engines *)
Module Norm.
Import Py.

Definition space : Z := 32.

(** [for emoji, replacement in emoji_dict.items():
       text = text.replace(emoji, f' {replacement} ')] *)
Definition convert_emoji (dict : list (ustr * ustr)) (text : ustr) : ustr :=
  fold_left (fun t '(k, v) => replace k (space :: v ++ [space]) t) dict text.

(** [re.sub(r'@\w+', '', text)] *)
Definition m_mention : matcher := fun s =>
  match s with
  | 64 :: r => match plus Unicode.is_word r with
               | Some (_, rest) => Some ([], rest)
               | None => None
               end
  | _ => None
  end.

Definition is_lower_az (c : Z) : bool := (97 <=? c) && (c <=? 122).
Definition is_upper_az (c : Z) : bool := (65 <=? c) && (c <=? 90).

(** [re.sub('([a-z])([A-Z])', r'\1 \2', hashtag)] *)
Definition m_camel : matcher := fun s =>
  match s with
  | a :: b :: r => if is_lower_az a && is_upper_az b then Some ([a; space; b], r)
                   else None
  | _ => None
  end.

(** [process_hashtag]: camel-case split, then [.lower()]. *)
Definition process_hashtag (hashtag : ustr) : ustr :=
  Unicode.lower (sub m_camel hashtag).

(** [re.sub(r'#(\w+)', process_hashtag, text)] *)
Definition m_hashtag : matcher := fun s =>
  match s with
  | 35 :: r => match plus Unicode.is_word r with
               | Some (g, rest) => Some (process_hashtag g, rest)
               | None => None
               end
  | _ => None
  end.

(** The character class of [emoji_pattern]. *)
Definition in_emoji_class (c : Z) : bool :=
  Unicode.in_ranges
    [(128512, 128591); (127744, 128511); (128640, 128767); (127456, 127487);
     (9986, 10160); (9410, 127569)] c.

(** [emoji_pattern.sub(r' ', text)] *)
Definition m_emoji : matcher := fun s =>
  match plus in_emoji_class s with
  | Some (_, rest) => Some ([space], rest)
  | None => None
  end.

(** [re.sub(r'(.)\1{3,}', r'\1\1', text)]; [.] does not match a newline. *)
Definition m_repeat : matcher := fun s =>
  match s with
  | c :: r =>
      if c =? 10 then None
      else let (run, rest) := span (Z.eqb c) r in
           if (3 <=? length run)%nat then Some ([c; c], rest) else None
  | [] => None
  end.

(** [re.sub(r'[^\w\s]', ' ', text)] *)
Definition m_special : matcher := fun s =>
  match s with
  | c :: r => if Unicode.is_word c || Unicode.isspace c then None
              else Some ([space], r)
  | [] => None
  end.

(** [re.sub(r'\s+', ' ', text)] *)
Definition m_spaces : matcher := fun s =>
  match plus Unicode.isspace s with
  | Some (_, rest) => Some ([space], rest)
  | None => None
  end.

(** Steps from the removal of unknown emoji to the whitespace clean-up,
    identical in both engines:
    [emoji_pattern.sub], [.lower()], repeated characters,
    special characters, [re.sub(r'\s+', ' ', text).strip()]. *)
Definition tail_steps (text : ustr) : ustr :=
  let text := sub m_emoji text in
  let text := Unicode.lower text in
  let text := sub m_repeat text in
  let text := sub m_special text in
  strip (sub m_spaces text).

End Norm.

(** The argument of [preprocess_text]: a cell of a pandas column. *)
Inductive pyval :=
| PyNone
| PyNaN
| PyStr (s : ustr).

(** ** [SentimentProcessor] (src/fastapi_app/sentiment_processor.py) *)
Module Sentiment.
Import Py.

(** [emoji_dict] of [SentimentProcessor.preprocess_text], in insertion order. *)
Definition emoji_dict : list (ustr * ustr) := [
  ([128522], u "senang"); ([128546], u "sedih"); ([128545], u "marah");
  ([128525], u "suka"); ([128077], u "bagus"); ([128078], u "jelek");
  ([10084; 65039], u "suka"); ([128148], u "kecewa"); ([128514], u "lucu");
  ([128557], u "menangis"); ([128293], u "bagus"); ([128175], u "bagus");
  ([128512], u "senang"); ([128515], u "senang"); ([128516], u "senang");
  ([128513], u "senang"); ([128591], u "terima_kasih");
  ([128076], u "oke"); ([9989], u "benar"); ([10060], u "salah");
  ([128184], u "mahal"); ([128176], u "murah"); ([128246], u "sinyal");
  ([128225], u "internet"); ([128683], u "tidak"); ([9889], u "cepat");
  ([128012], u "lambat")].

(** The character class of the URL patterns of the sentiment engine:
    [(?:[a-zA-Z]|[0-9]|[$-_@.&+]|[!*\\(\\),]|(?:%[0-9a-fA-F][0-9a-fA-F]))];
    the [%XX] alternative adds nothing, as ['%'] and the hex digits are
    themselves in the class. *)
Definition url_char (c : Z) : bool :=
  ((97 <=? c) && (c <=? 122)) || ((65 <=? c) && (c <=? 90))
  || ((48 <=? c) && (c <=? 57)) || ((36 <=? c) && (c <=? 95))
  || existsb (Z.eqb c) [64; 46; 38; 43] || existsb (Z.eqb c) [33; 42; 92; 40; 41; 44].

(** [re.sub(r'http[s]?://(?:...)+', '', text)] *)
Definition m_url : matcher := fun s =>
  first_some
    (match strip_prefix (u "https://") s with
     | Some r => match plus url_char r with Some (_, rest) => Some ([], rest) | None => None end
     | None => None
     end)
    (match strip_prefix (u "http://") s with
     | Some r => match plus url_char r with Some (_, rest) => Some ([], rest) | None => None end
     | None => None
     end).

(** [re.sub(r'www\.(?:...)+', '', text)] *)
Definition m_www : matcher := fun s =>
  match strip_prefix (u "www.") s with
  | Some r => match plus url_char r with Some (_, rest) => Some ([], rest) | None => None end
  | None => None
  end.

(** [stopwords_id], as the Python set literal evaluates: adjacent string
    literals without a comma are concatenated ([vionideh], [ataskontol]). *)
Definition stopwords_id : list ustr := [
  u "ada"; u "adalah"; u "admin"; u "ajg"; u "akan"; u "anj"; u "anjing";
  u "anjng"; u "ataskontol"; u "atau"; u "babi"; u "bajingan"; u "bangsat";
  u "belum"; u "bisa"; u "brengsek"; u "bro"; u "cek"; u "cs"; u "dalam";
  u "dan"; u "dapat"; u "dari"; u "dengan"; u "di"; u "dia"; u "dong";
  u "gan"; u "goblok"; u "hai"; u "halo"; u "hanya"; u "harus"; u "hehe";
  u "hihi"; u "indihome"; u "ingin"; u "ini"; u "itu"; u "iya"; u "jadi";
  u "jancuk"; u "juga"; u "ka"; u "kak"; u "kakak"; u "kami"; u "kampret";
  u "kamu"; u "kasih"; u "ke"; u "keparat"; u "kok"; u "loh"; u "lonte";
  u "makasi"; u "makasih"; u "malam"; u "masih"; u "mau"; u "memek";
  u "mereka"; u "min"; u "mohon"; u "nala"; u "nih"; u "nya"; u "ok";
  u "oke"; u "pada"; u "pagi"; u "pau"; u "pelacur"; u "pepek"; u "perek";
  u "perlu"; u "sangat"; u "saya"; u "sekali"; u "selamat"; u "sialan";
  u "siang"; u "sih"; u "sis"; u "sore"; u "sudah"; u "sundal"; u "tai";
  u "telah"; u "terima"; u "terimakasih"; u "thanks"; u "thx"; u "tidak";
  u "tolol"; u "tolong"; u "untuk"; u "vionideh"; u "wkwk"; u "ya";
  u "yah"; u "yang"].

(** Step 10: [[word for word in text.split() if word not in stopwords_id and len(word) > 2]]. *)
Definition keep_word (w : ustr) : bool :=
  negb (mem w stopwords_id) && (2 <? List.length w)%nat.

(** [SentimentProcessor.preprocess_text]. *)
Definition preprocess_text (x : pyval) : ustr :=
  match x with
  | PyNone | PyNaN | PyStr [] => []
  | PyStr text =>
      let text := Norm.convert_emoji emoji_dict text in
      let text := sub m_url text in
      let text := sub m_www text in
      let text := sub Norm.m_mention text in
      let text := sub Norm.m_hashtag text in
      let text := Norm.tail_steps text in
      join [Norm.space] (filter keep_word (split text))
  end.

(** Word lists of [_fallback_sentiment]. *)
Definition positive_words : list ustr := [
  u "bagus"; u "baik"; u "senang"; u "puas"; u "cepat"; u "lancar";
  u "mantap"; u "oke"; u "terima kasih"; u "thanks"; u "good"; u "fast";
  u "smooth"; u "great"; u "sukses"; u "mantul"; u "keren"; u "top";
  u "recommended"; u "hebat"; u "memuaskan"].

Definition negative_words : list ustr := [
  u "lambat"; u "lemot"; u "jelek"; u "buruk"; u "kecewa"; u "marah";
  u "kesal"; u "gangguan"; u "error"; u "rusak"; u "masalah"; u "complain";
  u "komplain"; u "bad"; u "slow"; u "worst"; u "terrible"; u "parah";
  u "payah"; u "down"; u "los"; u "mati"; u "putus"; u "lag"; u "kaga";
  u "gak jalan"; u "ga bisa"; u "kendala"; u "keluhan"; u "mengecewakan";
  u "zonk"; u "lelet"; u "anjlok"].

Inductive label := positive | negative | neutral.

(** [sum(1 for word in words if word in text_lower)] *)
Definition count_found (words : list ustr) (text_lower : ustr) : nat :=
  List.length (filter (fun w => contains w text_lower) words).

(** [SentimentProcessor._fallback_sentiment]. *)
Definition fallback_sentiment (text : ustr) : label :=
  let text_lower := Unicode.lower text in
  let pos_count := count_found positive_words text_lower in
  let neg_count := count_found negative_words text_lower in
  if (pos_count <? neg_count)%nat then negative
  else if (neg_count <? pos_count)%nat then positive
  else neutral.

End Sentiment.

(** ** [EmotionProcessor] (src/fastapi_app/emotion_processor.py) *)
Module Emotion.
Import Py.

(** [emoji_dict] of [EmotionProcessor.preprocess_text], as Python
    evaluates the literal: the keys are the code points stored in the
    source file, a repeated key keeps its first position and its last value. *)
Definition emoji_dict : list (ustr * ustr) := [
  ([240; 376; 732; 8364], u "senang gembira");
  ([240; 376; 732; 402], u "senang riang");
  ([240; 376; 732; 8222], u "senang ceria"); ([240; 376; 732], u "sinis");
  ([240; 376; 732; 8224], u "tertawa senang");
  ([240; 376; 732; 8230], u "senang lega");
  ([240; 376; 164; 163], u "tertawa bahagia");
  ([240; 376; 732; 8218], u "lucu senang");
  ([240; 376; 8482; 8218], u "senang");
  ([240; 376; 8482; 402], u "senang");
  ([239; 191; 189; 239; 191; 189], u "senang");
  ([240; 376; 732; 352], u "senang puas");
  ([240; 376; 732; 8225], u "senang baik");
  ([240; 376; 165; 176], u "suka cinta");
  ([240; 376; 164; 169], u "kagum senang");
  ([240; 376; 732; 732], u "suka sayang");
  ([240; 376; 732; 8212], u "suka");
  ([226; 732; 186; 239; 184], u "senang");
  ([240; 376; 732; 353], u "suka"); ([240; 376; 732; 8482], u "suka");
  ([240; 376; 165; 178], u "senang terharu");
  ([240; 376; 732; 8249], u "senang nikmat");
  ([240; 376; 732; 8250], u "senang");
  ([240; 376; 732; 339], u "senang seru");
  ([240; 376; 164; 170], u "senang gokil");
  ([240; 376; 164; 8216], u "untung serakah");
  ([240; 376; 164; 8212], u "senang hangat");
  ([240; 376; 164; 173], u "kaget"); ([240; 376; 171; 162], u "kaget");
  ([240; 376; 171; 163], u "kaget"); ([240; 376; 164; 171], u "senang");
  ([240; 376; 164; 8221], u "heran bingung");
  ([240; 376; 171; 161], u "wow"); ([240; 376; 164], u "takut diam");
  ([226; 164; 239; 184], u "suka cinta love");
  ([240; 376; 167; 161], u "suka cinta");
  ([240; 376; 8217; 8250], u "suka cinta");
  ([240; 376; 8217; 353], u "oke bagus");
  ([240; 376; 8217; 8482], u "suka cinta");
  ([240; 376; 8217; 339], u "suka cinta");
  ([240; 376; 8211; 164], u "sedih gelap");
  ([240; 376; 164; 381], u "suka");
  ([240; 376; 8217; 8226], u "suka cinta");
  ([240; 376; 8217; 382], u "suka cinta");
  ([240; 376; 8217; 8220], u "suka cinta");
  ([240; 376; 8217; 8212], u "suka cinta");
  ([240; 376; 8217; 8211], u "suka cinta");
  ([240; 376; 8217; 732], u "suka cinta");
  ([240; 376; 8217], u "suka cinta");
  ([240; 376; 8217; 376], u "suka cinta");
  ([226; 163; 239; 184], u "suka cinta");
  ([226; 164; 239; 184; 226; 8364; 240; 376; 8221; 165], u "suka cinta mantap");
  ([226; 164; 239; 184; 226; 8364; 240; 376; 169; 185], u "sedih kecewa");
  ([240; 376; 8216], u "bagus hebat");
  ([240; 376; 8482; 338], u "bagus senang");
  ([240; 376; 8216; 338], u "oke bagus");
  ([240; 376; 164; 338], u "bagus");
  ([226; 339; 338; 239; 184], u "bagus damai");
  ([240; 376; 164; 382], u "berharap"); ([240; 376; 171; 176], u "bagus");
  ([240; 376; 164; 376], u "suka love"); ([240; 376; 164; 732], u "keren");
  ([240; 376; 164; 8482], u "oke"); ([240; 376; 8216; 710], u "ini");
  ([240; 376; 8216; 8240], u "itu"); ([240; 376; 8216; 8224], u "atas");
  ([240; 376; 171; 181], u "kamu"); ([240; 376; 8216; 8225], u "bawah");
  ([226; 732; 239; 184], u "mendung");
  ([240; 376; 8216; 352], u "semangat"); ([226; 339; 352], u "semangat");
  ([240; 376; 164; 8250], u "semangat");
  ([240; 376; 164; 339], u "semangat");
  ([240; 376; 171; 182], u "cinta suka"); ([240; 376; 8482], u "sedih");
  ([240; 376; 8221; 165], u "bahaya");
  ([240; 376; 8217; 175], u "bagus sempurna maksimal");
  ([226; 173], u "wow"); ([240; 376; 338; 376], u "wow bintang");
  ([226; 339; 168], u "wow cemerlang"); ([240; 376; 8217; 171], u "wow");
  ([226; 353; 161], u "petir cepat");
  ([240; 376; 8217; 165], u "wow dahsyat");
  ([240; 376; 381; 8240], u "wow perayaan");
  ([240; 376; 381; 352], u "wow perayaan");
  ([240; 376; 381; 710], u "senang"); ([240; 376; 381], u "senang hadiah");
  ([240; 376; 381; 8364], u "senang"); ([240; 376; 381; 8224], u "wow");
  ([240; 376; 381; 8225], u "wow"); ([240; 376; 167; 168], u "wow");
  ([240; 376; 8224], u "juara sukses menang");
  ([240; 376; 165; 8225], u "juara terbaik");
  ([240; 376; 165; 710], u "bagus"); ([240; 376; 165; 8240], u "bagus");
  ([240; 376; 8230], u "juara bagus");
  ([240; 376; 381; 8211; 239; 184], u "bagus");
  ([240; 376; 732; 160], u "marah kesal");
  ([240; 376; 732; 161], u "marah geram");
  ([240; 376; 164; 172], u "marah bangsat");
  ([240; 376; 732; 164], u "kesal dongkol");
  ([240; 376; 732; 190], u "marah kesal");
  ([240; 376; 8216; 191], u "jahat marah takut");
  ([240; 376; 732; 710], u "jahat takut");
  ([240; 376; 8217; 162], u "marah kesal");
  ([240; 376; 8221; 170], u "bahaya marah");
  ([240; 376; 8212; 161; 239; 184], u "bahaya marah");
  ([226; 353; 8221; 239; 184], u "perang marah");
  ([240; 376; 8217; 163], u "marah meledak");
  ([240; 376; 8216; 381], u "jelek buruk tidak setuju");
  ([240; 376; 8211; 8226], u "marah bangsat");
  ([226; 339; 8249], u "stop berhenti");
  ([240; 376; 8250; 8216], u "stop berhenti");
  ([226; 8250; 8221], u "tidak boleh");
  ([240; 376; 353; 171], u "tidak boleh dilarang");
  ([226; 338], u "salah tidak boleh"); ([226; 381], u "salah tidak");
  ([226; 173; 8226], u "salah"); ([240; 376; 353; 183], u "dilarang");
  ([240; 376; 353; 175], u "dilarang");
  ([240; 376; 353; 179], u "dilarang");
  ([240; 376; 353; 177], u "dilarang");
  ([240; 376; 8220; 181], u "dilarang");
  ([240; 376; 8221; 382], u "dilarang");
  ([226; 732; 162; 239; 184], u "bahaya");
  ([226; 732; 163; 239; 184], u "bahaya");
  ([226; 353; 160; 239; 184], u "bahaya hati hati");
  ([240; 376; 732; 162], u "sedih menangis");
  ([240; 376; 732; 173], u "sedih menangis kecewa");
  ([240; 376; 732; 191], u "sedih menangis");
  ([240; 376; 732; 165], u "sedih kecewa");
  ([240; 376; 732; 176], u "takut khawatir");
  ([240; 376; 732; 8220], u "sedih capek");
  ([240; 376; 732; 382], u "sedih kecewa");
  ([240; 376; 732; 8221], u "sedih");
  ([240; 376; 732; 376], u "sedih khawatir");
  ([240; 376; 732; 8226], u "sedih bingung");
  ([226; 732; 185; 239; 184], u "sedih");
  ([240; 376; 732; 163], u "sedih frustasi");
  ([240; 376; 732; 8211], u "sedih tersiksa");
  ([240; 376; 732; 171], u "sedih lelah");
  ([240; 376; 732; 169], u "sedih frustasi");
  ([240; 376; 165; 186], u "sedih kasihan mohon");
  ([240; 376; 732; 170], u "ngantuk bosan");
  ([240; 376; 164; 164], u "sedih");
  ([240; 376; 732; 180], u "bosan lelah");
  ([240; 376; 732; 181], u "pusing");
  ([240; 376; 732; 181; 226; 8364; 240; 376; 8217; 171], u "pusing bingung");
  ([240; 376; 171; 164], u "kecewa"); ([240; 376; 165; 177], u "bosan");
  ([240; 376; 732; 174; 226; 8364; 240; 376; 8217; 168], u "lelah lega");
  ([240; 376; 732; 182; 226; 8364; 240; 376; 338; 171; 239; 184], u "bingung");
  ([240; 376; 8217; 8221], u "sedih kecewa patah hati");
  ([226; 353; 171], u "sedih gelap");
  ([240; 376; 8217; 8364], u "takut mati");
  ([226; 732; 160; 239; 184], u "bahaya takut");
  ([240; 376; 8216; 187], u "takut hantu");
  ([240; 376; 732; 168], u "takut cemas");
  ([240; 376; 732; 177], u "kaget shock takut");
  ([240; 376; 732; 167], u "kaget cemas");
  ([240; 376; 732; 166], u "kaget");
  ([240; 376; 732; 174], u "kaget heran");
  ([240; 376; 732; 175], u "kaget heran");
  ([240; 376; 732; 178], u "kaget shock wow");
  ([240; 376; 171; 168], u "kaget gemetar");
  ([240; 376; 732; 179], u "kaget malu heran");
  ([240; 376; 165; 182], u "dingin");
  ([240; 376; 732; 172], u "takut canggung");
  ([240; 376; 8482; 352], u "takut");
  ([240; 376; 8482; 710], u "takut malu");
  ([240; 376; 8482; 8240], u "takut");
  ([240; 376; 8216; 185], u "takut seram");
  ([240; 376; 8216; 186], u "takut marah");
  ([240; 376; 8216; 189], u "takut aneh");
  ([240; 376; 8216; 190], u "takut"); ([240; 376; 164; 8211], u "robot");
  ([240; 376; 164; 175], u "gila wow shock");
  ([240; 376; 8482; 8364], u "kaget shock");
  ([240; 376; 167], u "atm uang"); ([240; 376; 171; 165], u "hilang");
  ([240; 376; 732; 182], u "diam"); ([240; 376; 338; 160], u "wow");
  ([240; 376; 164; 162], u "mual jijik");
  ([240; 376; 164; 174], u "muntah jijik mual");
  ([240; 376; 164; 167], u "sakit"); ([240; 376; 732; 183], u "sakit");
  ([240; 376; 164; 8217], u "sakit"); ([240; 376; 164; 8226], u "sakit");
  ([240; 376; 165; 180], u "mabuk pusing");
  ([240; 376; 171; 160], u "hancur"); ([240; 376; 165; 181], u "panas");
  ([240; 376; 8217; 169], u "tai jelek jijik");
  ([240; 376; 353; 189], u "toilet"); ([240; 376; 167; 187], u "kotor");
  ([240; 376; 8212; 8216; 239; 184], u "sampah jelek");
  ([226; 8482; 187; 239; 184], u "daur ulang");
  ([226; 353; 176; 239; 184], u "mati"); ([240; 376; 170; 166], u "mati");
  ([240; 376; 169; 184], u "darah");
  ([240; 376; 166; 160], u "virus jijik");
  ([240; 376; 8364], u "tikus jijik"); ([240; 376], u "ular bahaya");
  ([240; 376; 8226; 183; 239; 184], u "laba jijik");
  ([240; 376; 166; 8218], u "kalajengking bahaya");
  ([240; 376; 732; 8216], u "datar bosan");
  ([240; 376; 8482; 8222], u "bosan");
  ([240; 376; 732; 8217], u "bosan malas");
  ([240; 376; 164; 168], u "curiga heran");
  ([240; 376; 164; 8220], u "pintar"); ([240; 376; 732; 381], u "keren");
  ([240; 376; 165; 184], u "menyamar");
  ([240; 376; 164; 161], u "badut lucu");
  ([240; 376; 165; 179], u "senang perayaan");
  ([240; 376; 732; 338], u "tenang");
  ([226; 339; 8230], u "benar bagus setuju");
  ([226; 732; 8216; 239; 184], u "benar setuju");
  ([226; 339; 8221; 239; 184], u "benar bagus");
  ([240; 376; 8224; 8212], u "oke"); ([240; 376; 8224; 8217], u "keren");
  ([240; 376; 8224; 8226], u "baru"); ([240; 376; 8224; 8220], u "gratis");
  ([240; 376; 381; 175], u "tepat bagus");
  ([240; 376; 8220; 710], u "naik bagus");
  ([240; 376; 8220; 8240], u "turun jelek");
  ([240; 376; 8217; 185], u "untung");
  ([240; 376; 8217; 184], u "mahal rugi");
  ([240; 376; 8217; 176], u "uang untung");
  ([240; 376; 8217; 181], u "uang"); ([240; 376; 8217; 180], u "uang");
  ([240; 376; 8217; 182], u "uang"); ([240; 376; 8217; 183], u "uang");
  ([240; 376; 8220; 177], u "hp telepon");
  ([240; 376; 8220; 178], u "telepon");
  ([226; 732; 381; 239; 184], u "telepon");
  ([240; 376; 8220; 382], u "telepon"); ([240; 376; 8220; 376], u "pager");
  ([240; 376; 8220; 160], u "fax");
  ([240; 376; 8217; 187], u "komputer laptop");
  ([240; 376; 8211; 165; 239; 184], u "komputer");
  ([226; 338; 168; 239; 184], u "keyboard");
  ([240; 376; 8211; 177; 239; 184], u "mouse");
  ([240; 376; 8211; 168; 239; 184], u "printer");
  ([240; 376; 8217; 190], u "save"); ([240; 376; 8217; 191], u "cd");
  ([240; 376; 8220; 8364], u "dvd"); ([240; 376; 167; 174], u "hitung");
  ([240; 376; 8220; 182], u "sinyal internet");
  ([240; 376; 8220; 161], u "sinyal antena");
  ([240; 376; 8250; 339], u "wifi"); ([240; 376; 8220; 179], u "getar");
  ([240; 376; 8220; 180], u "mati"); ([240; 376; 8221; 8249], u "baterai");
  ([240; 376; 170; 171], u "lowbat"); ([240; 376; 8221; 338], u "charger");
  ([240; 376; 8217; 161], u "ide bagus");
  ([240; 376; 8221; 166], u "lampu");
  ([240; 376; 8226; 175; 239; 184], u "lilin");
  ([240; 376; 170; 8221], u "lampu"); ([240; 376; 8217; 168], u "cepat");
  ([240; 376; 402], u "lari cepat");
  ([240; 376; 402; 226; 8364; 226; 8482; 8364; 239; 184], u "lari cepat");
  ([240; 376; 402; 226; 8364; 226; 8482; 8218; 239; 184], u "lari cepat");
  ([226; 176], u "waktu"); ([226; 177; 239; 184], u "waktu");
  ([226; 178; 239; 184], u "waktu"); ([226; 338; 353], u "jam");
  ([226; 338; 8250], u "waktu habis"); ([226; 179], u "waktu");
  ([240; 376; 8226], u "jam"); ([240; 376; 8226; 8216], u "jam");
  ([240; 376; 8226; 8217], u "jam");
  ([226; 732; 8364; 239; 184], u "cerah bagus");
  ([240; 376; 338; 164; 239; 184], u "bagus");
  ([226; 8250; 8230], u "oke");
  ([240; 376; 338; 165; 239; 184], u "mendung");
  ([240; 376; 338; 166; 239; 184], u "hujan");
  ([240; 376; 338; 167; 239; 184], u "hujan sedih");
  ([226; 8250; 710; 239; 184], u "badai");
  ([240; 376; 338; 169; 239; 184], u "petir bahaya");
  ([226; 8222; 239; 184], u "dingin");
  ([240; 376; 338; 168; 239; 184], u "salju");
  ([226; 732; 402; 239; 184], u "salju"); ([226; 8250; 8222], u "salju");
  ([240; 376; 338; 172; 239; 184], u "angin");
  ([240; 376; 8217; 167], u "air"); ([240; 376; 8217; 166], u "basah");
  ([226; 732; 8221], u "hujan"); ([240; 376; 338; 352], u "ombak");
  ([240; 376; 338; 710], u "bagus indah")].

(** [re.sub(r'http[s]?://\S+', '', text)] *)
Definition m_url : matcher := fun s =>
  first_some
    (match strip_prefix (u "https://") s with
     | Some r => match plus not_space r with Some (_, rest) => Some ([], rest) | None => None end
     | None => None
     end)
    (match strip_prefix (u "http://") s with
     | Some r => match plus not_space r with Some (_, rest) => Some ([], rest) | None => None end
     | None => None
     end).

(** [re.sub(r'www\.\S+', '', text)] *)
Definition m_www : matcher := fun s =>
  match strip_prefix (u "www.") s with
  | Some r => match plus not_space r with Some (_, rest) => Some ([], rest) | None => None end
  | None => None
  end.

(** [EmotionProcessor.preprocess_text]. *)
Definition preprocess_text (x : pyval) : ustr :=
  match x with
  | PyNone | PyNaN | PyStr [] => []
  | PyStr text =>
      let text := Norm.convert_emoji emoji_dict text in
      let text := sub m_url text in
      let text := sub m_www text in
      let text := sub Norm.m_mention text in
      let text := sub Norm.m_hashtag text in
      Norm.tail_steps text
  end.

(** [self.emotion_lexicons], category by category. *)
Definition lexicon_joy : list ustr := [
  u "senang"; u "gembira"; u "bahagia"; u "suka"; u "riang"; u "ceria";
  u "sumringah"; u "girang"; u "sukacita"; u "bergembira"; u "bersuka";
  u "riang gembira"; u "puas"; u "memuaskan"; u "terpuaskan";
  u "satisfying"; u "satisfied"; u "content"; u "lega"; u "tenang";
  u "nyaman"; u "aman"; u "damai"; u "tenteram"; u "mantap"; u "mantul";
  u "mantab"; u "josss"; u "jos"; u "joss"; u "juara"; u "super";
  u "bagus"; u "keren"; u "hebat"; u "top"; u "terbaik"; u "maksimal";
  u "optimal"; u "excellent"; u "good"; u "great"; u "awesome";
  u "fantastic"; u "wonderful"; u "amazing"; u "outstanding";
  u "brilliant"; u "superb"; u "magnificent"; u "sukses"; u "berhasil";
  u "success"; u "successful"; u "winning"; u "win"; u "berjaya";
  u "menang"; u "lancar"; u "mulus"; u "sempurna"; u "perfect"; u "cepat";
  u "kilat"; u "instant"; u "responsif"; u "fast"; u "quick"; u "rapid";
  u "efisien"; u "smooth"; u "lancar jaya"; u "terima kasih";
  u "terimakasih"; u "makasih"; u "thanks"; u "thank you"; u "appreciate";
  u "grateful"; u "syukur"; u "alhamdulillah"; u "terima"; u "recommended";
  u "recommend"; u "terpercaya"; u "trusted"; u "reliable"; u "worth it";
  u "worthed"; u "oke banget"; u "ok banget"; u "cocok"; u "unggul";
  u "superior"; u "terdepan"; u "nomor satu"; u "no 1"; u "number one";
  u "profesional"; u "berkualitas"; u "kualitas"; u "quality"; u "premium";
  u "seneng"; u "happy"; u "happiness"; u "cheerful"; u "joyful";
  u "delighted"; u "seru"; u "asik"; u "asyik"; u "menyenangkan"; u "fun";
  u "enjoyable"; u "love"; u "suka banget"; u "cinta"; u "favorit";
  u "favorite"; u "fav"; u "terfavorit"; u "kesukaan"; u "idola";
  u "kagum"; u "mengagumkan"; u "impressive"; u "impressed"; u "inspiring";
  u "memukau"; u "menakjubkan"; u "spektakuler"; u "spectacular";
  u "stabil"; u "stable"; u "konsisten"; u "consistent"; u "terjamin";
  u "solid"; u "kuat"; u "tangguh"; u "handal"].

Definition lexicon_anger : list ustr := [
  u "marah"; u "angry"; u "anger"; u "rage"; u "furious"; u "mad";
  u "murka"; u "geram"; u "mengamuk"; u "berang"; u "gusar"; u "kesal";
  u "jengkel"; u "dongkol"; u "sebal"; u "sebel"; u "annoyed";
  u "annoying"; u "menyebalkan"; u "menjengkelkan"; u "irritated";
  u "upset"; u "gondok"; u "gemes"; u "geregetan"; u "bete"; u "bt";
  u "benci"; u "hate"; u "hatred"; u "muak"; u "jijay"; u "antipati";
  u "tidak suka"; u "ga suka"; u "gak suka"; u "nggak suka"; u "bangsat";
  u "sialan"; u "kampret"; u "brengsek"; u "keparat"; u "bajingan";
  u "fuck"; u "shit"; u "damn"; u "hell"; u "asshole"; u "bitch";
  u "anjing"; u "anjir"; u "anjay"; u "anjrit"; u "anj"; u "ajg"; u "anjg";
  u "goblok"; u "tolol"; u "bodoh"; u "idiot"; u "stupid"; u "dungu";
  u "bego"; u "tai"; u "kontol"; u "memek"; u "pepek"; u "jancuk";
  u "jancok"; u "tidak profesional"; u "ga profesional";
  u "gak profesional"; u "kurang profesional"; u "unprofessional";
  u "amatir"; u "amateur"; u "asal"; u "sembarangan"; u "acak"; u "ngaco";
  u "kacau"; u "chaos"; u "payah"; u "parah"; u "teruk"; u "jelek banget";
  u "buruk sekali"; u "worst"; u "terrible"; u "horrible"; u "awful";
  u "disgusting"; u "menyebalkan"; u "mengecewakan"; u "disappointing";
  u "protes"; u "complain"; u "komplain"; u "keluhkan"; u "report";
  u "laporkan"; u "somasi"; u "tuntut"; u "gugat"; u "boikot"; u "boycott";
  u "blacklist"; u "batalkan"; u "cancel"; u "unsubscribe"; u "berhenti";
  u "stop"; u "jangan lagi"; u "kapok"; u "curang"; u "tipu"; u "bohong";
  u "penipuan"; u "scam"; u "fraud"; u "nipu"; u "menipu"; u "penipu";
  u "pembohong"; u "liar"; u "hoax"].

Definition lexicon_sadness : list ustr := [
  u "sedih"; u "sad"; u "sadness"; u "sorrow"; u "grief"; u "unhappy";
  u "duka"; u "pilu"; u "nelangsa"; u "sendu"; u "murung"; u "gloomy";
  u "kecewa"; u "disappointed"; u "disappointing"; u "mengecewakan";
  u "zonk"; u "gagal"; u "failure"; u "failed"; u "fail"; u "hancur";
  u "broken"; u "terpuruk"; u "jatuh"; u "down"; u "depresi";
  u "depressed"; u "depression"; u "hopeless"; u "putus asa"; u "frustasi";
  u "frustrated"; u "frustrasi"; u "stress"; u "tertekan"; u "galau";
  u "bingung"; u "confused"; u "lost"; u "tersesat"; u "ragu"; u "doubt";
  u "uncertain"; u "tidak yakin"; u "menyesal"; u "regret"; u "rugi";
  u "loss"; u "sia sia"; u "percuma"; u "sayang"; u "kasihan"; u "pity";
  u "pathetic"; u "menyedihkan"; u "capek"; u "lelah"; u "tired";
  u "exhausted"; u "burnout"; u "jenuh"; u "bosan"; u "bored"; u "boring";
  u "membosankan"; u "penat"; u "letih"; u "lemas"; u "lemah"; u "weak";
  u "menyerah"; u "give up"; u "resign"; u "pasrah"; u "tamat";
  u "berakhir"; u "end"; u "ending"; u "selesai sudah"; u "habis";
  u "rindu"; u "miss"; u "missing"; u "hilang"; u "kehilangan"; u "lost";
  u "pergi"; u "gone"; u "ditinggal"; u "abandoned"; u "menderita";
  u "suffering"; u "sakit"; u "pain"; u "painful"; u "tersiksa";
  u "torture"; u "sengsara"; u "misery"; u "miserable"; u "tragis";
  u "tragic"; u "tragedy"; u "tragedi"; u "naas"; u "malang"; u "sial";
  u "unlucky"; u "nasib buruk"].

Definition lexicon_fear : list ustr := [
  u "takut"; u "fear"; u "scared"; u "afraid"; u "frightened";
  u "terrified"; u "ngeri"; u "seram"; u "menakutkan"; u "scary";
  u "spooky"; u "creepy"; u "khawatir"; u "worried"; u "worry";
  u "concern"; u "concerned"; u "cemas"; u "anxious"; u "anxiety";
  u "gelisah"; u "resah"; u "risau"; u "was was"; u "was-was"; u "waswas";
  u "hawatir"; u "panik"; u "panic"; u "kalut"; u "kacau";
  u "bingung panik"; u "deg degan"; u "deg-degan"; u "tegang"; u "tense";
  u "nervous"; u "grogi"; u "gugup"; u "gemetar"; u "trembling";
  u "bahaya"; u "dangerous"; u "danger"; u "berbahaya"; u "unsafe";
  u "berisiko"; u "risky"; u "risk"; u "rawan"; u "rawan bahaya";
  u "ancaman"; u "threat"; u "mengancam"; u "threatening"; u "tidak aman";
  u "ga aman"; u "gak aman"; u "insecure"; u "rawan"; u "rentan";
  u "vulnerable"; u "lemah"; u "horor"; u "horror"; u "menyeramkan";
  u "mengerikan"; u "horrifying"; u "menakutkan"; u "frightening";
  u "terrifying"; u "trauma"; u "traumatic"; u "fobia"; u "phobia";
  u "nightmare"; u "mimpi buruk"; u "ketakutan"; u "paranoid";
  u "paranoia"; u "ragu takut"; u "takut takut"; u "was was";
  u "jangan jangan"; u "mudah mudahan tidak"; u "semoga tidak";
  u "hopefully not"; u "shock"; u "shocked"; u "kaget takut";
  u "terkejut takut"; u "oh no"; u "oh tidak"; u "aduh"; u "ampun";
  u "tolong"; u "jangan sampai"; u "mudah mudahan aman"; u "hati hati";
  u "waspada"; u "alert"; u "awas"; u "careful"; u "be careful"].

Definition lexicon_surprise : list ustr := [
  u "kaget"; u "terkejut"; u "surprised"; u "surprise"; u "shocking";
  u "shocked"; u "shock"; u "mengejutkan"; u "mencengangkan"; u "heran";
  u "terheran"; u "wonder"; u "wondering"; u "curious"; u "penasaran";
  u "aneh"; u "strange"; u "weird"; u "odd"; u "takjub"; u "amazed";
  u "amazing"; u "awe"; u "awesome"; u "menakjubkan"; u "memukau";
  u "impressive"; u "spectacular"; u "tidak percaya"; u "ga percaya";
  u "gak percaya"; u "unbelievable"; u "incredible"; u "serius";
  u "serious"; u "beneran"; u "really"; u "masa"; u "masa sih";
  u "apa iya"; u "benarkah"; u "is it true"; u "unexpected"; u "tiba tiba";
  u "tiba-tiba"; u "mendadak"; u "terduga"; u "tidak terduga";
  u "diluar dugaan"; u "ternyata"; u "rupanya"; u "oh ternyata";
  u "oh rupanya"; u "wow"; u "woah"; u "waw"; u "wih"; u "wiw"; u "wah";
  u "weh"; u "gila"; u "gile"; u "gokil"; u "gilak"; u "gilaaa"; u "anjir";
  u "anjay"; u "anjrit"; u "astaga"; u "astagfirullah"; u "masyaallah";
  u "subhanallah"; u "ya allah"; u "ya ampun"; u "serius"; u "serius nih";
  u "beneran"; u "kok bisa"; u "gimana bisa"; u "how come"; u "what";
  u "apa"; u "hah"; u "lho"; u "loh"; u "lo"; u "eh"; u "eeh"; u "heh";
  u "ha"; u "what the"; u "omg"; u "oh my god"; u "oh my"; u "god";
  u "demi apa"; u "demi tuhan"; u "ampun dah"; u "asli"; u "bener bener";
  u "plot twist"; u "twist"; u "balik"; u "kebalikan"; u "berlawanan";
  u "kontras"; u "berbeda"; u "beda banget"].

Definition lexicon_disgust : list ustr := [
  u "jijik"; u "jijay"; u "disgusting"; u "disgust"; u "gross"; u "ew";
  u "eww"; u "yuck"; u "yikes"; u "ugh"; u "muak"; u "mual"; u "enek";
  u "eneg"; u "muntah"; u "nauseous"; u "pengen muntah"; u "mau muntah";
  u "bikin mual"; u "bikin muntah"; u "jorok"; u "kotor"; u "dirty";
  u "filthy"; u "najis"; u "cemar"; u "busuk"; u "bau"; u "smelly";
  u "stink"; u "basi"; u "rotten"; u "menjijikkan"; u "hina"; u "rendah";
  u "low"; u "despicable"; u "memalukan"; u "shameful"; u "shame";
  u "embarrassing"; u "buruk"; u "jelek"; u "ugly"; u "bad"; u "terrible";
  u "awful"; u "horrible"; u "worst"; u "terburuk"; u "paling jelek";
  u "sampah"; u "trash"; u "garbage"; u "rubbish"; u "waste";
  u "menyeramkan"; u "mengerikan"; u "horrifying"; u "horrific";
  u "menakutkan"; u "disturbing"; u "disturb"; u "mengganggu"; u "keji";
  u "kejam"; u "cruel"; u "sadis"; u "sadistic"; u "biadab"; u "brutal";
  u "kasar"; u "harsh"; u "rough"; u "tolak"; u "reject"; u "menolak";
  u "tidak mau"; u "ga mau"; u "ogah"; u "males"; u "kapok"; u "jangan";
  u "no way"; u "parah"; u "parah banget"; u "teruk"; u "buruk sekali";
  u "ancur"; u "hancur"; u "destroyed"; u "rusak parah"; u "tai"; u "taik";
  u "shit"; u "crap"; u "poop"; u "babi"; u "pig"; u "swine"; u "bangkai";
  u "sampah masyarakat"].

Inductive label := joy | anger | sadness | fear | surprise | disgust | neutral.

(** The dictionary [self.emotion_lexicons] in its insertion order. *)
Definition emotion_lexicons : list (label * list ustr) :=
  [(joy, lexicon_joy); (anger, lexicon_anger); (sadness, lexicon_sadness);
   (fear, lexicon_fear); (surprise, lexicon_surprise); (disgust, lexicon_disgust)].

Definition padded (s : ustr) : ustr := Norm.space :: s ++ [Norm.space].

(** The inner loop of [predict_emotion] for one category: 2 points when
    [f' {word} ' in f' {text_lower} '], else 1 when [word in text_lower]. *)
Definition score (words : list ustr) (text_lower : ustr) : nat :=
  fold_left (fun acc w =>
               if contains w text_lower then
                 if contains (padded w) (padded text_lower) then (acc + 2)%nat
                 else (acc + 1)%nat
               else acc) words 0%nat.

Definition emotion_scores (text_lower : ustr) : list (label * nat) :=
  map (fun '(e, words) => (e, score words text_lower)) emotion_lexicons.

(** [max(emotion_scores.values())] *)
Definition max_score (scores : list (label * nat)) : nat :=
  fold_left (fun m '(_, s) => Nat.max m s) scores 0%nat.

(** The final loop: the first category whose score is the maximum. *)
Fixpoint first_with_score (scores : list (label * nat)) (m : nat) : label :=
  match scores with
  | [] => neutral
  | (e, s) :: r => if Nat.eqb s m then e else first_with_score r m
  end.

(** [EmotionProcessor.predict_emotion]. *)
Definition predict_emotion (text : ustr) : label :=
  match text with
  | [] => neutral
  | _ =>
      match strip text with
      | [] => neutral
      | _ =>
          let text_lower := Unicode.lower text in
          let scores := emotion_scores text_lower in
          let m := max_score scores in
          if Nat.eqb m 0 then neutral else first_with_score scores m
      end
  end.

(** One step of the running maximum of [max_score]. *)
Definition step (m : nat) (p : label * nat) : nat := let '(_, s) := p in Nat.max m s.

End Emotion.

(** ** Numbers

    Python floats are modelled by exact rationals; [round(x, n)] rounds
    half to even, as CPython does on the exact value of its argument. *)
Module PyNum.
Local Open Scope Q_scope.

Definition round_half_even (q : Q) : Z :=
  let f := Qfloor q in
  match Qcompare (q - inject_Z f) (1 # 2) with
  | Lt => f
  | Gt => f + 1
  | Eq => if Z.even f then f else f + 1
  end.

(** [round(q, ndigits)] *)
Definition py_round (q : Q) (ndigits : nat) : Q :=
  let p := inject_Z (10 ^ Z.of_nat ndigits) in
  inject_Z (round_half_even (q * p)) / p.

(** [min(hi, max(lo, q))] *)
Definition clamp (lo hi q : Q) : Q :=
  if Qle_bool hi (if Qle_bool lo q then q else lo) then hi
  else if Qle_bool lo q then q else lo.

End PyNum.

(** ** Label distribution of [generate_sentiment_report] and
    [generate_emotion_report] *)
Module Report.
Import Py PyNum.
Local Open Scope Q_scope.

Definition count_of (a : ustr) (l : list ustr) : nat :=
  List.length (filter (ustr_eqb a) l).

(** Distinct values in order of first appearance. *)
Fixpoint uniques (l : list ustr) : list ustr :=
  match l with
  | [] => []
  | x :: r => x :: filter (fun y => negb (ustr_eqb x y)) (uniques r)
  end.

(** Stable insertion by decreasing count. *)
Fixpoint insert_desc (p : ustr * nat) (l : list (ustr * nat)) : list (ustr * nat) :=
  match l with
  | [] => [p]
  | q :: r => if (snd q <? snd p)%nat then p :: q :: r else q :: insert_desc p r
  end.

Definition sort_desc (l : list (ustr * nat)) : list (ustr * nat) :=
  fold_right insert_desc [] (rev l).

(** [df[column].value_counts().to_dict()]: every distinct label with its
    number of rows, most frequent first. *)
Definition value_counts (l : list ustr) : list (ustr * nat) :=
  sort_desc (map (fun a => (a, count_of a l)) (uniques l)).

Record dist_entry := { count : nat; percentage : Q }.

(** [{label: {'count': int(count), 'percentage': round((count / total) * 100, 2)}
      for label, count in counts.items()}] with [total = len(df)]. *)
Definition distribution (column : list ustr) : list (ustr * dist_entry) :=
  let total := List.length column in
  map (fun '(l, c) =>
         (l, {| count := c;
                percentage := py_round ((inject_Z (Z.of_nat c) / inject_Z (Z.of_nat total)) * 100) 2 |}))
      (value_counts column).

Record report := { label_distribution : list (ustr * dist_entry); total_analyzed : nat }.

(** The distribution and [total_analyzed] fields of
    [SentimentProcessor.generate_sentiment_report], from the [sentiment]
    column of the analysed frame. *)
Definition generate_sentiment_report (sentiment : list ustr) : report :=
  {| label_distribution := distribution sentiment;
     total_analyzed := List.length sentiment |}.

(** The same fields of [EmotionProcessor.generate_emotion_report], from
    the [emotion] column. *)
Definition generate_emotion_report (emotion : list ustr) : report :=
  {| label_distribution := distribution emotion;
     total_analyzed := List.length emotion |}.

Definition sum_counts (d : list (ustr * dist_entry)) : nat :=
  fold_right (fun '(_, e) acc => (count e + acc)%nat) 0%nat d.

(** The sum of a list of counts. *)
Definition nsum (l : list nat) : nat := fold_right Nat.add 0%nat l.

End Report.

(** ** [RecommendationProcessor._calculate_performance_score] *)
Module Score.
Import Py PyNum.
Local Open Scope Q_scope.

(** A [*_distribution] dictionary, reduced to its percentages. *)
Definition dist := list (ustr * Q).

(** [dist.get(label, {}).get('percentage', 0)] *)
Definition pct (d : dist) (label : ustr) : Q :=
  match find (fun p => ustr_eqb (fst p) label) d with
  | Some (_, q) => q
  | None => 0
  end.

(** [engagement_data.get('total_posts', 1)] and
    [engagement_data.get('total_engagement', 0)]. *)
Record engagement := { total_posts : option Q; total_engagement : option Q }.

(** The arithmetic of [_calculate_performance_score] is that of Python's
    floats, IEEE binary64 doubles: [PrimFloat.float]. *)
Import PrimFloat.

(** The double nearest the integer [n] (exact below 2^53). *)
Definition float_of_Z (n : Z) : float :=
  FloatOps.SF2Prim (SpecFloat.binary_normalize FloatOps.prec FloatOps.emax n 0 false).

(** The double nearest [q] when its numerator and denominator are below
    2^53, as the division of the two gives it: the double of a decimal
    literal such as [0.35], and the double itself when [q] is the exact
    value of one. *)
Definition of_Q (q : Q) : float := (float_of_Z (Qnum q) / float_of_Z (Zpos (Qden q)))%float.

(** The exact value of a finite double; [None] for nan and infinities. *)
Definition to_Q (x : float) : option Q :=
  match FloatOps.Prim2SF x with
  | SpecFloat.S754_zero _ => Some 0
  | SpecFloat.S754_finite s m e =>
      let v := if s then Zneg m else Zpos m in
      Some (match e with Zneg p => v # (2 ^ p)%positive | _ => inject_Z (v * 2 ^ e) end)
  | _ => None
  end.

(** [round(x, ndigits)] on a float (CPython's [double_round]): the exact
    value of [x] rounded half to even at [ndigits] decimals, read back as the
    nearest double (the sign of a zero aside); nans and infinities round to
    themselves.  On the ints [0], [50], [75] and [100] that the code also
    rounds, [round] gives the same number. *)
Definition round_float (x : float) (ndigits : nat) : float :=
  match to_Q x with
  | Some q => of_Q (py_round q ndigits)
  | None => x
  end.

(** A [*_distribution] dictionary with the float percentages the code
    reads. *)
Definition float_dist := list (ustr * float).

(** [dist.get(label, {}).get('percentage', 0)] *)
Definition float_pct (d : float_dist) (label : ustr) : float :=
  match find (fun p => ustr_eqb (fst p) label) d with
  | Some (_, x) => x
  | None => 0%float
  end.

(** [engagement_data.get('total_posts', 1)] and
    [engagement_data.get('total_engagement', 0)]: the int totals of
    [get_basic_statistics] as doubles (exact below 2^53, where Python's
    [int / int] is the division of the doubles). *)
Record engagement_data := {
  f_total_posts : option float; f_total_engagement : option float }.

Inductive rating := Excellent | Good | Fair | Poor.

Record scores := {
  sentiment_score : float; emotion_score : float; engagement_score : float;
  overall_score : float; score_rating : rating }.

(** [min(100, max(0, x))]: [max] keeps [0] unless [x > 0], [min] keeps
    [100] unless the other value is below it. *)
Definition clamp_float (x : float) : float :=
  let y := if (0 <? x)%float then x else 0%float in
  if (y <? 100)%float then y else 100%float.

Definition engagement_sub_score (avg_engagement : float) : float :=
  if (200 <=? avg_engagement)%float then 100%float
  else if (100 <=? avg_engagement)%float then 75%float
  else if (50 <=? avg_engagement)%float then 50%float
  else ((avg_engagement / 50) * 50)%float.

Definition average_engagement (e : engagement_data) : float :=
  let tp := match f_total_posts e with Some x => x | None => 1%float end in
  let te := match f_total_engagement e with Some x => x | None => 0%float end in
  if (0 <? tp)%float then (te / tp)%float else 0%float.

Definition rating_of (overall : float) : rating :=
  if (80 <=? overall)%float then Excellent
  else if (60 <=? overall)%float then Good
  else if (40 <=? overall)%float then Fair
  else Poor.

(** The literals [0.35] and [0.30]. *)
Definition w35 : float := of_Q (35 # 100).
Definition w30 : float := of_Q (30 # 100).

(** The three reports: [None] when the report is empty or lacks its
    [*_distribution] key (for engagement: when the dictionary is empty). *)
Definition calculate_performance_score (sentiment_data emotion_data : option float_dist)
    (engagement_data : option engagement_data) : scores :=
  let s :=
    match sentiment_data with
    | Some d =>
        round_float (clamp_float (float_pct d (u "positive") - float_pct d (u "negative") + 50)%float) 1
    | None => 0%float
    end in
  let e :=
    match emotion_data with
    | Some d =>
        round_float (clamp_float (float_pct d (u "joy")
                    - (float_pct d (u "anger") + float_pct d (u "sadness")
                       + float_pct d (u "disgust")) + 50)%float) 1
    | None => 0%float
    end in
  let g :=
    match engagement_data with
    | Some en => round_float (engagement_sub_score (average_engagement en)) 1
    | None => 0%float
    end in
  let overall := (s * w35 + e * w35 + g * w30)%float in
  {| sentiment_score := s; emotion_score := e; engagement_score := g;
     overall_score := round_float overall 1; score_rating := rating_of overall |}.

(** The percentages held as [Q] by the rule batteries, read as doubles. *)
Definition float_dist_of (d : dist) : float_dist := map (fun p => (fst p, of_Q (snd p))) d.

Definition engagement_data_of (e : engagement) : engagement_data :=
  {| f_total_posts := option_map of_Q (total_posts e);
     f_total_engagement := option_map of_Q (total_engagement e) |}.

End Score.

(** ** Priority sort of [RecommendationProcessor.generate_recommendations] *)
Module Recommend.

Inductive priority := critical | high | medium | low.

Record recommendation := {
  category : ustr; priority_of : priority; title : ustr; description : ustr;
  actionable_steps : list ustr; impact : ustr; effort : ustr }.

(** [self.priority_levels[p]['weight']] *)
Definition weight (p : priority) : nat :=
  match p with critical => 1 | high => 2 | medium => 3 | low => 4 end%nat.

Definition key (r : recommendation) : nat := weight (priority_of r).

(** Insertion after every element of smaller or equal key. *)
Fixpoint insert (r : recommendation) (l : list recommendation) : list recommendation :=
  match l with
  | [] => [r]
  | x :: l' => if (key r <? key x)%nat then r :: l else x :: insert r l'
  end.

(** [recommendations.sort(key=lambda x: self.priority_levels[x['priority']]['weight'])]:
    [list.sort] is stable, and so is this insertion sort. *)
Definition sort_by_priority (l : list recommendation) : list recommendation :=
  fold_left (fun acc r => insert r acc) l [].

(** The order of the sort: by [key] only. *)
Definition le_key (a b : recommendation) : Prop := (key a <= key b)%nat.

(** The recommendations of a given [key], in their order. *)
Definition with_key (k : nat) (l : list recommendation) : list recommendation :=
  filter (fun r => Nat.eqb (key r) k) l.

Section Generate.
(** The five rule batteries [_analyze_sentiment], [_analyze_emotions],
    [_analyze_topics], [_analyze_engagement] and [_analyze_timing], each a
    function of its own input report. *)
Variables SentimentData EmotionData TopicData EngagementData PeakData : Type.
Variable analyze_sentiment : SentimentData -> list recommendation.
Variable analyze_emotions : EmotionData -> list recommendation.
Variable analyze_topics : TopicData -> list recommendation.
Variable analyze_engagement : EngagementData -> list recommendation.
Variable analyze_timing : PeakData -> list recommendation.

(** The recommendations in generation order, before the sort. *)
Definition generated sd ed td engd pd : list recommendation :=
  analyze_sentiment sd ++ analyze_emotions ed ++ analyze_topics td
  ++ analyze_engagement engd ++ analyze_timing pd.

(** The [recommendations] field of [generate_recommendations]. *)
Definition generate_recommendations sd ed td engd pd : list recommendation :=
  sort_by_priority (generated sd ed td engd pd).

End Generate.

End Recommend.

(** ** [DataProcessor.get_peak_activity_hours] *)
Module Peak.

Fixpoint uniques (l : list Z) : list Z :=
  match l with
  | [] => []
  | x :: r => x :: filter (fun y => negb (x =? y)) (uniques r)
  end.

Definition count (h : Z) (l : list Z) : Z := Z.of_nat (List.length (filter (Z.eqb h) l)).

(** [Counter(hours).items()]: the rows [[hour, count]] of [X], distinct
    hours in order of first appearance. *)
Definition hour_counts (hours : list Z) : list (Z * Z) :=
  map (fun h => (h, count h hours)) (uniques hours).

Definition sumZ (l : list Z) : Z := fold_right Z.add 0 l.

Definition meanQ (xs : list Z) : Q :=
  (inject_Z (sumZ xs) / inject_Z (Z.of_nat (List.length xs)))%Q.

(** Population variance, as [StandardScaler] computes it. *)
Definition varianceQ (xs : list Z) : Q :=
  let m := meanQ xs in
  (fold_right (fun x acc => (inject_Z x - m) * (inject_Z x - m) + acc) 0 xs
     / inject_Z (Z.of_nat (List.length xs)))%Q.

(** Squared difference of two values of one column after
    [StandardScaler]: a column of zero variance is scaled by 1 and
    centred, so all its values become 0. *)
Definition scaled_sq_diff (var : Q) (a b : Z) : Q :=
  if Qeq_bool var 0 then 0%Q else (inject_Z ((a - b) * (a - b)) / var)%Q.

(** [DBSCAN(eps=0.5, min_samples=2)] on [StandardScaler().fit_transform(X)]:
    the radius neighbourhoods (distance at most [eps], the point itself
    included), listed by increasing index. *)
Definition neighborhoods (X : list (Z * Z)) : list (list nat) :=
  let vh := varianceQ (map fst X) in
  let vc := varianceQ (map snd X) in
  let n := List.length X in
  map (fun i =>
         let p := nth i X (0, 0) in
         filter (fun j =>
                   let q := nth j X (0, 0) in
                   Qle_bool (scaled_sq_diff vh (fst p) (fst q) + scaled_sq_diff vc (snd p) (snd q))
                            (1 # 4))
                (seq 0 n))
      (seq 0 n).

Fixpoint set_nth (l : list Z) (i : nat) (v : Z) : list Z :=
  match l, i with
  | [], _ => []
  | _ :: r, O => v :: r
  | x :: r, S i' => x :: set_nth r i' v
  end.

(** The depth-first search of scikit-learn's [dbscan_inner]; the stack
    is a list whose head is its back. *)
Fixpoint expand (fuel : nat) (is_core : list bool) (nbh : list (list nat)) (label_num : Z)
    (i : nat) (stack : list nat) (labels : list Z) : list Z :=
  match fuel with
  | O => labels
  | S f =>
      let '(labels, stack) :=
        if nth i labels (-1) =? -1 then
          let labels := set_nth labels i label_num in
          if nth i is_core false then
            (labels, fold_left (fun st v => if nth v labels (-1) =? -1 then v :: st else st)
                               (nth i nbh []) stack)
          else (labels, stack)
        else (labels, stack) in
      match stack with
      | [] => labels
      | j :: st => expand f is_core nbh label_num j st labels
      end
  end.

Fixpoint dbscan_outer (fuel : nat) (is_core : list bool) (nbh : list (list nat))
    (idx : list nat) (label_num : Z) (labels : list Z) : list Z :=
  match idx with
  | [] => labels
  | i :: r =>
      if (nth i labels (-1) =? -1) && nth i is_core false then
        dbscan_outer fuel is_core nbh r (label_num + 1)
          (expand fuel is_core nbh label_num i [] labels)
      else dbscan_outer fuel is_core nbh r label_num labels
  end.

(** [dbscan.fit_predict(X_scaled)]: cluster labels, [-1] for outliers. *)
Definition dbscan_fit_predict (X : list (Z * Z)) : list Z :=
  let nbh := neighborhoods X in
  let n := List.length X in
  let is_core := map (fun nb => (2 <=? List.length nb)%nat) nbh in
  dbscan_outer (S (n * n + n)) is_core nbh (seq 0 n) 0 (repeat (-1) n).

Record peak_range := {
  cluster_id : Z; start_hour : Z; end_hour : Z; range : ustr; avg_activity : Z }.

(** [f"{n:02d}"] *)
Definition fmt02 (n : Z) : ustr :=
  let s := u (NilEmpty.string_of_int (Z.to_int n)) in
  if (List.length s <? 2)%nat then u "0" ++ s else s.

(** The labels of [set(non_outlier_labels)] in iteration order: CPython
    iterates a set of small non-negative integers, such as the labels
    [0 .. k-1] of DBSCAN, in increasing order. *)
Definition cluster_ids (labels : list Z) : list Z :=
  let ls := uniques (filter (fun l => negb (l =? -1)) labels) in
  fold_right (fun x acc =>
                (fix ins (acc : list Z) : list Z :=
                   match acc with
                   | [] => [x]
                   | y :: r => if x <=? y then x :: acc else y :: ins r
                   end) acc) [] ls.

Definition zmin (l : list Z) : Z := match l with [] => 0 | x :: r => fold_left Z.min r x end.
Definition zmax (l : list Z) : Z := match l with [] => 0 | x :: r => fold_left Z.max r x end.

(** One entry of [peak_ranges]; [cluster_hours] is column 0 of the
    cluster's rows of [X]. *)
Definition peak_range_of (X : list (Z * Z)) (labels : list Z) (cid : Z) : peak_range :=
  let rows := filter (fun p => snd p =? cid) (combine X labels) in
  let cluster_hours := map (fun p => fst (fst p)) rows in
  let min_hour := zmin cluster_hours in
  let max_hour := zmax cluster_hours in
  let avg_count := Z.quot (sumZ cluster_hours) (Z.of_nat (List.length cluster_hours)) in
  {| cluster_id := cid; start_hour := min_hour; end_hour := max_hour;
     range := fmt02 min_hour ++ u ":00 - " ++ fmt02 max_hour ++ u ":00";
     avg_activity := avg_count |}.

(** Stable insertion by decreasing [avg_activity]. *)
Fixpoint insert_desc (p : peak_range) (l : list peak_range) : list peak_range :=
  match l with
  | [] => [p]
  | q :: r => if avg_activity q <? avg_activity p then p :: l else q :: insert_desc p r
  end.

(** [peak_ranges.sort(key=lambda x: x['avg_activity'], reverse=True)] *)
Definition sort_peak_ranges (l : list peak_range) : list peak_range :=
  fold_left (fun acc p => insert_desc p acc) l [].

(** The [peak_ranges] list for the rows [X] and their cluster labels. *)
Definition peak_ranges_of (X : list (Z * Z)) (labels : list Z) : list peak_range :=
  sort_peak_ranges (map (peak_range_of X labels) (cluster_ids labels)).

Record peak_result := {
  peak_ranges : list peak_range; total_hours_analyzed : nat; unique_hours : nat;
  num_clusters : nat; num_outliers : nat }.

(** The calls into scikit-learn, in order. *)
Inductive call := standard_scaler | dbscan | pca.

(** The result dictionary: [{}], [{"error": "Not enough data for
    clustering"}], or the report (its PCA scatter data left out). *)
Inductive outcome :=
| empty_result
| not_enough_data
| peak_hours (r : peak_result).

(** The loop [for date_str in df['created_at']: dt = ...; if dt: hours.append(dt.hour)]. *)
Definition parsed_hours (created_at : list (option Z)) : list Z :=
  flat_map (fun o => match o with Some h => [h] | None => [] end) created_at.

(** [get_peak_activity_hours]: [created_at] has one entry per row of
    replies.csv, the hour of [parse_twitter_date] on the row's
    [created_at], or [None] where it fails.  [PCA(n_components=2)] raises
    on fewer than 2 rows; the [except] branch then returns [{}]. *)
Definition get_peak_activity_hours (created_at : list (option Z)) : list call * outcome :=
  match created_at with
  | [] => ([], empty_result)
  | _ =>
      let hours := parsed_hours created_at in
      if (List.length hours <? 2)%nat then ([], not_enough_data)
      else
        let X := hour_counts hours in
        let labels := dbscan_fit_predict X in
        let peak := peak_ranges_of X labels in
        if (List.length X <? 2)%nat then ([standard_scaler; dbscan; pca], empty_result)
        else
          ([standard_scaler; dbscan; pca],
           peak_hours {| peak_ranges := peak;
                         total_hours_analyzed := List.length hours;
                         unique_hours := List.length X;
                         num_clusters := List.length (cluster_ids labels);
                         num_outliers := List.length (filter (fun l => l =? -1) labels) |})
  end.

End Peak.

(** ** Normal form of the normalised text

    The shape of the text [preprocess_text] produces on ASCII input:
    tokens of [a-z], [0-9] and ['_'], joined by single spaces, with no word
    character repeated four times in a row. *)
Module Normal.
Import Norm.

Definition is_ascii (c : Z) : bool := (0 <=? c) && (c <? 128).

Definition is_digit (c : Z) : bool := (48 <=? c) && (c <=? 57).

Definition token_char (c : Z) : bool := is_lower_az c || is_digit c || (c =? 95).

(** The number of leading [c] of [s]. *)
Fixpoint lead (c : Z) (s : ustr) : nat :=
  match s with
  | x :: r => if x =? c then S (lead c r) else O
  | [] => O
  end.

(** No word character starts a run of 4 or more. *)
Fixpoint runs_ok (s : ustr) : bool :=
  match s with
  | [] => true
  | c :: r => implb (Unicode.is_word c) (lead c s <=? 3)%nat && runs_ok r
  end.

Definition nonempty (w : ustr) : bool := match w with [] => false | _ => true end.

Definition normal_token (w : ustr) : bool :=
  nonempty w && forallb token_char w && runs_ok w.

(** [c.lower()] on an ASCII character. *)
Definition low (c : Z) : Z := if is_upper_az c then c + 32 else c.

Definition asc (c : Z) : Prop := is_ascii c = true.

(** [t] is a suffix of [s]. *)
Definition suffix (t s : ustr) : Prop := exists p, s = p ++ t.

(** A pattern that consumes at least one character. *)
Definition progressive (m : Py.matcher) : Prop :=
  forall s rep rest, m s = Some (rep, rest) -> (length rest < length s)%nat.

(** A character after [re.sub(r'[^\w\s]', ' ', text)]. *)
Definition special_char (c : Z) : Z :=
  if Unicode.is_word c || Unicode.isspace c then c else space.

(** A character of the text after the whitespace clean-up, on ASCII input. *)
Definition cleaned (c : Z) : Prop :=
  is_ascii c = true /\ (token_char c = true \/ Unicode.isspace c = true).

(** A token of [s.split()] whose characters satisfy [Q]. *)
Definition good_token (Q : Z -> Prop) (w : ustr) : Prop :=
  w <> [] /\ Forall Q w /\ Forall (fun c => Unicode.isspace c = false) w /\ runs_ok w = true.

Definition starts_token (s : ustr) : bool :=
  match s with d :: _ => token_char d | [] => false end.

(** Every space is followed by a token character, every other character
    is a token character. *)
Fixpoint spaced (s : ustr) : bool :=
  match s with
  | [] => true
  | c :: r => (if c =? 32 then starts_token r else token_char c) && spaced r
  end.

Definition text_char (c : Z) : Prop := token_char c = true \/ c = 32.

(** The 128 ASCII code points. *)
Definition ascii_codes : list Z := map Z.of_nat (seq 0 128).

End Normal.

(** ** The rule batteries, insights and result of
    [RecommendationProcessor.generate_recommendations] *)
Module Rules.
Import Py PyNum Score Recommend.
Local Open Scope Q_scope.

(** [a > b] on Python numbers. *)
Definition Qgtb (a b : Q) : bool := negb (Qle_bool a b).

(** [str(n)] of a Python [int]. *)
Definition str_int (n : Z) : ustr := u (NilEmpty.string_of_int (Z.to_int n)).

(** One entry of [topic_data['topic_engagement']]: [topic_label] and the
    [int] [total_engagement] (the other fields are not read). *)
Record topic := { topic_label : ustr; topic_total : Z }.

(** One entry of [engagement_data['engagement_by_type']]: [type] and [total]. *)
Record eng_type := { type_name : ustr; type_total : Z }.

(** The engagement dictionary, when it is not empty: its
    [engagement_by_type] list if the key is present, and the
    [total_posts] and [total_engagement] fields. *)
Record engagement_data := { engagement_by_type : option (list eng_type); totals : engagement }.

(** [max(items, key=k)]: the first item of greatest key; [None] where
    [max] raises [ValueError] on an empty sequence.  [gt y best] is
    [k(y) > k(best)]. *)
Definition py_max {A} (gt : A -> A -> bool) (l : list A) : option A :=
  match l with
  | [] => None
  | x :: r => Some (fold_left (fun best y => if gt y best then y else best) r x)
  end.

(** Stable insertion by decreasing [total_engagement]. *)
Fixpoint insert_topic (t : topic) (l : list topic) : list topic :=
  match l with
  | [] => [t]
  | x :: r => if (topic_total x <? topic_total t)%Z then t :: l else x :: insert_topic t r
  end.

(** [sorted(topic_engagement, key=lambda x: x['total_engagement'], reverse=True)]:
    descending, and stable ([reverse=True] keeps equal items in their order). *)
Definition sort_topics (l : list topic) : list topic :=
  fold_left (fun acc t => insert_topic t acc) l [].

(** [r['priority'] in ['critical', 'high']] *)
Definition urgent (r : recommendation) : bool :=
  match priority_of r with critical | high => true | _ => false end.

Record insight := {
  icategory : ustr; icon : ustr; ititle : ustr; ivalue : ustr;
  ipercentage : option Q; idescription : ustr }.

(** [emotion_icons] of [_generate_insights]. *)
Definition emotion_icons : list (ustr * ustr) := [
  (u "joy", [128522%Z]); (u "anger", [128545%Z]); (u "sadness", [128546%Z]);
  (u "fear", [128552%Z]); (u "surprise", [128562%Z]); (u "disgust", [129314%Z]);
  (u "neutral", [128528%Z])].

(** [d.get(k, default)] on an association list. *)
Definition get_or (d : list (ustr * ustr)) (k default : ustr) : ustr :=
  match find (fun p => ustr_eqb (fst p) k) d with Some (_, v) => v | None => default end.

(** The result of [generate_recommendations]. *)
Record result := {
  insights : list insight; recommendations : list recommendation;
  priority_actions : list recommendation; performance_score : scores;
  total_recommendations : nat }.

Section Format.
(** The number formatting of the f-strings: [f'{x}'] of a percentage,
    [f'{x:,}'] and [f'{x:.0f}'] of a number, and [str.capitalize]. *)
Variable str_num : Q -> ustr.
Variable fmt_commas : Q -> ustr.
Variable fmt_0f : Q -> ustr.
Variable capitalize : ustr -> ustr.

(** [_analyze_sentiment]; [None] when [sentiment_data] is empty or has no
    [sentiment_distribution]. *)
Definition analyze_sentiment (sentiment_data : option dist) : list recommendation :=
  match sentiment_data with
  | None => []
  | Some d =>
      let negative_pct := pct d (u "negative") in
      let positive_pct := pct d (u "positive") in
      let neutral_pct := pct d (u "neutral") in
      (if Qgtb negative_pct 40 then
         [{| category := u "Sentiment"; priority_of := critical;
             title := u "High Negative Sentiment Detected";
             description := str_num negative_pct ++ u "% of interactions are negative. Immediate action required.";
             actionable_steps := [
               u "Analyze negative sentiment word clouds to identify key issues";
               u "Prioritize response to complaints and concerns";
               u "Create targeted campaigns to address common pain points";
               u "Set up automated alerts for negative sentiment spikes"];
             impact := u "High - Customer satisfaction at risk"; effort := u "High" |}]
       else if Qgtb negative_pct 25 then
         [{| category := u "Sentiment"; priority_of := high;
             title := u "Moderate Negative Sentiment";
             description := str_num negative_pct ++ u "% of interactions are negative. Monitor closely.";
             actionable_steps := [
               u "Review common negative topics and address systematically";
               u "Improve response time for customer complaints";
               u "Launch customer satisfaction improvement initiatives"];
             impact := u "Medium - Potential reputation impact"; effort := u "Medium" |}]
       else [])
      ++ (if Qgtb 30 positive_pct then
            [{| category := u "Sentiment"; priority_of := high;
                title := u "Low Positive Sentiment";
                description := u "Only " ++ str_num positive_pct ++ u "% of interactions are positive. Room for improvement.";
                actionable_steps := [
                  u "Identify and replicate positive interaction patterns";
                  u "Encourage positive user testimonials and reviews";
                  u "Launch engagement campaigns to boost positive sentiment";
                  u "Highlight success stories and positive experiences"];
                impact := u "Medium - Growth opportunity"; effort := u "Medium" |}]
          else [])
      ++ (if Qgtb neutral_pct 50 then
            [{| category := u "Sentiment"; priority_of := medium;
                title := u "High Neutral Sentiment";
                description := str_num neutral_pct ++ u "% of interactions are neutral. Opportunity to increase engagement.";
                actionable_steps := [
                  u "Create more engaging content to evoke emotional responses";
                  u "Use storytelling to connect with audience emotionally";
                  u "Implement interactive campaigns and polls";
                  u "Personalize communications to increase relevance"];
                impact := u "Low - Engagement optimization"; effort := u "Low" |}]
          else [])
  end.

(** [_analyze_emotions]; [None] when [emotion_data] is empty or has no
    [emotion_distribution]. *)
Definition analyze_emotions (emotion_data : option dist) : list recommendation :=
  match emotion_data with
  | None => []
  | Some d =>
      let anger_pct := pct d (u "anger") in
      let sadness_pct := pct d (u "sadness") in
      let fear_pct := pct d (u "fear") in
      let joy_pct := pct d (u "joy") in
      let disgust_pct := pct d (u "disgust") in
      (if Qgtb anger_pct 15 then
         [{| category := u "Emotion"; priority_of := critical;
             title := u "High Anger Levels Detected";
             description := str_num anger_pct ++ u "% of interactions show anger. Critical customer dissatisfaction.";
             actionable_steps := [
               u "Review anger-related word clouds for specific complaints";
               u "Implement immediate resolution protocols for angry customers";
               u "Train support team in de-escalation techniques";
               u "Address root causes identified in anger-related topics"];
             impact := u "Critical - Brand reputation at risk"; effort := u "High" |}]
       else [])
      ++ (if Qgtb fear_pct 5 then
            [{| category := u "Emotion"; priority_of := high;
                title := u "Customer Anxiety Detected";
                description := str_num fear_pct ++ u "% of interactions show fear/anxiety. Address concerns promptly.";
                actionable_steps := [
                  u "Identify sources of customer anxiety in word clouds";
                  u "Provide clear, transparent communication about services";
                  u "Offer reassurance and guarantees where appropriate";
                  u "Create FAQ and knowledge base for common concerns"];
                impact := u "High - Trust and confidence at stake"; effort := u "Medium" |}]
          else [])
      ++ (if Qgtb sadness_pct 10 then
            [{| category := u "Emotion"; priority_of := high;
                title := u "High Disappointment Levels";
                description := str_num sadness_pct ++ u "% of interactions show sadness/disappointment.";
                actionable_steps := [
                  u "Analyze disappointment triggers from word clouds";
                  u "Set realistic expectations in marketing materials";
                  u "Improve product/service quality in identified areas";
                  u "Implement customer success programs"];
                impact := u "High - Customer retention at risk"; effort := u "High" |}]
          else [])
      ++ (if Qgtb 25 joy_pct then
            [{| category := u "Emotion"; priority_of := medium;
                title := u "Low Joy/Satisfaction Levels";
                description := u "Only " ++ str_num joy_pct ++ u "% of interactions show joy. Increase positive experiences.";
                actionable_steps := [
                  u "Study joy-related word clouds for success patterns";
                  u "Replicate conditions that generate positive emotions";
                  u "Celebrate customer wins and milestones";
                  u "Create moments of delight in customer journey"];
                impact := u "Medium - Customer loyalty opportunity"; effort := u "Medium" |}]
          else [])
      ++ (if Qgtb disgust_pct 5 then
            [{| category := u "Emotion"; priority_of := critical;
                title := u "Disgust/Strong Negative Reactions";
                description := str_num disgust_pct ++ u "% of interactions show disgust. Severe quality issues.";
                actionable_steps := [
                  u "Immediately investigate disgust-related complaints";
                  u "Conduct quality audit of products/services";
                  u "Implement stringent quality control measures";
                  u "Issue public statement if widespread issue identified"];
                impact := u "Critical - Severe reputation damage"; effort := u "High" |}]
          else [])
  end.

(** [_analyze_topics]; [None] when [topic_data] is empty or has no
    [topic_engagement]. *)
Definition analyze_topics (topic_data : option (list topic)) : list recommendation :=
  match topic_data with
  | None => []
  | Some topic_engagement =>
      let sorted_topics := sort_topics topic_engagement in
      match sorted_topics with
      | [] => []
      | top_topic :: _ =>
          {| category := u "Topics"; priority_of := medium;
             title := u "Top Performing Topic: " ++ topic_label top_topic;
             description := u "This topic has " ++ fmt_commas (inject_Z (topic_total top_topic))
                            ++ u " total engagement.";
             actionable_steps := [
               u "Create more content related to this topic";
               u "Analyze what makes this topic resonate with audience";
               u "Expand on sub-topics within this category";
               u "Use similar messaging and tone in other topics"];
             impact := u "Medium - Content strategy optimization"; effort := u "Low" |}
          :: (if (2 <? List.length sorted_topics)%nat then
                let low_topic := last sorted_topics top_topic in
                [{| category := u "Topics"; priority_of := low;
                    title := u "Low Engagement Topic: " ++ topic_label low_topic;
                    description := u "This topic has only " ++ fmt_commas (inject_Z (topic_total low_topic))
                                   ++ u " engagement.";
                    actionable_steps := [
                      u "Reevaluate relevance of this topic to audience";
                      u "Consider discontinuing or restructuring this topic";
                      u "Test different angles or approaches for this topic";
                      u "Merge with higher-performing related topics"];
                    impact := u "Low - Resource optimization"; effort := u "Low" |}]
              else [])
      end
  end.

(** [_analyze_engagement]; [None] when [engagement_data] is empty. *)
Definition analyze_engagement (engagement_data : option engagement_data) : list recommendation :=
  match engagement_data with
  | None => []
  | Some ed =>
      match engagement_by_type ed with
      | None => []
      | Some eng_types =>
          let total_eng := fold_right Z.add 0%Z (map type_total eng_types) in
          let avg_eng := match eng_types with
                         | [] => 0
                         | _ => inject_Z total_eng / inject_Z (Z.of_nat (List.length eng_types))
                         end in
          flat_map (fun eng_type =>
                      if Qgtb (avg_eng * (1 # 2)) (inject_Z (type_total eng_type)) then
                        [{| category := u "Engagement"; priority_of := medium;
                            title := u "Low Engagement for " ++ type_name eng_type;
                            description := type_name eng_type ++ u " has below-average engagement.";
                            actionable_steps := [
                              u "Review and optimize " ++ type_name eng_type ++ u " content strategy";
                              u "Test different formats and messaging";
                              u "Increase posting frequency for high-performing formats";
                              u "A/B test different approaches"];
                            impact := u "Medium - Engagement optimization"; effort := u "Medium" |}]
                      else []) eng_types
      end
      ++ match total_engagement (totals ed) with
         | None => []
         | Some te =>
             let tp := match total_posts (totals ed) with Some q => q | None => 1 end in
             let avg_engagement_per_post := if Qgtb tp 0 then te / tp else 0 in
             if Qgtb 100 avg_engagement_per_post then
               [{| category := u "Engagement"; priority_of := high;
                   title := u "Low Overall Engagement Rate";
                   description := u "Average engagement per post is " ++ fmt_0f avg_engagement_per_post ++ u ".";
                   actionable_steps := [
                     u "Review and revamp content strategy";
                     u "Increase use of visual content (images, videos)";
                     u "Post during peak engagement hours";
                     u "Use trending hashtags and topics";
                     u "Engage with audience through polls and questions"];
                   impact := u "High - Visibility and reach"; effort := u "Medium" |}]
             else []
         end
  end.

(** [_analyze_timing]: [peak_hours_data['peak_hours']], [None] when the
    dictionary is empty or lacks the key. *)
Definition analyze_timing (peak_hours : option (list Z)) : list recommendation :=
  match peak_hours with
  | None | Some [] => []
  | Some hs =>
      let peak_hours_str := join (u ", ") (map (fun h => str_int h ++ u ":00") (firstn 3 hs)) in
      [{| category := u "Timing"; priority_of := medium;
          title := u "Optimize Posting Schedule";
          description := u "Peak activity hours are: " ++ peak_hours_str;
          actionable_steps := [
            u "Schedule important posts during peak hours: " ++ peak_hours_str;
            u "Use social media scheduling tools for optimal timing";
            u "Test posting at different times within peak windows";
            u "Monitor engagement rates by posting time";
            u "Adjust content calendar based on peak activity patterns"];
          impact := u "Medium - Visibility and engagement"; effort := u "Low" |}]
  end.

(** [key=lambda x: x[1].get('percentage', 0)] of the [max] calls. *)
Definition gt_pct (y best : ustr * Q) : bool := Qgtb (snd y) (snd best).

(** [key=lambda x: x['total_engagement']] *)
Definition gt_topic (y best : topic) : bool := (topic_total best <? topic_total y)%Z.

(** The sentiment and emotion insights; [None] where [max] raises on an
    empty distribution. *)
Definition sentiment_insight (sentiment_data : option dist) : option (list insight) :=
  match sentiment_data with
  | None => Some []
  | Some d =>
      match py_max gt_pct d with
      | None => None
      | Some (l, p) =>
          Some [{| icategory := u "Sentiment"; icon := [128202%Z]; ititle := u "Dominant Sentiment";
                   ivalue := capitalize l; ipercentage := Some p;
                   idescription := str_num p ++ u "% of interactions" |}]
      end
  end.

Definition emotion_insight (emotion_data : option dist) : option (list insight) :=
  match emotion_data with
  | None => Some []
  | Some d =>
      match py_max gt_pct d with
      | None => None
      | Some (l, p) =>
          Some [{| icategory := u "Emotion"; icon := get_or emotion_icons l [128528%Z];
                   ititle := u "Dominant Emotion"; ivalue := capitalize l; ipercentage := Some p;
                   idescription := str_num p ++ u "% of interactions" |}]
      end
  end.

Definition engagement_insight (engagement_data : option engagement_data) : list insight :=
  match engagement_data with
  | None => []
  | Some ed =>
      let te := match total_engagement (totals ed) with Some q => q | None => 0 end in
      let tp := match total_posts (totals ed) with Some q => q | None => 1 end in
      let avg_engagement := if Qgtb tp 0 then te / tp else 0 in
      [{| icategory := u "Engagement"; icon := [128293%Z]; ititle := u "Average Engagement";
          ivalue := fmt_0f avg_engagement; ipercentage := None;
          idescription := u "per post (" ++ fmt_commas te ++ u " total)" |}]
  end.

Definition topic_insight (topic_data : option (list topic)) : list insight :=
  match topic_data with
  | None => []
  | Some topic_engagement =>
      match py_max gt_topic topic_engagement with
      | None => []
      | Some top_topic =>
          [{| icategory := u "Topics"; icon := [127919%Z]; ititle := u "Top Topic";
              ivalue := topic_label top_topic; ipercentage := None;
              idescription := fmt_commas (inject_Z (topic_total top_topic)) ++ u " total engagement" |}]
      end
  end.

Definition timing_insight (peak_hours : option (list Z)) : list insight :=
  match peak_hours with
  | None | Some [] => []
  | Some (h :: r) =>
      [{| icategory := u "Timing"; icon := [9200%Z]; ititle := u "Peak Hours";
          ivalue := str_int h ++ u ":00-" ++ str_int (last (h :: r) h) ++ u ":00";
          ipercentage := None; idescription := u "Highest activity window" |}]
  end.

(** [_generate_insights]; [None] where it raises. *)
Definition generate_insights (sentiment_data emotion_data : option dist)
    (topic_data : option (list topic)) (engagement_data : option engagement_data)
    (peak_hours : option (list Z)) : option (list insight) :=
  match sentiment_insight sentiment_data, emotion_insight emotion_data with
  | Some a, Some b =>
      Some (a ++ b ++ engagement_insight engagement_data ++ topic_insight topic_data
              ++ timing_insight peak_hours)
  | _, _ => None
  end.

(** The sorted [recommendations] list of [generate_recommendations]. *)
Definition recommendations_of (sentiment_data emotion_data : option dist)
    (topic_data : option (list topic)) (engagement_data : option engagement_data)
    (peak_hours : option (list Z)) : list recommendation :=
  Recommend.generate_recommendations _ _ _ _ _
    analyze_sentiment analyze_emotions analyze_topics analyze_engagement analyze_timing
    sentiment_data emotion_data topic_data engagement_data peak_hours.

(** [priority_actions]: the first five critical or high recommendations. *)
Definition priority_actions_of (recommendations : list recommendation) : list recommendation :=
  firstn 5 (filter urgent recommendations).

(** [generate_recommendations]; [None] where it raises. *)
Definition generate (sentiment_data emotion_data : option dist)
    (topic_data : option (list topic)) (engagement_data : option engagement_data)
    (peak_hours : option (list Z)) : option result :=
  let recommendations :=
    recommendations_of sentiment_data emotion_data topic_data engagement_data peak_hours in
  match generate_insights sentiment_data emotion_data topic_data engagement_data peak_hours with
  | None => None
  | Some ins =>
      Some {| insights := ins; recommendations := recommendations;
              priority_actions := priority_actions_of recommendations;
              performance_score :=
                calculate_performance_score (option_map float_dist_of sentiment_data)
                  (option_map float_dist_of emotion_data)
                  (option_map (fun ed => engagement_data_of (totals ed)) engagement_data);
              total_recommendations := List.length recommendations |}
  end.

End Format.

(** The [sentiment_distribution] (or [emotion_distribution]) entry of a
    report dictionary, reduced to its percentages. *)
Definition report_dist (r : Report.report) : option dist :=
  Some (map (fun p => (fst p, Report.percentage (snd p))) (Report.label_distribution r)).
(** One step of [max(topics, key=...)]. *)
Definition step_topic (best y : topic) : topic := if gt_topic y best then y else best.

(** [t] is the first topic of greatest engagement of [P]. *)
Definition first_max (t : topic) (P : list topic) : Prop :=
  exists pre post, P = pre ++ t :: post /\
    Forall (fun x => (topic_total x < topic_total t)%Z) pre /\
    Forall (fun x => (topic_total x <= topic_total t)%Z) post.

(** [t] is the last topic of least engagement of [P]. *)
Definition last_min (t : topic) (P : list topic) : Prop :=
  exists pre post, P = pre ++ t :: post /\
    Forall (fun x => (topic_total t <= topic_total x)%Z) pre /\
    Forall (fun x => (topic_total t < topic_total x)%Z) post.

End Rules.

(** ** Hashtags, permalinks and word frequencies
    ([DataProcessor], [SentimentProcessor.get_word_frequency],
    [EmotionProcessor.get_word_frequency]) *)
Module Data.
Import Py.

Fixpoint findall_fuel (fuel : nat) (m : matcher) (s : ustr) : list ustr :=
  match fuel with
  | O => []
  | S f =>
      match s with
      | [] => []
      | c :: r =>
          match m s with
          | Some (g, rest) => g :: findall_fuel f m rest
          | None => findall_fuel f m r
          end
      end
  end.

(** [re.findall(pattern, s)] for a pattern without groups that never
    matches the empty string: the matches, scanned left to right. *)
Definition findall (m : matcher) (s : ustr) : list ustr := findall_fuel (length s) m s.

(** [#\w+] at the head of the text: the matched text and the rest. *)
Definition m_hashtag_text : matcher := fun s =>
  match s with
  | 35 :: r => match plus Unicode.is_word r with
               | Some (w, rest) => Some (35 :: w, rest)
               | None => None
               end
  | _ => None
  end.

(** [DataProcessor.extract_hashtags]: [[]] on a missing value ([pd.isna]),
    else [re.findall(r'#\w+', str(text))]. *)
Definition extract_hashtags (text : pyval) : list ustr :=
  match text with
  | PyNone | PyNaN => []
  | PyStr s => findall m_hashtag_text s
  end.

(** [Counter(l).most_common(n)]: the distinct items with their counts,
    by decreasing count, ties in order of first appearance, the first [n]. *)
Definition most_common (n : nat) (l : list ustr) : list (ustr * nat) :=
  firstn n (Report.value_counts l).

(** [DataProcessor.get_top_hashtags]: [captions] is [df['Caption']] of
    tweet.xlsx; an empty frame has no captions and gives [[]]. *)
Definition get_top_hashtags (captions : list pyval) (limit : nat) : list (ustr * nat) :=
  match captions with
  | [] => []
  | _ => most_common limit (flat_map extract_hashtags captions)
  end.

(** [s.split(sep)] for a one-character separator: never empty. *)
Fixpoint split_on (sep : Z) (s : ustr) : list ustr :=
  match s with
  | [] => [[]]
  | c :: r =>
      if c =? sep then [] :: split_on sep r
      else match split_on sep r with
           | p :: ps => (c :: p) :: ps
           | [] => [[c]]
           end
  end.

(** [DataProcessor.get_tweet_id_from_permalink]: [None] on a missing value,
    else the last part of [str(permalink).split('/')]. *)
Definition get_tweet_id_from_permalink (permalink : pyval) : option ustr :=
  match permalink with
  | PyNone | PyNaN => None
  | PyStr s =>
      let parts := split_on 47 s in
      if (0 <? List.length parts)%nat then Some (last parts []) else None
  end.

(** [SentimentProcessor.get_word_frequency]: the [n] most common
    whitespace-separated words of more than 3 characters of
    [' '.join(texts)]. *)
Definition sentiment_get_word_frequency (texts : list ustr) (n : nat) : list (ustr * nat) :=
  let all_words := split (join (u " ") texts) in
  let all_words := filter (fun word => (3 <? List.length word)%nat) all_words in
  most_common n all_words.

(** [EmotionProcessor.get_word_frequency]: the same with more than 2
    characters. *)
Definition emotion_get_word_frequency (texts : list ustr) (n : nat) : list (ustr * nat) :=
  let all_words := split (join (u " ") texts) in
  let all_words := filter (fun word => (2 <? List.length word)%nat) all_words in
  most_common n all_words.

(** The character after a greedy run: none, or one outside the class. *)
Definition stops (p : Z -> bool) (rest : ustr) : Prop :=
  match rest with [] => True | c :: _ => p c = false end.

(** Counts by decreasing value. *)
Definition desc (a b : ustr * nat) : Prop := (snd b <= snd a)%nat.

End Data.

(** ** Statistics over tweet.xlsx ([DataProcessor.get_basic_statistics],
    [DataProcessor.get_statistics_with_delta],
    [DataProcessor.get_engagement_by_type],
    [DataProcessor.get_engagement_by_day]) *)
Module Stats.
Import Py Data.

(** A row of tweet.xlsx: the integer [Likes], [Retweets] and [Replies]
    columns, the [Permalink] cell, the [Type] string and the [Date] string. *)
Record tweet_row := {
  likes : Z; retweets : Z; permalink : pyval; tweet_type : ustr;
  replies : Z; date : ustr }.

Abbreviation sumZ := Peak.sumZ.

(** [int(x)] of a float: truncation toward zero. *)
Definition trunc (q : Q) : Z := Z.quot (Qnum q) (Zpos (Qden q)).

(** [Series.mean()] of a nonempty integer column. *)
Abbreviation mean := Peak.meanQ.

(** [Likes + reply_count_csv + Retweets] row by row. *)
Definition row_sum (L R T : list Z) : list Z :=
  map (fun '(l, k, t) => l + k + t) (combine (combine L R) T).

(** [int(s)] on a string of ASCII digits; [None] on anything else (on which
    [int] raises, or accepts a sign, spaces or underscores). *)
Fixpoint parse_digits (acc : Z) (s : ustr) : option Z :=
  match s with
  | [] => Some acc
  | c :: r => if (48 <=? c) && (c <=? 57) then parse_digits (10 * acc + (c - 48)) r else None
  end.

Definition py_int_digits (s : ustr) : option Z :=
  match s with [] => None | _ => parse_digits 0 s end.

(** Python's [<] on strings: code points compared in order, a proper prefix
    first. *)
Fixpoint str_ltb (a b : ustr) : bool :=
  match a, b with
  | [], [] => false
  | [], _ :: _ => true
  | _ :: _, [] => false
  | x :: a', y :: b' => (x <? y) || ((x =? y) && str_ltb a' b')
  end.

Fixpoint insert_key (k : ustr) (l : list ustr) : list ustr :=
  match l with
  | [] => [k]
  | x :: r => if str_ltb k x then k :: x :: r else x :: insert_key k r
  end.

(** The keys of [df.groupby('Type')], in increasing order. *)
Definition group_keys (types : list ustr) : list ustr :=
  fold_right insert_key [] (Report.uniques types).

(** The sum of [f] over the rows of type [t]. *)
Definition type_sum (f : tweet_row -> Z) (t : ustr) (rows : list tweet_row) : Z :=
  sumZ (map f (filter (fun r => ustr_eqb (tweet_type r) t) rows)).

Record type_stat := {
  stat_type : ustr; stat_likes : Z; stat_replies : Z; stat_retweets : Z; stat_total : Z }.

Definition day_names : list ustr :=
  [u "Monday"; u "Tuesday"; u "Wednesday"; u "Thursday"; u "Friday";
   u "Saturday"; u "Sunday"].

(** [df[df['Date'] == date_str][['Likes', 'Replies', 'Retweets']].sum().sum()] *)
Definition date_engagement (d : ustr) (rows : list tweet_row) : Z :=
  sumZ (map (fun r => likes r + replies r + retweets r)
            (filter (fun r => ustr_eqb (date r) d) rows)).

(** [day_engagement[day_name] += v] *)
Definition add_day (acc : list (ustr * Z)) (name : ustr) (v : Z) : list (ustr * Z) :=
  map (fun '(k, x) => if ustr_eqb k name then (k, x + v) else (k, x)) acc.

Section Statistics.
(** [int(tweet_id)]: [None] when it raises [ValueError]. *)
Variable py_int : ustr -> option Z.
(** The [conversation_id_str] column of replies.csv. *)
Variable conversation_ids : list Z.

(** [count_replies_per_tweet()] is [groupby('conversation_id_str').size()],
    so [reply_counts.get(k, 0)] is the number of replies of conversation [k]. *)
Definition reply_counts_get (k : Z) : Z := Peak.count k conversation_ids.

(** [reply_counts.get(int(x), 0) if x else 0] with [x] the tweet id of the
    row's permalink; [None] when [int(x)] raises.  A missing permalink gives
    [x = None], kept as such by the object column of pandas 2 (pandas 3
    stores NaN there, on which [int] raises). *)
Definition reply_count_csv (r : tweet_row) : option Z :=
  match get_tweet_id_from_permalink (permalink r) with
  | None | Some [] => Some 0
  | Some x => option_map reply_counts_get (py_int x)
  end.

(** The loop of [get_basic_statistics] adding up the replies. *)
Fixpoint total_replies_from_csv (rows : list tweet_row) : option Z :=
  match rows with
  | [] => Some 0
  | r :: rs =>
      match reply_count_csv r with
      | None => None
      | Some k => option_map (Z.add k) (total_replies_from_csv rs)
      end
  end.

Record basic_stats := {
  total_posts : Z; total_replies : Z; total_likes : Z;
  total_retweets : Z; total_engagement : Z }.

(** [DataProcessor.get_basic_statistics]: [None] for the [{}] it returns on
    an empty frame or on an exception. *)
Definition get_basic_statistics (rows : list tweet_row) : option basic_stats :=
  match rows with
  | [] => None
  | _ =>
      match total_replies_from_csv rows with
      | None => None
      | Some total_replies_from_csv =>
          Some {| total_posts := Z.of_nat (List.length rows);
                  total_replies := total_replies_from_csv;
                  total_likes := sumZ (map likes rows);
                  total_retweets := sumZ (map retweets rows);
                  total_engagement := sumZ (map likes rows) + total_replies_from_csv
                                      + sumZ (map retweets rows) |}
      end
  end.

(** [df['tweet_id'].apply(...)] then [df['reply_count_csv']]. *)
Fixpoint reply_column (rows : list tweet_row) : option (list Z) :=
  match rows with
  | [] => Some []
  | r :: rs =>
      match reply_count_csv r, reply_column rs with
      | Some k, Some ks => Some (k :: ks)
      | _, _ => None
      end
  end.

Record delta_stats := {
  totals : basic_stats;
  delta_posts : Z; delta_replies : Z; delta_likes : Z;
  delta_retweets : Z; delta_engagement : Z }.

(** [int(last - previous.mean())] for one column. *)
Definition delta (col : list Z) : Z :=
  trunc (inject_Z (last col 0) - mean (removelast col)).

(** [pd.to_datetime] on a [Date] cell: [None] when it raises. *)
Variable to_datetime : ustr -> option Z.

(** [pd.to_datetime(df['Date'])] converts the whole column: it raises as
    soon as one cell does. *)
Definition dates_parse (rows : list tweet_row) : bool :=
  forallb (fun r => match to_datetime (date r) with Some _ => true | None => false end) rows.

(** [DataProcessor.get_statistics_with_delta] on the rows in the order of
    [df.sort_values('Date')] (pandas' default quicksort leaves the order of
    equal dates open, so the order is the caller's); [None] for the [{}] of
    an empty frame or of an exception; the means are those of [Q]. *)
Definition get_statistics_with_delta (rows : list tweet_row) : option delta_stats :=
  match rows with
  | [] => None
  | _ =>
      if negb (dates_parse rows) then None else
      match reply_column rows with
      | None => None
      | Some replies =>
          let likes_col := map likes rows in
          let retweets_col := map retweets rows in
          let engagement_row := row_sum likes_col replies retweets_col in
          let total_posts := Z.of_nat (List.length rows) in
          let total_replies := sumZ replies in
          let total_likes := sumZ likes_col in
          let total_retweets := sumZ retweets_col in
          let total_engagement := total_likes + total_replies + total_retweets in
          let tot := {| total_posts := total_posts; total_replies := total_replies;
                        total_likes := total_likes; total_retweets := total_retweets;
                        total_engagement := total_engagement |} in
          if 2 <=? total_posts then
            Some {| totals := tot; delta_posts := 0;
                    delta_replies := delta replies;
                    delta_likes := delta likes_col;
                    delta_retweets := delta retweets_col;
                    delta_engagement := delta engagement_row |}
          else
            Some {| totals := tot; delta_posts := 0; delta_replies := 0; delta_likes := 0;
                    delta_retweets := 0; delta_engagement := 0 |}
      end
  end.

(** [type_replies.get(t, 0)]: the replies of the rows of type [t]. *)
Definition type_replies (t : ustr) (rows : list tweet_row) (replies : list Z) : Z :=
  sumZ (map snd (filter (fun p => ustr_eqb (tweet_type (fst p)) t) (combine rows replies))).

(** [DataProcessor.get_engagement_by_type]: [[]] on an empty frame or on an
    exception. *)
Definition get_engagement_by_type (rows : list tweet_row) : list type_stat :=
  match rows with
  | [] => []
  | _ =>
      match reply_column rows with
      | None => []
      | Some replies =>
          map (fun t =>
                 let likes := type_sum likes t rows in
                 let retweets := type_sum retweets t rows in
                 let replies := type_replies t rows replies in
                 {| stat_type := t; stat_likes := likes; stat_replies := replies;
                    stat_retweets := retweets; stat_total := likes + replies + retweets |})
              (group_keys (map tweet_type rows))
      end
  end.

End Statistics.

Section ByDay.
(** [parse_iso_date(date_str).dayofweek]: [None] when parsing fails (or
    the result has no day of the week) and the loop skips the row. *)
Variable dayofweek : ustr -> option nat.

(** [day_names[dt.dayofweek]], [None] when it raises. *)
Definition day_of (d : ustr) : option ustr :=
  match dayofweek d with
  | Some i => nth_error day_names i
  | None => None
  end.

(** [DataProcessor.get_engagement_by_day]: [[]] for the [{}] of an empty
    frame, else the seven days in order with their totals. *)
Definition get_engagement_by_day (rows : list tweet_row) : list (ustr * Z) :=
  match rows with
  | [] => []
  | _ =>
      fold_left (fun acc date_str =>
                   match day_of date_str with
                   | Some day_name => add_day acc day_name (date_engagement date_str rows)
                   | None => acc
                   end)
                (map date rows) (map (fun day => (day, 0)) day_names)
  end.

End ByDay.
End Stats.

(** * Lemmas *)

Lemma ustr_eqb_spec (a b : ustr) : reflect (a = b) (Py.ustr_eqb a b).
Proof.
  revert b; induction a as [|x a IH]; intros [|y b]; simpl; try (constructor; congruence).
  destruct (Z.eqb_spec x y) as [->|Hne]; simpl.
  - destruct (IH b); constructor; congruence.
  - constructor; congruence.
Qed.

Lemma ustr_eqb_refl (a : ustr) : Py.ustr_eqb a a = true.
Proof. destruct (ustr_eqb_spec a a); congruence. Qed.

(** ** Counting lemmas for the report distributions *)
Module ReportFacts.
Import Report.

Lemma nsum_app (a b : list nat) : nsum (a ++ b) = (nsum a + nsum b)%nat.
Proof. induction a; simpl; lia. Qed.

Lemma nsum_perm (a b : list nat) : Permutation a b -> nsum a = nsum b.
Proof. induction 1; simpl; lia. Qed.

Lemma insert_desc_perm p l : Permutation (insert_desc p l) (p :: l).
Proof.
  induction l as [|q r IH]; simpl; [auto|].
  destruct (snd q <? snd p)%nat; [auto|].
  eapply perm_trans; [apply perm_skip, IH | apply perm_swap].
Qed.

Lemma sort_desc_perm l : Permutation (sort_desc l) l.
Proof.
  unfold sort_desc.
  assert (H : forall k, Permutation (fold_right insert_desc [] k) k).
  { induction k as [|x k IH]; simpl; [auto|].
    eapply perm_trans; [apply insert_desc_perm | apply perm_skip, IH]. }
  eapply perm_trans; [apply H|]. apply Permutation_sym, Permutation_rev.
Qed.

Lemma uniques_nodup l : NoDup (uniques l).
Proof.
  induction l as [|x r IH]; simpl; constructor.
  - rewrite filter_In. intros [_ H]. rewrite ustr_eqb_refl in H. discriminate.
  - apply NoDup_filter, IH.
Qed.

Lemma uniques_in l x : In x l -> In x (uniques l).
Proof.
  induction l as [|y r IH]; simpl; [tauto|].
  intros [->|H]; [left; reflexivity|].
  destruct (ustr_eqb_spec y x) as [->|Hne]; [left; reflexivity|].
  right. apply filter_In. split; [auto|].
  destruct (ustr_eqb_spec y x); [contradiction|reflexivity].
Qed.

(** Among distinct labels, exactly one is equal to a label they contain. *)
Lemma nsum_indicator (U : list ustr) (x : ustr) :
  NoDup U -> In x U ->
  nsum (map (fun a => if Py.ustr_eqb a x then 1 else 0)%nat U) = 1%nat.
Proof.
  induction U as [|a U IH]; simpl; [tauto|].
  intros Hnd Hin. inversion Hnd as [|? ? Hnot Hnd']; subst.
  destruct (ustr_eqb_spec a x) as [->|Hne].
  - assert (H0 : forall V, ~ In x V ->
               nsum (map (fun a => if Py.ustr_eqb a x then 1 else 0)%nat V) = 0%nat).
    { induction V as [|b V IHV]; simpl; [reflexivity|]. intros Hn.
      destruct (ustr_eqb_spec b x); [exfalso; apply Hn; left; congruence|].
      apply IHV. tauto. }
    rewrite H0; auto.
  - destruct Hin as [Heq|Hin]; [congruence|]. rewrite IH; auto.
Qed.

Lemma nsum_counts (l U : list ustr) :
  NoDup U -> (forall x, In x l -> In x U) ->
  nsum (map (fun a => count_of a l) U) = List.length l.
Proof.
  intros Hnd. induction l as [|x l IH]; intros Hsub.
  - simpl. clear. induction U as [|a U IHU]; simpl; [reflexivity|].
    unfold count_of at 1; simpl. exact IHU.
  - assert (E : forall a, count_of a (x :: l) =
                  ((if Py.ustr_eqb a x then 1 else 0) + count_of a l)%nat).
    { intro a. unfold count_of. cbn [filter]. destruct (Py.ustr_eqb a x); reflexivity. }
    transitivity (nsum (map (fun a => if Py.ustr_eqb a x then 1 else 0)%nat U)
                  + nsum (map (fun a => count_of a l) U))%nat.
    + clear IH Hsub Hnd. induction U as [|a U IHU]; simpl; [reflexivity|].
      rewrite E, IHU. lia.
    + rewrite nsum_indicator, IH; simpl; auto.
      intros y Hy. apply Hsub. right. exact Hy.
      apply Hsub. left. reflexivity.
Qed.

Lemma sum_counts_distribution (column : list ustr) :
  sum_counts (distribution column) = nsum (map snd (value_counts column)).
Proof.
  unfold distribution. generalize (value_counts column).
  induction l as [|[a c] r IH]; simpl; [reflexivity|]. rewrite IH. reflexivity.
Qed.

Lemma distribution_sum (column : list ustr) :
  sum_counts (distribution column) = List.length column.
Proof.
  rewrite sum_counts_distribution. unfold value_counts.
  rewrite (nsum_perm _ (map snd (map (fun a => (a, count_of a column)) (uniques column)))).
  - rewrite map_map. simpl. apply nsum_counts; [apply uniques_nodup|apply uniques_in].
  - apply Permutation_map, sort_desc_perm.
Qed.

Lemma distribution_percentages (column : list ustr) :
  Forall (fun p => percentage (snd p) =
            PyNum.py_round ((inject_Z (Z.of_nat (count (snd p)))
                             / inject_Z (Z.of_nat (List.length column))) * 100) 2)
         (distribution column).
Proof.
  unfold distribution. apply Forall_forall. intros [l e] Hin.
  apply in_map_iff in Hin. destruct Hin as [[a c] [Heq _]]. inversion Heq. reflexivity.
Qed.

End ReportFacts.

(** ** The stable sort of the recommendations *)
Module RecommendFacts.
Import Recommend.

Lemma insert_perm r l : Permutation (insert r l) (r :: l).
Proof.
  induction l as [|x l IH]; simpl; [auto|].
  destruct (key r <? key x)%nat; [auto|].
  eapply perm_trans; [apply perm_skip, IH | apply perm_swap].
Qed.

Lemma insert_hdrel y r l :
  HdRel le_key y l -> le_key y r -> HdRel le_key y (insert r l).
Proof.
  destruct l as [|x l]; simpl; intros H Hr; [constructor; exact Hr|].
  destruct (key r <? key x)%nat; constructor; [exact Hr|]. inversion H; assumption.
Qed.

Lemma insert_sorted r l : Sorted le_key l -> Sorted le_key (insert r l).
Proof.
  induction l as [|x l IH]; simpl; intros H; [auto|].
  destruct (key r <? key x)%nat eqn:E.
  - apply Nat.ltb_lt in E. constructor; [exact H|]. constructor. unfold le_key. lia.
  - apply Nat.ltb_ge in E. inversion H; subst. constructor; [auto|].
    apply insert_hdrel; [assumption|]. unfold le_key. lia.
Qed.

Lemma le_key_trans : Relations_1.Transitive le_key.
Proof. unfold Relations_1.Transitive, le_key. intros; lia. Qed.

Lemma with_key_above k l :
  Forall (fun y => (k < key y)%nat) l -> with_key k l = [].
Proof.
  induction 1 as [|y l Hy _ IH]; simpl; [reflexivity|].
  destruct (Nat.eqb_spec (key y) k); [lia|exact IH].
Qed.

Lemma with_key_cons k r l : with_key k (r :: l) = with_key k [r] ++ with_key k l.
Proof. unfold with_key. simpl. destruct (Nat.eqb (key r) k); reflexivity. Qed.

(** Inserting into a sorted list appends the new element to its key class. *)
Lemma with_key_insert k r l :
  Sorted le_key l ->
  with_key k (insert r l) = with_key k l ++ with_key k [r].
Proof.
  intros Hs. apply Sorted_StronglySorted in Hs; [|exact le_key_trans].
  induction Hs as [|x l Hs IH Hall]; [reflexivity|].
  cbn [insert]. destruct (key r <? key x)%nat eqn:E.
  - apply Nat.ltb_lt in E. rewrite (with_key_cons k r (x :: l)).
    destruct (Nat.eqb_spec (key r) k) as [Hk|Hk].
    + rewrite (with_key_above k (x :: l)); [rewrite app_nil_r; reflexivity|].
      constructor; [lia|]. eapply Forall_impl; [|exact Hall]. unfold le_key. intros; lia.
    + unfold with_key at 1 3. simpl. apply Nat.eqb_neq in Hk. rewrite Hk, app_nil_r.
      reflexivity.
  - rewrite (with_key_cons k x (insert r l)), (with_key_cons k x l), IH.
    apply app_assoc.
Qed.

Lemma fold_insert_perm l acc :
  Permutation (fold_left (fun acc r => insert r acc) l acc) (acc ++ l).
Proof.
  revert acc; induction l as [|r l IH]; intros acc; simpl.
  - rewrite app_nil_r. auto.
  - eapply perm_trans; [apply IH|].
    eapply perm_trans; [apply Permutation_app_tail, insert_perm|].
    simpl. apply Permutation_middle.
Qed.

Lemma fold_insert_sorted l acc :
  Sorted le_key acc -> Sorted le_key (fold_left (fun acc r => insert r acc) l acc).
Proof.
  revert acc; induction l as [|r l IH]; intros acc H; simpl; [exact H|].
  apply IH, insert_sorted, H.
Qed.

Lemma fold_insert_with_key k l acc :
  Sorted le_key acc ->
  with_key k (fold_left (fun acc r => insert r acc) l acc) = with_key k acc ++ with_key k l.
Proof.
  revert acc; induction l as [|r l IH]; intros acc H; cbn [fold_left].
  - rewrite app_nil_r. reflexivity.
  - rewrite IH by (apply insert_sorted, H). rewrite with_key_insert by exact H.
    rewrite (with_key_cons k r l). apply eq_sym, app_assoc.
Qed.

Lemma sort_by_priority_perm l : Permutation (sort_by_priority l) l.
Proof. unfold sort_by_priority. apply fold_insert_perm. Qed.

Lemma sort_by_priority_sorted l : Sorted le_key (sort_by_priority l).
Proof. unfold sort_by_priority. apply fold_insert_sorted. constructor. Qed.

Lemma sort_by_priority_stable k l : with_key k (sort_by_priority l) = with_key k l.
Proof. unfold sort_by_priority. apply fold_insert_with_key. constructor. Qed.

(** In a sorted list, an element of smaller key comes before one of larger key. *)
Lemma sorted_before a b l :
  StronglySorted le_key l -> In a l -> In b l -> (key a < key b)%nat ->
  exists pre mid post, l = pre ++ a :: mid ++ b :: post.
Proof.
  induction 1 as [|x l Hs IH Hall]; simpl; [tauto|].
  intros Ha Hb Hlt. destruct Ha as [<-|Ha].
  - destruct Hb as [<-|Hb]; [lia|].
    destruct (in_split b l Hb) as [mid [post ->]]. exists [], mid, post. reflexivity.
  - destruct Hb as [<-|Hb].
    + rewrite Forall_forall in Hall. specialize (Hall a Ha). unfold le_key in Hall. lia.
    + destruct (IH Ha Hb Hlt) as [pre [mid [post ->]]]. exists (x :: pre), mid, post.
      reflexivity.
Qed.

End RecommendFacts.

(** ** The performance score *)
Module ScoreFacts.
Import Score.

Lemma rating_of_spec x :
  (rating_of x = Excellent <-> (80 <=? x)%float = true) /\
  (rating_of x = Good <-> (80 <=? x)%float = false /\ (60 <=? x)%float = true) /\
  (rating_of x = Fair <->
     (80 <=? x)%float = false /\ (60 <=? x)%float = false /\ (40 <=? x)%float = true) /\
  (rating_of x = Poor <->
     (80 <=? x)%float = false /\ (60 <=? x)%float = false /\ (40 <=? x)%float = false).
Proof.
  unfold rating_of.
  destruct (80 <=? x)%float, (60 <=? x)%float, (40 <=? x)%float;
    repeat split; intros; repeat match goal with H : _ /\ _ |- _ => destruct H end;
    try discriminate; reflexivity.
Qed.

Lemma engagement_sub_score_spec a :
  ((200 <=? a)%float = true -> engagement_sub_score a = 100%float) /\
  ((200 <=? a)%float = false -> (100 <=? a)%float = true -> engagement_sub_score a = 75%float) /\
  ((200 <=? a)%float = false -> (100 <=? a)%float = false -> (50 <=? a)%float = true ->
   engagement_sub_score a = 50%float) /\
  ((200 <=? a)%float = false -> (100 <=? a)%float = false -> (50 <=? a)%float = false ->
   engagement_sub_score a = ((a / 50) * 50)%float).
Proof.
  unfold engagement_sub_score.
  repeat split; intros; repeat match goal with H : _ = _ |- _ => rewrite H end; reflexivity.
Qed.

Lemma engagement_score_at en v :
  average_engagement en = v ->
  engagement_score (calculate_performance_score None None (Some en))
  = round_float (engagement_sub_score v) 1.
Proof. intros H. simpl. rewrite H. reflexivity. Qed.

End ScoreFacts.

(** ** The degenerate inputs of the peak-hour clustering *)
Module PeakFacts.
Import Peak.

Lemma hour_counts_length hours : List.length (hour_counts hours) = List.length (uniques hours).
Proof. unfold hour_counts. apply length_map. Qed.

Lemma parsed_hours_nil : parsed_hours [] = [].
Proof. reflexivity. Qed.

Lemma get_peak_activity_hours_cases ca :
  get_peak_activity_hours ca =
  match ca with
  | [] => ([], empty_result)
  | _ =>
      if (List.length (parsed_hours ca) <? 2)%nat then ([], not_enough_data)
      else if (List.length (uniques (parsed_hours ca)) <? 2)%nat
           then ([standard_scaler; dbscan; pca], empty_result)
           else
             let X := hour_counts (parsed_hours ca) in
             let labels := dbscan_fit_predict X in
             ([standard_scaler; dbscan; pca],
              peak_hours {| peak_ranges := peak_ranges_of X labels;
                            total_hours_analyzed := List.length (parsed_hours ca);
                            unique_hours := List.length X;
                            num_clusters := List.length (cluster_ids labels);
                            num_outliers := List.length (filter (fun l => l =? -1) labels) |})
  end.
Proof.
  unfold get_peak_activity_hours. destruct ca as [|o ca]; [reflexivity|].
  rewrite hour_counts_length. reflexivity.
Qed.

End PeakFacts.

(** ** The dominant emotion *)
Module EmotionFacts.
Import Emotion.

Lemma max_score_fold scores : max_score scores = fold_left step scores 0%nat.
Proof. reflexivity. Qed.

Lemma fold_step_ge scores acc : (acc <= fold_left step scores acc)%nat.
Proof.
  revert acc; induction scores as [|[e s] r IH]; intros acc; simpl; [lia|].
  specialize (IH (Nat.max acc s)). lia.
Qed.

Lemma fold_step_upper scores acc :
  Forall (fun p => (snd p <= fold_left step scores acc)%nat) scores.
Proof.
  revert acc; induction scores as [|[e s] r IH]; intros acc; simpl; constructor; [|apply IH].
  simpl. pose proof (fold_step_ge r (Nat.max acc s)). lia.
Qed.

Lemma fold_step_attained scores acc :
  fold_left step scores acc = acc \/
  exists e, In (e, fold_left step scores acc) scores.
Proof.
  revert acc; induction scores as [|[e s] r IH]; intros acc; simpl; [left; reflexivity|].
  destruct (IH (Nat.max acc s)) as [H|[e' H]].
  - rewrite H. destruct (Nat.max_spec acc s) as [[_ ->]|[_ ->]]; [right|left; reflexivity].
    exists e. left. reflexivity.
  - right. exists e'. right. exact H.
Qed.

Lemma max_score_upper scores : Forall (fun p => (snd p <= max_score scores)%nat) scores.
Proof. apply fold_step_upper. Qed.

Lemma max_score_attained scores :
  max_score scores <> 0%nat -> exists e, In (e, max_score scores) scores.
Proof.
  intros H. destruct (fold_step_attained scores 0) as [E|E]; [|exact E].
  exfalso. apply H. exact E.
Qed.

Lemma first_with_score_split scores m :
  (exists e, In (e, m) scores) ->
  exists pre rest,
    scores = pre ++ (first_with_score scores m, m) :: rest /\
    Forall (fun p => snd p <> m) pre.
Proof.
  induction scores as [|[e s] r IH]; simpl; [intros [e []]|].
  intros [e' He]. destruct (Nat.eqb_spec s m) as [->|Hne].
  - exists [], r. split; [reflexivity|constructor].
  - destruct He as [He|He]; [inversion He; congruence|].
    destruct IH as [pre [rest [E F]]]; [exists e'; exact He|].
    exists ((e, s) :: pre), rest. split; [rewrite E at 1; reflexivity|]. constructor; auto.
Qed.

Lemma emotion_scores_labels tl :
  map fst (emotion_scores tl) = [joy; anger; sadness; fear; surprise; disgust].
Proof. reflexivity. Qed.

End EmotionFacts.

(** ** The scan of [re.sub] *)
Module SubFacts.
Import Py Normal.

Lemma suffix_refl s : suffix s s.
Proof. exists []. reflexivity. Qed.

Lemma suffix_trans a b c : suffix a b -> suffix b c -> suffix a c.
Proof. intros [p ->] [q ->]. exists (q ++ p). apply app_assoc. Qed.

Lemma suffix_app_r p t : suffix t (p ++ t).
Proof. exists p. reflexivity. Qed.

Lemma suffix_cons c t : suffix t (c :: t).
Proof. exists [c]. reflexivity. Qed.

(** [sub] leaves [s] as it is when the pattern, on every suffix of [s],
    either fails or replaces a match by itself. *)
Lemma sub_fuel_id (m : matcher) s :
  (forall t, suffix t s ->
     m t = None \/ exists rep rest, m t = Some (rep, rest) /\ t = rep ++ rest) ->
  forall f, sub_fuel f m s = s.
Proof.
  intros H f. revert s H. induction f as [|f IH]; intros s H; [reflexivity|].
  destruct s as [|c r]; [reflexivity|]. simpl.
  destruct (H (c :: r) (suffix_refl _)) as [E|[rep [rest [E Eq]]]]; rewrite E.
  - f_equal. apply IH. intros t Ht. apply H.
    eapply suffix_trans; [exact Ht|apply suffix_cons].
  - rewrite IH; [symmetry; exact Eq|]. intros t Ht. apply H.
    eapply suffix_trans; [exact Ht|]. rewrite Eq. apply suffix_app_r.
Qed.

Lemma sub_id (m : matcher) s :
  (forall t, suffix t s ->
     m t = None \/ exists rep rest, m t = Some (rep, rest) /\ t = rep ++ rest) ->
  sub m s = s.
Proof. intros H. apply sub_fuel_id, H. Qed.

Lemma sub_none (m : matcher) s : (forall t, suffix t s -> m t = None) -> sub m s = s.
Proof. intros H. apply sub_id. intros t Ht. left. apply H, Ht. Qed.

Lemma sub_fuel_forall (P : Z -> Prop) (m : matcher) :
  (forall t rep rest, Forall P t -> m t = Some (rep, rest) -> Forall P rep /\ Forall P rest) ->
  forall f s, Forall P s -> Forall P (sub_fuel f m s).
Proof.
  intros Hm f. induction f as [|f IH]; intros s Hs; [exact Hs|].
  destruct s as [|c r]; [constructor|]. simpl.
  destruct (m (c :: r)) as [[rep rest]|] eqn:E.
  - destruct (Hm _ _ _ Hs E). apply Forall_app; split; auto.
  - inversion Hs; subst. constructor; auto.
Qed.

Lemma sub_forall (P : Z -> Prop) (m : matcher) s :
  (forall t rep rest, Forall P t -> m t = Some (rep, rest) -> Forall P rep /\ Forall P rest) ->
  Forall P s -> Forall P (sub m s).
Proof. intros Hm Hs. apply sub_fuel_forall; assumption. Qed.

Lemma sub_fuel_enough (m : matcher) : progressive m ->
  forall f g s, (length s <= f)%nat -> (length s <= g)%nat -> sub_fuel f m s = sub_fuel g m s.
Proof.
  intros Hp f. induction f as [|f IH]; intros g s Hf Hg.
  - destruct s; [destruct g; reflexivity|simpl in Hf; lia].
  - destruct g as [|g]; [destruct s; [reflexivity|simpl in Hg; lia]|].
    destruct s as [|c r]; [reflexivity|]. simpl.
    destruct (m (c :: r)) as [[rep rest]|] eqn:E.
    + pose proof (Hp _ _ _ E) as L. simpl in L, Hf, Hg. f_equal. apply IH; lia.
    + simpl in Hf, Hg. f_equal. apply IH; lia.
Qed.

Lemma sub_cons (m : matcher) c r : progressive m ->
  sub m (c :: r) = match m (c :: r) with
                   | Some (rep, rest) => rep ++ sub m rest
                   | None => c :: sub m r
                   end.
Proof.
  intros Hp. unfold sub at 1. cbn [length sub_fuel].
  destruct (m (c :: r)) as [[rep rest]|] eqn:E.
  - pose proof (Hp _ _ _ E) as L. simpl in L. f_equal. unfold sub.
    apply sub_fuel_enough; [exact Hp|lia|lia].
  - reflexivity.
Qed.

Lemma sub_nil (m : matcher) : sub m [] = [].
Proof. reflexivity. Qed.

Lemma strip_prefix_suffix p s r : strip_prefix p s = Some r -> s = p ++ r.
Proof.
  revert s; induction p as [|a p IH]; intros s H; simpl in H.
  - inversion H. reflexivity.
  - destruct s as [|b s]; [discriminate|].
    destruct (Z.eqb_spec a b) as [->|]; [|discriminate]. simpl. f_equal. apply IH, H.
Qed.

Lemma strip_prefix_absent (P : Z -> Prop) p s :
  (exists c, In c p /\ ~ P c) -> Forall P s -> strip_prefix p s = None.
Proof.
  revert s; induction p as [|a p IH]; intros s [c [Hin Hc]] Hs; [destruct Hin|].
  destruct s as [|b s]; [reflexivity|]. simpl.
  destruct (Z.eqb_spec a b) as [->|]; [|reflexivity].
  inversion Hs; subst. destruct Hin as [<-|Hin]; [contradiction|].
  apply IH; [exists c; split; assumption|assumption].
Qed.

Lemma span_app p s : s = fst (span p s) ++ snd (span p s).
Proof.
  induction s as [|c r IH]; simpl; [reflexivity|].
  destruct (p c); [|reflexivity]. destruct (span p r) as [a b]. simpl in *. f_equal. exact IH.
Qed.

Lemma plus_app p s run rest : plus p s = Some (run, rest) -> s = run ++ rest /\ run <> [].
Proof.
  unfold plus. pose proof (span_app p s) as E.
  destruct (span p s) as [[|x a] b]; intros H; [discriminate|]. injection H as <- <-.
  split; [exact E|discriminate].
Qed.

Lemma plus_progressive p s run rest : plus p s = Some (run, rest) -> (length rest < length s)%nat.
Proof.
  intros H. apply plus_app in H. destruct H as [-> Hne].
  rewrite length_app. destruct run; [congruence|simpl; lia].
Qed.

End SubFacts.

(** ** ASCII characters *)
Module CharFacts.
Import Normal Norm.

Lemma ascii_enum (p : Z -> bool) :
  forallb p ascii_codes = true -> forall c, is_ascii c = true -> p c = true.
Proof.
  intros H c Hc. unfold is_ascii in Hc. apply andb_prop in Hc as [H0 H1].
  apply Z.leb_le in H0. apply Z.ltb_lt in H1.
  rewrite forallb_forall in H. apply H. unfold ascii_codes. apply in_map_iff.
  exists (Z.to_nat c). split; [apply Z2Nat.id; lia|]. apply in_seq. lia.
Qed.

Lemma ascii_emoji c : is_ascii c = true -> in_emoji_class c = false.
Proof.
  intros H. apply negb_true_iff.
  exact (ascii_enum (fun c => negb (in_emoji_class c)) ltac:(vm_compute; reflexivity) c H).
Qed.

Lemma ascii_enum_imp (a b : Z -> bool) :
  forallb (fun c => implb (a c) (b c)) ascii_codes = true ->
  forall c, is_ascii c = true -> a c = true -> b c = true.
Proof.
  intros H c Hc Ha. pose proof (ascii_enum _ H c Hc) as E. cbv beta in E.
  rewrite Ha in E. exact E.
Qed.

Ltac enum p H := exact (ascii_enum p ltac:(vm_compute; reflexivity) _ H).
Ltac enum_imp a b H Ha := exact (ascii_enum_imp a b ltac:(vm_compute; reflexivity) _ H Ha).

Lemma ascii_lower_char c : is_ascii c = true -> Unicode.lower_char c = [low c].
Proof.
  intros H. apply (reflect_iff _ _ (ustr_eqb_spec _ _)).
  enum (fun c => Py.ustr_eqb (Unicode.lower_char c) [low c]) H.
Qed.

Lemma ascii_not_sigma c : is_ascii c = true -> (c =? 931) = false.
Proof. unfold is_ascii. intros H. apply andb_prop in H as [_ H]. apply Z.ltb_lt in H. apply Z.eqb_neq. lia. Qed.

Lemma ascii_low c : is_ascii c = true -> is_ascii (low c) && negb (is_upper_az (low c)) = true.
Proof. intros H. enum (fun c => is_ascii (low c) && negb (is_upper_az (low c))) H. Qed.

(** On lower-case ASCII, [\w] is [a-z0-9_]. *)
Lemma lowered_word c :
  is_ascii c = true -> is_upper_az c = false -> Unicode.is_word c = token_char c.
Proof.
  intros H Hu. apply Bool.eqb_prop.
  assert (Hn : negb (is_upper_az c) = true) by (rewrite Hu; reflexivity).
  enum_imp (fun c => negb (is_upper_az c)) (fun c => Bool.eqb (Unicode.is_word c) (token_char c))
    H Hn.
Qed.

Lemma ascii_space_not_word c :
  is_ascii c = true -> Unicode.isspace c = true -> Unicode.is_word c = false.
Proof.
  intros H Hs. apply negb_true_iff.
  enum_imp Unicode.isspace (fun c => negb (Unicode.is_word c)) H Hs.
Qed.

Lemma token_char_ascii c : token_char c = true -> is_ascii c = true.
Proof.
  unfold token_char, is_lower_az, is_digit, is_ascii. intros H.
  repeat rewrite orb_true_iff in H. rewrite andb_true_iff, Z.leb_le, Z.ltb_lt.
  repeat rewrite andb_true_iff, !Z.leb_le in H.
  destruct H as [[[H1 H2]|[H1 H2]]|H]; [lia|lia|apply Z.eqb_eq in H; lia].
Qed.

(** What the second pass needs of a token character. *)
Lemma token_char_facts c : token_char c = true ->
  Unicode.is_word c = true /\ Unicode.isspace c = false /\ in_emoji_class c = false /\
  Unicode.lower_char c = [c] /\ (c =? 931) = false /\ is_upper_az c = false /\
  (c =? 64) = false /\ (c =? 35) = false /\ (c =? 58) = false /\ (c =? 46) = false /\
  (c =? 32) = false.
Proof.
  intros H. pose proof (token_char_ascii c H) as A.
  pose proof (ascii_enum_imp token_char
    (fun c => Unicode.is_word c && negb (Unicode.isspace c) && negb (in_emoji_class c)
              && Py.ustr_eqb (Unicode.lower_char c) [c] && negb (c =? 931) && negb (is_upper_az c)
              && negb (c =? 64) && negb (c =? 35) && negb (c =? 58) && negb (c =? 46)
              && negb (c =? 32))
    ltac:(vm_compute; reflexivity) c A H) as E.
  cbv beta in E. repeat rewrite andb_true_iff in E. rewrite !negb_true_iff in E.
  destruct E as [[[[[[[[[[E1 E2] E3] E4] E5] E6] E7] E8] E9] E10] E11].
  apply (reflect_iff _ _ (ustr_eqb_spec _ _)) in E4.
  repeat split; assumption.
Qed.

Lemma space_facts :
  Unicode.is_word 32 = false /\ Unicode.isspace 32 = true /\ in_emoji_class 32 = false /\
  Unicode.lower_char 32 = [32] /\ Unicode.is_word 10 = false /\ is_ascii 32 = true.
Proof. vm_compute. repeat split. Qed.

End CharFacts.

(** ** The removal steps on ASCII text *)
Module AsciiFacts.
Import Py Norm Normal SubFacts CharFacts.

Lemma Forall_suffix (P : Z -> Prop) t s : suffix t s -> Forall P s -> Forall P t.
Proof. intros [p ->] H. apply Forall_app in H. apply H. Qed.

Lemma lower_aux_ascii before s : Forall asc s -> Unicode.lower_aux before s = map low s.
Proof.
  revert before; induction s as [|c r IH]; intros before H; [reflexivity|].
  inversion H; subst. simpl. rewrite ascii_not_sigma by assumption.
  rewrite ascii_lower_char by assumption. simpl. f_equal. apply IH; assumption.
Qed.

Lemma lower_ascii s : Forall asc s -> Unicode.lower s = map low s.
Proof. apply lower_aux_ascii. Qed.

Lemma map_low_ascii s : Forall asc s ->
  Forall (fun c => is_ascii c = true /\ is_upper_az c = false) (map low s).
Proof.
  intros H. apply Forall_map. eapply Forall_impl; [|exact H]. intros c Hc.
  pose proof (ascii_low c Hc) as E. apply andb_prop in E as [E1 E2].
  apply negb_true_iff in E2. split; assumption.
Qed.

Lemma convert_emoji_ascii dict s :
  forallb (fun kv => existsb (fun c => negb (is_ascii c)) (fst kv)) dict = true ->
  Forall asc s -> convert_emoji dict s = s.
Proof.
  unfold convert_emoji. revert s. induction dict as [|[k v] d IH]; intros s Hd Hs; [reflexivity|].
  simpl in Hd. apply andb_prop in Hd as [Hk Hd]. simpl.
  assert (E : replace k (space :: v ++ [space]) s = s).
  { unfold replace. apply sub_none. intros t Ht.
    rewrite (strip_prefix_absent asc); [reflexivity| |eapply Forall_suffix; eassumption].
    apply existsb_exists in Hk. destruct Hk as [c [Hin Hc]]. exists c. split; [exact Hin|].
    unfold asc. apply negb_true_iff in Hc. congruence. }
  rewrite E. apply IH; assumption.
Qed.

(** Patterns whose matches are deleted. *)
Lemma removal_forall (m : matcher) s :
  (forall t rep rest, m t = Some (rep, rest) -> rep = [] /\ suffix rest t) ->
  Forall asc s -> Forall asc (sub m s).
Proof.
  intros Hm. apply sub_forall. intros t rep rest Ht E. destruct (Hm _ _ _ E) as [-> Hs].
  split; [constructor|eapply Forall_suffix; eassumption].
Qed.

Lemma first_some_cases {A} (a b : option A) x :
  first_some a b = Some x -> a = Some x \/ b = Some x.
Proof. destruct a; simpl; auto. Qed.

Lemma strip_plus_removal (pre : ustr) (p : Z -> bool) t (rep rest : ustr) :
  match strip_prefix pre t with
  | Some r => match plus p r with Some (_, rest) => Some ([], rest) | None => None end
  | None => None
  end = Some (rep, rest) -> rep = [] /\ suffix rest t.
Proof.
  destruct (strip_prefix pre t) as [r|] eqn:E1; [|discriminate].
  destruct (plus p r) as [[run rest']|] eqn:E2; [|discriminate].
  intros H. inversion H; subst. split; [reflexivity|].
  apply strip_prefix_suffix in E1. apply plus_app in E2 as [E2 _].
  exists (pre ++ run). rewrite E1, E2. apply app_assoc.
Qed.

Ltac zlit c :=
  let p := fresh "p" in
  destruct c as [|p|p]; try reflexivity; repeat (destruct p as [p|p|]; try reflexivity).

Lemma m_mention_eq c r :
  m_mention (c :: r) =
  if c =? 64 then match plus Unicode.is_word r with
                  | Some (_, rest) => Some ([], rest)
                  | None => None
                  end
  else None.
Proof. unfold m_mention. zlit c. Qed.

Lemma m_hashtag_eq c r :
  m_hashtag (c :: r) =
  if c =? 35 then match plus Unicode.is_word r with
                  | Some (g, rest) => Some (process_hashtag g, rest)
                  | None => None
                  end
  else None.
Proof. unfold m_hashtag. zlit c. Qed.

Lemma m_mention_removal t rep rest :
  m_mention t = Some (rep, rest) -> rep = [] /\ suffix rest t.
Proof.
  destruct t as [|c r]; [discriminate|]. rewrite m_mention_eq.
  destruct (c =? 64); [|discriminate].
  destruct (plus Unicode.is_word r) as [[run rest']|] eqn:E; [|discriminate].
  intros H. inversion H; subst. split; [reflexivity|]. apply plus_app in E as [E _].
  exists (c :: run). rewrite E. reflexivity.
Qed.

Lemma url_removal t rep rest :
  Sentiment.m_url t = Some (rep, rest) -> rep = [] /\ suffix rest t.
Proof.
  unfold Sentiment.m_url. intros H. apply first_some_cases in H as [H|H];
    eapply strip_plus_removal; exact H.
Qed.

Lemma www_removal t rep rest :
  Sentiment.m_www t = Some (rep, rest) -> rep = [] /\ suffix rest t.
Proof. unfold Sentiment.m_www. apply strip_plus_removal. Qed.

Lemma emotion_url_removal t rep rest :
  Emotion.m_url t = Some (rep, rest) -> rep = [] /\ suffix rest t.
Proof.
  unfold Emotion.m_url. intros H. apply first_some_cases in H as [H|H];
    eapply strip_plus_removal; exact H.
Qed.

Lemma emotion_www_removal t rep rest :
  Emotion.m_www t = Some (rep, rest) -> rep = [] /\ suffix rest t.
Proof. unfold Emotion.m_www. apply strip_plus_removal. Qed.

Lemma sub_camel_ascii g : Forall asc g -> Forall asc (sub m_camel g).
Proof.
  apply sub_forall. intros t rep rest Ht.
  destruct t as [|a [|b r]]; simpl; try discriminate.
  destruct (is_lower_az a && is_upper_az b); [|discriminate].
  intros H. inversion H; subst. inversion Ht; subst. inversion H3; subst.
  split; [repeat constructor; assumption|assumption].
Qed.

Lemma hashtag_ascii s : Forall asc s -> Forall asc (sub m_hashtag s).
Proof.
  apply sub_forall. intros t rep rest Ht.
  destruct t as [|c r]; [discriminate|]. rewrite m_hashtag_eq.
  destruct (c =? 35); [|discriminate].
  destruct (plus Unicode.is_word r) as [[g rest']|] eqn:E; [|discriminate].
  intros H. injection H as <- <-. apply plus_app in E as [E _]. rewrite E in Ht.
  inversion Ht as [|? ? Hc Hgr]. apply Forall_app in Hgr as [Hg Hr]. split; [|exact Hr].
  unfold process_hashtag. rewrite lower_ascii by (apply sub_camel_ascii, Hg).
  eapply Forall_impl; [|apply map_low_ascii, sub_camel_ascii, Hg]. intros y [Hy _]. exact Hy.
Qed.

End AsciiFacts.

(** ** Runs of a repeated character *)
Module RunFacts.
Import Py Norm Normal SubFacts CharFacts AsciiFacts.

Lemma runs_ok_cons c r :
  runs_ok (c :: r) = true <->
  (Unicode.is_word c = true -> (lead c (c :: r) <= 3)%nat) /\ runs_ok r = true.
Proof.
  change (runs_ok (c :: r)) with (implb (Unicode.is_word c) (lead c (c :: r) <=? 3)%nat && runs_ok r).
  rewrite andb_true_iff. destruct (Unicode.is_word c); simpl; rewrite ?Nat.leb_le; intuition congruence.
Qed.

Lemma lead_cons_eq c r : lead c (c :: r) = S (lead c r).
Proof. simpl. rewrite Z.eqb_refl. reflexivity. Qed.

Lemma lead_cons_neq c x r : x <> c -> lead c (x :: r) = O.
Proof. intros H. simpl. apply Z.eqb_neq in H. rewrite H. reflexivity. Qed.

Lemma lead_app_le c a b : (lead c a <= lead c (a ++ b))%nat.
Proof.
  induction a as [|x a IH]; simpl; [lia|]. destruct (x =? c); lia.
Qed.

Lemma lead_app_sep c a d b : d <> c -> lead c (a ++ d :: b) = lead c a.
Proof.
  intros H. induction a as [|x a IH]; simpl.
  - apply Z.eqb_neq in H. rewrite H. reflexivity.
  - destruct (x =? c); [rewrite IH|]; reflexivity.
Qed.

Lemma runs_ok_app_l a b : runs_ok (a ++ b) = true -> runs_ok a = true.
Proof.
  induction a as [|x a IH]; [reflexivity|]. simpl app. rewrite !runs_ok_cons.
  intros [H1 H2]. split; [|apply IH, H2]. intros Hw. specialize (H1 Hw).
  pose proof (lead_app_le x (x :: a) b). simpl app in H. lia.
Qed.

Lemma runs_ok_app_r a b : runs_ok (a ++ b) = true -> runs_ok b = true.
Proof.
  induction a as [|x a IH]; [auto|]. simpl app. rewrite runs_ok_cons. intros [_ H]. auto.
Qed.

Lemma runs_ok_suffix t s : suffix t s -> runs_ok s = true -> runs_ok t = true.
Proof. intros [p ->]. apply runs_ok_app_r. Qed.

(** Two runs-free texts separated by a non-word character. *)
Lemma runs_ok_app_sep a d b :
  Unicode.is_word d = false -> runs_ok a = true -> runs_ok b = true -> runs_ok (a ++ d :: b) = true.
Proof.
  intros Hd Ha Hb. induction a as [|x a IH]; simpl app.
  - apply runs_ok_cons. split; [congruence|exact Hb].
  - apply runs_ok_cons in Ha as [H1 H2]. apply runs_ok_cons. split; [|apply IH, H2].
    intros Hw. assert (d <> x) by congruence.
    change (x :: a ++ d :: b) with ((x :: a) ++ d :: b). rewrite lead_app_sep by assumption.
    apply H1, Hw.
Qed.

Lemma span_eqb_lead c r :
  length (fst (span (Z.eqb c) r)) = lead c r /\ lead c (snd (span (Z.eqb c) r)) = O /\
  r = fst (span (Z.eqb c) r) ++ snd (span (Z.eqb c) r).
Proof.
  induction r as [|x r IH]; [simpl; auto|]. simpl.
  destruct (Z.eqb_spec c x) as [<-|Hne].
  - rewrite Z.eqb_refl. destruct (span (Z.eqb c) r) as [a b]. simpl in *.
    destruct IH as [H1 [H2 H3]]. repeat split; [lia|exact H2|f_equal; exact H3].
  - assert (E : (x =? c) = false) by (apply Z.eqb_neq; congruence). rewrite E. simpl.
    rewrite E. auto.
Qed.

Lemma m_repeat_cons x r :
  m_repeat (x :: r) =
  if x =? 10 then None
  else if (3 <=? length (fst (span (Z.eqb x) r)))%nat
       then Some ([x; x], snd (span (Z.eqb x) r)) else None.
Proof. unfold m_repeat. destruct (x =? 10); [reflexivity|]. destruct (span (Z.eqb x) r); reflexivity. Qed.

Lemma m_repeat_progressive : progressive m_repeat.
Proof.
  intros [|x r] rep rest; [discriminate|]. rewrite m_repeat_cons.
  destruct (x =? 10); [discriminate|]. destruct (3 <=? _)%nat; [|discriminate].
  intros H. inversion H; subst. destruct (span_eqb_lead x r) as [_ [_ E]].
  simpl. rewrite E at 2. rewrite length_app. lia.
Qed.

Lemma lead_sub_repeat n : forall s c, (length s <= n)%nat ->
  lead c (sub m_repeat s) =
  if negb (c =? 10) && (4 <=? lead c s)%nat then 2%nat else lead c s.
Proof.
  induction n as [|n IH]; intros s c Hn.
  - destruct s; [rewrite sub_nil; simpl; destruct (negb _); reflexivity|simpl in Hn; lia].
  - destruct s as [|x r]; [rewrite sub_nil; simpl; destruct (negb _); reflexivity|]. simpl in Hn.
    rewrite sub_cons by exact m_repeat_progressive. rewrite m_repeat_cons.
    destruct (span_eqb_lead x r) as [Hl [Hr0 Hr]].
    destruct (Z.eqb_spec x 10) as [Ex|Ex].
    + cbn [lead]. rewrite IH by lia. destruct (Z.eqb_spec x c) as [<-|Hxc].
      * subst x. reflexivity.
      * destruct (negb (c =? 10)); reflexivity.
    + destruct (3 <=? length (fst (span (Z.eqb x) r)))%nat eqn:E3.
      * apply Nat.leb_le in E3. cbn [lead app].
        assert (Hs : (length (snd (span (Z.eqb x) r)) <= n)%nat).
        { rewrite Hr in Hn. rewrite length_app in Hn. lia. }
        destruct (Z.eqb_spec x c) as [<-|Hxc].
        -- rewrite IH by exact Hs. rewrite Hr0. apply Z.eqb_neq in Ex. rewrite ?Ex.
           replace (4 <=? S (lead x r))%nat with true by (symmetry; apply Nat.leb_le; lia).
           reflexivity.
        -- destruct (negb (c =? 10)); reflexivity.
      * apply Nat.leb_gt in E3. cbn [lead]. rewrite IH by lia.
        destruct (Z.eqb_spec x c) as [<-|Hxc].
        -- replace (4 <=? lead x r)%nat with false by (symmetry; apply Nat.leb_gt; lia).
           replace (4 <=? S (lead x r))%nat with false by (symmetry; apply Nat.leb_gt; lia).
           destruct (negb (x =? 10)); reflexivity.
        -- destruct (negb (c =? 10)); reflexivity.
Qed.

Lemma runs_ok_sub_repeat n : forall s, (length s <= n)%nat -> runs_ok (sub m_repeat s) = true.
Proof.
  induction n as [|n IH]; intros s Hn.
  - destruct s; [rewrite sub_nil; reflexivity|simpl in Hn; lia].
  - destruct s as [|x r]; [rewrite sub_nil; reflexivity|]. simpl in Hn.
    rewrite sub_cons by exact m_repeat_progressive. rewrite m_repeat_cons.
    destruct (span_eqb_lead x r) as [Hl [Hr0 Hr]].
    destruct (Z.eqb_spec x 10) as [Ex|Ex].
    + apply runs_ok_cons. split; [|apply IH; lia].
      subst x. intros H. destruct CharFacts.space_facts as [_ [_ [_ [_ [H10 _]]]]]. congruence.
    + assert (Hs : (length (snd (span (Z.eqb x) r)) <= n)%nat).
      { rewrite Hr in Hn. rewrite length_app in Hn. lia. }
      destruct (3 <=? length (fst (span (Z.eqb x) r)))%nat eqn:E3.
      * simpl app. apply runs_ok_cons. split.
        -- intros _. rewrite !lead_cons_eq.
           rewrite (lead_sub_repeat n) by exact Hs. rewrite Hr0.
           destruct (negb (x =? 10)); simpl; lia.
        -- apply runs_ok_cons. split; [|apply IH, Hs].
           intros _. rewrite lead_cons_eq.
           rewrite (lead_sub_repeat n) by exact Hs. rewrite Hr0.
           destruct (negb (x =? 10)); simpl; lia.
      * apply Nat.leb_gt in E3. apply runs_ok_cons. split; [|apply IH; lia].
        intros _. rewrite lead_cons_eq. rewrite (lead_sub_repeat n) by lia.
        replace (4 <=? lead x r)%nat with false by (symmetry; apply Nat.leb_gt; lia).
        destruct (negb (x =? 10)); simpl; lia.
Qed.

End RunFacts.

(** ** Special characters and whitespace *)
Module StageFacts.
Import Py Norm Normal SubFacts CharFacts AsciiFacts RunFacts.

Lemma m_special_progressive : progressive m_special.
Proof.
  intros [|x r] rep rest; [discriminate|]. unfold m_special.
  destruct (_ || _); [discriminate|]. intros H; inversion H; subst; simpl; lia.
Qed.

Lemma m_special_cons x r :
  m_special (x :: r) = if Unicode.is_word x || Unicode.isspace x then None else Some ([space], r).
Proof. reflexivity. Qed.

Lemma sub_special_map s : sub m_special s = map special_char s.
Proof.
  induction s as [|x r IH]; [apply sub_nil|].
  rewrite sub_cons by exact m_special_progressive. rewrite m_special_cons.
  cbn [map]. unfold special_char at 1.
  destruct (Unicode.is_word x || Unicode.isspace x); rewrite IH; reflexivity.
Qed.

Lemma word_ne_space c : Unicode.is_word c = true -> c <> 32.
Proof.
  intros H ->. destruct space_facts as [H32 _]. congruence.
Qed.

Lemma lead_map_special c s : Unicode.is_word c = true -> lead c (map special_char s) = lead c s.
Proof.
  intros Hc. induction s as [|x r IH]; [reflexivity|]. cbn [map lead]. rewrite IH.
  unfold special_char. destruct (Unicode.is_word x || Unicode.isspace x) eqn:E.
  - reflexivity.
  - assert (E1 : (space =? c) = false) by (apply Z.eqb_neq; intros H; apply (word_ne_space c Hc); rewrite <- H; reflexivity).
    assert (E2 : (x =? c) = false).
    { apply Z.eqb_neq. intros ->. rewrite Hc in E. discriminate. }
    rewrite E1, E2. reflexivity.
Qed.

Lemma runs_ok_map_special s : runs_ok s = true -> runs_ok (map special_char s) = true.
Proof.
  induction s as [|x r IH]; [reflexivity|]. intros H. apply runs_ok_cons in H as [H1 H2].
  change (map special_char (x :: r)) with (special_char x :: map special_char r).
  apply runs_ok_cons. split; [|apply IH, H2].
  intros Hw. destruct (Unicode.is_word x || Unicode.isspace x) eqn:E.
  - assert (Hx : special_char x = x) by (unfold special_char; rewrite E; reflexivity).
    rewrite Hx in *.
    replace (x :: map special_char r) with (map special_char (x :: r)) by (cbn [map]; rewrite Hx; reflexivity).
    rewrite lead_map_special by exact Hw. apply H1, Hw.
  - assert (Hx : special_char x = space) by (unfold special_char; rewrite E; reflexivity).
    rewrite Hx in Hw. destruct space_facts as [H32 _]. unfold space in Hw. congruence.
Qed.

Lemma m_spaces_cons x r :
  m_spaces (x :: r) =
  if Unicode.isspace x then Some ([space], snd (span Unicode.isspace r)) else None.
Proof.
  unfold m_spaces, plus. simpl. destruct (Unicode.isspace x); [|reflexivity].
  destruct (span Unicode.isspace r); reflexivity.
Qed.

Lemma m_spaces_progressive : progressive m_spaces.
Proof.
  intros [|x r] rep rest; [discriminate|]. rewrite m_spaces_cons.
  destruct (Unicode.isspace x); [|discriminate]. intros H; inversion H; subst.
  pose proof (span_app Unicode.isspace r) as E. simpl. rewrite E at 2. rewrite length_app. lia.
Qed.

Lemma ascii_space_word c : asc c -> Unicode.isspace c = true -> Unicode.is_word c = false.
Proof.
  intros Ha Hs. apply (ascii_space_not_word c Ha Hs).
Qed.

Lemma lead_sub_spaces n : forall s c, (length s <= n)%nat -> Forall asc s ->
  Unicode.is_word c = true -> lead c (sub m_spaces s) = lead c s.
Proof.
  induction n as [|n IH]; intros s c Hn Ha Hc.
  - destruct s; [rewrite sub_nil; reflexivity|simpl in Hn; lia].
  - destruct s as [|x r]; [rewrite sub_nil; reflexivity|]. simpl in Hn.
    inversion Ha as [|? ? Hx Hr]; subst.
    rewrite sub_cons by exact m_spaces_progressive. rewrite m_spaces_cons.
    destruct (Unicode.isspace x) eqn:Es.
    + assert (E1 : (space =? c) = false) by (apply Z.eqb_neq; intros H; apply (word_ne_space c Hc); rewrite <- H; reflexivity).
      assert (E2 : (x =? c) = false).
      { apply Z.eqb_neq. intros ->. rewrite (ascii_space_word c Hx Es) in Hc. discriminate. }
      cbn [app lead]. rewrite E1, E2. reflexivity.
    + cbn [lead]. destruct (x =? c); [|reflexivity]. rewrite IH by (auto; lia). reflexivity.
Qed.

Lemma runs_ok_sub_spaces n : forall s, (length s <= n)%nat -> Forall asc s ->
  runs_ok s = true -> runs_ok (sub m_spaces s) = true.
Proof.
  induction n as [|n IH]; intros s Hn Ha Hs.
  - destruct s; [rewrite sub_nil; reflexivity|simpl in Hn; lia].
  - destruct s as [|x r]; [rewrite sub_nil; reflexivity|]. simpl in Hn.
    inversion Ha as [|? ? Hx Hr]; subst.
    rewrite sub_cons by exact m_spaces_progressive. rewrite m_spaces_cons.
    pose proof (span_app Unicode.isspace r) as E.
    destruct (Unicode.isspace x) eqn:Es.
    + simpl app. apply runs_ok_cons. split.
      * intros H. destruct space_facts as [H32 _]. unfold space in H. congruence.
      * assert (Hsuf : suffix (snd (span Unicode.isspace r)) (x :: r)).
        { exists (x :: fst (span Unicode.isspace r)). simpl. rewrite <- E. reflexivity. }
        apply IH.
        -- rewrite E in Hn. rewrite length_app in Hn. lia.
        -- exact (Forall_suffix _ _ _ Hsuf Ha).
        -- exact (runs_ok_suffix _ _ Hsuf Hs).
    + apply runs_ok_cons in Hs as [H1 H2]. apply runs_ok_cons. split; [|apply IH; auto; lia].
      intros Hw. rewrite !lead_cons_eq. rewrite (lead_sub_spaces n) by (auto; lia).
      rewrite <- lead_cons_eq. apply H1, Hw.
Qed.

Lemma sub_spaces_forall (Q : Z -> Prop) s : Q space -> Forall Q s -> Forall Q (sub m_spaces s).
Proof.
  intros Hq Hs. apply sub_forall; [|exact Hs].
  intros t rep rest Ht Hm. unfold m_spaces in Hm.
  destruct (plus Unicode.isspace t) as [[run rest']|] eqn:Ep; [|discriminate].
  inversion Hm; subst. apply plus_app in Ep as [-> _]. split.
  - constructor; [exact Hq|constructor].
  - apply Forall_app in Ht as [_ Ht]. exact Ht.
Qed.

End StageFacts.

(** ** [strip] and [split] *)
Module SplitFacts.
Import Py Norm Normal SubFacts CharFacts AsciiFacts RunFacts StageFacts.

Lemma strip_parts s : exists a b, s = a ++ strip s ++ b.
Proof.
  unfold strip.
  set (t := snd (span Unicode.isspace s)).
  set (v := snd (span Unicode.isspace (rev t))).
  pose proof (span_app Unicode.isspace s) as E1.
  pose proof (span_app Unicode.isspace (rev t)) as E2.
  exists (fst (span Unicode.isspace s)), (rev (fst (span Unicode.isspace (rev t)))).
  set (a := fst (span Unicode.isspace (rev t))) in *. fold v in E2.
  rewrite E1 at 1. fold t. f_equal.
  rewrite <- (rev_involutive t) at 1. rewrite E2. rewrite rev_app_distr. reflexivity.
Qed.

Lemma strip_runs_ok s : runs_ok s = true -> runs_ok (strip s) = true.
Proof.
  destruct (strip_parts s) as [a [b E]]. intros H. rewrite E in H.
  apply runs_ok_app_r in H. apply runs_ok_app_l in H. exact H.
Qed.

Lemma strip_forall (Q : Z -> Prop) s : Forall Q s -> Forall Q (strip s).
Proof.
  destruct (strip_parts s) as [a [b E]]. intros H. rewrite E in H.
  apply Forall_app in H as [_ H]. apply Forall_app in H as [H _]. exact H.
Qed.

Lemma rev_token (Q : Z -> Prop) cur s :
  cur <> [] -> Forall Q (rev cur ++ s) -> runs_ok (rev cur ++ s) = true ->
  Forall (fun c => Unicode.isspace c = false) cur -> good_token Q (rev cur).
Proof.
  intros Hne HQ Hr Hs. repeat split.
  - intros H. apply Hne. rewrite <- (rev_involutive cur), H. reflexivity.
  - apply Forall_app in HQ as [HQ _]. exact HQ.
  - apply Forall_rev, Hs.
  - apply runs_ok_app_l in Hr. exact Hr.
Qed.

Lemma split_aux_tokens (Q : Z -> Prop) s : forall cur,
  Forall Q (rev cur ++ s) -> runs_ok (rev cur ++ s) = true ->
  Forall (fun c => Unicode.isspace c = false) cur ->
  Forall (good_token Q) (split_aux cur s).
Proof.
  induction s as [|c r IH]; intros cur HQ Hr Hs.
  - destruct cur as [|x cur']; [constructor|].
    constructor; [|constructor]. apply (rev_token Q _ []); auto; discriminate.
  - cbn [split_aux]. destruct (Unicode.isspace c) eqn:Ec.
    + assert (HQr : Forall Q r).
      { apply Forall_app in HQ as [_ HQ]. inversion HQ; assumption. }
      assert (Hrr : runs_ok r = true).
      { apply runs_ok_app_r in Hr. apply runs_ok_cons in Hr as [_ Hr]. exact Hr. }
      destruct cur as [|x cur'].
      * apply IH; auto.
      * constructor.
        -- apply (rev_token Q _ (c :: r)); auto; discriminate.
        -- apply IH; auto.
    + apply IH.
      * simpl. rewrite <- app_assoc. exact HQ.
      * simpl. rewrite <- app_assoc. exact Hr.
      * constructor; auto.
Qed.

Lemma split_tokens (Q : Z -> Prop) s :
  Forall Q s -> runs_ok s = true -> Forall (good_token Q) (split s).
Proof. intros HQ Hr. apply split_aux_tokens; auto. Qed.

End SplitFacts.

(** ** One pass of the sentiment normalisation on ASCII text *)
Module FirstPass.
Import Py Norm Normal SubFacts CharFacts AsciiFacts RunFacts StageFacts SplitFacts.

Lemma m_emoji_ascii t : Forall asc t -> m_emoji t = None.
Proof.
  destruct t as [|c r]; [reflexivity|]. intros H. inversion H; subst.
  unfold m_emoji, plus. simpl. rewrite ascii_emoji by assumption. reflexivity.
Qed.

Lemma sub_emoji_ascii s : Forall asc s -> sub m_emoji s = s.
Proof.
  intros H. apply sub_none. intros t Ht. apply m_emoji_ascii. exact (Forall_suffix _ _ _ Ht H).
Qed.

Lemma sub_repeat_forall (P : Z -> Prop) s : Forall P s -> Forall P (sub m_repeat s).
Proof.
  apply sub_forall. intros [|c r] rep rest Ht; [discriminate|]. rewrite m_repeat_cons.
  destruct (c =? 10); [discriminate|]. destruct (3 <=? _)%nat; [|discriminate].
  intros E. inversion E; subst. inversion Ht; subst. split.
  - repeat constructor; assumption.
  - pose proof (span_app (Z.eqb c) r) as Es. rewrite Es in H2.
    apply Forall_app in H2 as [_ H2]. exact H2.
Qed.

Lemma special_cleaned c : is_ascii c = true -> is_upper_az c = false -> cleaned (special_char c).
Proof.
  intros Ha Hu. unfold special_char. rewrite (lowered_word c Ha Hu).
  destruct (token_char c) eqn:Et; simpl.
  - split; auto.
  - destruct (Unicode.isspace c) eqn:Es.
    + split; auto.
    + destruct space_facts as [_ [H32 [_ [_ [_ A32]]]]]. split; [exact A32|right; exact H32].
Qed.

Lemma tail_steps_ascii s : Forall asc s ->
  Forall cleaned (tail_steps s) /\ runs_ok (tail_steps s) = true.
Proof.
  intros Hs. unfold tail_steps. cbv zeta.
  rewrite sub_emoji_ascii by exact Hs. rewrite lower_ascii by exact Hs.
  pose proof (map_low_ascii s Hs) as H2.
  set (t2 := map low s) in *.
  pose proof (sub_repeat_forall _ _ H2) as H3.
  pose proof (runs_ok_sub_repeat (length t2) t2 (le_n _)) as R3.
  set (t3 := sub m_repeat t2) in *.
  rewrite sub_special_map.
  assert (H4 : Forall cleaned (map special_char t3)).
  { apply Forall_map. eapply Forall_impl; [|exact H3]. intros c [Ha Hu].
    apply special_cleaned; assumption. }
  pose proof (runs_ok_map_special t3 R3) as R4.
  set (t4 := map special_char t3) in *.
  assert (A4 : Forall asc t4) by (eapply Forall_impl; [|exact H4]; intros c [Ha _]; exact Ha).
  assert (Qs : cleaned space).
  { destruct space_facts as [_ [H32 [_ [_ [_ A32]]]]]. split; [exact A32|right; exact H32]. }
  split.
  - apply strip_forall, sub_spaces_forall; assumption.
  - apply strip_runs_ok. apply (runs_ok_sub_spaces (length t4)); auto.
Qed.

Lemma cleaned_token w : good_token cleaned w -> normal_token w = true.
Proof.
  intros [Hne [HQ [Hsp Hr]]]. unfold normal_token. rewrite Hr, andb_true_r.
  apply andb_true_intro. split.
  - destruct w; [congruence|reflexivity].
  - apply forallb_forall. intros c Hc.
    rewrite Forall_forall in HQ, Hsp. destruct (HQ c Hc) as [_ [H|H]]; [exact H|].
    rewrite (Hsp c Hc) in H. discriminate.
Qed.

Lemma sentiment_dict_nonascii :
  forallb (fun kv => existsb (fun c => negb (is_ascii c)) (fst kv)) Sentiment.emoji_dict = true.
Proof. vm_compute. reflexivity. Qed.

Lemma emotion_dict_nonascii :
  forallb (fun kv => existsb (fun c => negb (is_ascii c)) (fst kv)) Emotion.emoji_dict = true.
Proof. vm_compute. reflexivity. Qed.

Lemma sentiment_removals_ascii s : Forall asc s ->
  Forall asc (sub m_hashtag (sub m_mention (sub Sentiment.m_www (sub Sentiment.m_url
    (convert_emoji Sentiment.emoji_dict s))))).
Proof.
  intros Hs. rewrite convert_emoji_ascii by (exact sentiment_dict_nonascii || exact Hs).
  apply hashtag_ascii. apply removal_forall; [exact m_mention_removal|].
  apply removal_forall; [exact www_removal|]. apply removal_forall; [exact url_removal|]. exact Hs.
Qed.

Lemma emotion_removals_ascii s : Forall asc s ->
  Forall asc (sub m_hashtag (sub m_mention (sub Emotion.m_www (sub Emotion.m_url
    (convert_emoji Emotion.emoji_dict s))))).
Proof.
  intros Hs. rewrite convert_emoji_ascii by (exact emotion_dict_nonascii || exact Hs).
  apply hashtag_ascii. apply removal_forall; [exact m_mention_removal|].
  apply removal_forall; [exact emotion_www_removal|].
  apply removal_forall; [exact emotion_url_removal|]. exact Hs.
Qed.

(** On ASCII input the sentiment normalisation is a single-spaced join
    of normal tokens that pass [keep_word]. *)
Lemma sentiment_first_pass x : Forall asc x ->
  exists ws, Sentiment.preprocess_text (PyStr x) = join [space] ws /\
             Forall (fun w => normal_token w = true /\ Sentiment.keep_word w = true) ws.
Proof.
  intros Hx. destruct x as [|c r]; [exists []; split; [reflexivity|constructor]|].
  cbv beta iota zeta delta [Sentiment.preprocess_text].
  destruct (tail_steps_ascii _ (sentiment_removals_ascii _ Hx)) as [HQ HR].
  eexists. split; [reflexivity|].
  pose proof (split_tokens cleaned _ HQ HR) as Ht.
  apply Forall_forall. intros w Hw. apply filter_In in Hw as [Hw Hk].
  rewrite Forall_forall in Ht. split; [apply cleaned_token, Ht, Hw|exact Hk].
Qed.

End FirstPass.

(** ** Single-spaced text of normal tokens *)
Module SecondPass.
Import Py Norm Normal SubFacts CharFacts AsciiFacts RunFacts StageFacts SplitFacts FirstPass.

Lemma spaced_app_tokens w s : forallb token_char w = true -> spaced (w ++ s) = spaced s.
Proof.
  induction w as [|c w IH]; [reflexivity|]. simpl. intros H. apply andb_prop in H as [Hc Hw].
  destruct (token_char_facts c Hc) as [_ [_ [_ [_ [_ [_ [_ [_ [_ [_ E]]]]]]]]]].
  rewrite E, Hc, IH by exact Hw. reflexivity.
Qed.

Lemma spaced_suffix t s : suffix t s -> spaced s = true -> spaced t = true.
Proof.
  intros [p ->]. induction p as [|c p IH]; [auto|]. simpl. intros H.
  apply andb_prop in H as [_ H]. auto.
Qed.

Lemma spaced_chars s : spaced s = true -> Forall text_char s.
Proof.
  induction s as [|c r IH]; [constructor|]. simpl. intros H. apply andb_prop in H as [Hc Hr].
  constructor; [|auto]. unfold text_char. destruct (Z.eqb_spec c 32); auto.
Qed.

Lemma text_char_ascii c : text_char c -> asc c.
Proof. intros [H| ->]; [apply token_char_ascii, H|reflexivity]. Qed.

Lemma spaced_last s : spaced s = true -> s <> [] ->
  exists s' d, s = s' ++ [d] /\ token_char d = true.
Proof.
  induction s as [|c r IH]; intros H Hne; [congruence|].
  simpl in H. apply andb_prop in H as [Hc Hr]. destruct r as [|c' r'].
  - exists [], c. split; [reflexivity|]. destruct (c =? 32); [discriminate|exact Hc].
  - destruct (IH Hr ltac:(discriminate)) as [s' [d [E Hd]]].
    exists (c :: s'), d. rewrite E. split; [reflexivity|exact Hd].
Qed.

(** The text [join [space] ws] of normal tokens. *)
Lemma join_shape ws : Forall (fun w => normal_token w = true) ws ->
  spaced (join [space] ws) = true /\ runs_ok (join [space] ws) = true /\
  (ws = [] \/ starts_token (join [space] ws) = true).
Proof.
  induction ws as [|w ws IH]; intros H; [auto|]. inversion H as [|? ? Hw Hws]; subst.
  unfold normal_token in Hw. apply andb_prop in Hw as [Hw Hr]. apply andb_prop in Hw as [Hne Ht].
  assert (Hs : forall s, starts_token (w ++ s) = true).
  { destruct w as [|d w]; [discriminate|]. simpl in Ht. apply andb_prop in Ht as [Hd _].
    intros; exact Hd. }
  destruct ws as [|w2 ws].
  - cbn [join]. split; [rewrite <- (app_nil_r w); rewrite spaced_app_tokens by exact Ht; reflexivity|].
    split; [exact Hr|right]. rewrite <- (app_nil_r w). apply Hs.
  - destruct (IH Hws) as [S1 [S2 [S3|S3]]]; [discriminate|].
    change (join [space] (w :: w2 :: ws)) with (w ++ space :: join [space] (w2 :: ws)).
    set (J := join [space] (w2 :: ws)) in *.
    split; [|split].
    + rewrite spaced_app_tokens by exact Ht.
      change (spaced (space :: J)) with (starts_token J && spaced J). rewrite S3, S1. reflexivity.
    + apply runs_ok_app_sep; [apply space_facts|exact Hr|exact S2].
    + right. apply Hs.
Qed.

Lemma spaced_cons c r : spaced (c :: r) = true ->
  (c = 32 /\ exists d r', r = d :: r' /\ token_char d = true) \/ token_char c = true.
Proof.
  simpl. intros H. apply andb_prop in H as [Hc _]. destruct (Z.eqb_spec c 32) as [->|].
  - left. split; [reflexivity|]. destruct r as [|d r']; [discriminate|]. exists d, r'. auto.
  - right. exact Hc.
Qed.

Lemma token_ne_space d : token_char d = true -> d <> 32.
Proof.
  intros H. destruct (token_char_facts d H) as [_ [_ [_ [_ [_ [_ [_ [_ [_ [_ E]]]]]]]]]].
  apply Z.eqb_neq, E.
Qed.

Lemma token_not_space d : token_char d = true -> Unicode.isspace d = false.
Proof. intros H. apply (token_char_facts d H). Qed.

Lemma token_word d : token_char d = true -> Unicode.is_word d = true.
Proof. intros H. apply (token_char_facts d H). Qed.

Lemma m_repeat_spaced c r : spaced (c :: r) = true -> runs_ok (c :: r) = true ->
  m_repeat (c :: r) = None.
Proof.
  intros Hs Hr. rewrite m_repeat_cons. destruct (c =? 10); [reflexivity|].
  destruct (span_eqb_lead c r) as [Hl _]. rewrite Hl.
  destruct (spaced_cons c r Hs) as [[-> [d [r' [-> Hd]]]]|Hc].
  - rewrite lead_cons_neq by exact (token_ne_space d Hd). reflexivity.
  - apply runs_ok_cons in Hr as [Hr _]. specialize (Hr (token_word c Hc)).
    rewrite lead_cons_eq in Hr. replace (3 <=? lead c r)%nat with false; [reflexivity|].
    symmetry. apply Nat.leb_gt. lia.
Qed.

Lemma m_special_spaced c r : spaced (c :: r) = true -> m_special (c :: r) = None.
Proof.
  intros Hs. rewrite m_special_cons.
  destruct (spaced_cons c r Hs) as [[-> _]|Hc].
  - reflexivity.
  - rewrite (token_word c Hc). reflexivity.
Qed.

Lemma m_spaces_spaced c r : spaced (c :: r) = true ->
  m_spaces (c :: r) = None \/ (c = space /\ m_spaces (c :: r) = Some ([space], r)).
Proof.
  intros Hs. rewrite m_spaces_cons.
  destruct (spaced_cons c r Hs) as [[-> [d [r' [-> Hd]]]]|Hc].
  - right. split; [reflexivity|]. simpl. rewrite (token_not_space d Hd). reflexivity.
  - left. rewrite (token_not_space c Hc). reflexivity.
Qed.

Lemma m_mention_spaced c r : spaced (c :: r) = true -> m_mention (c :: r) = None.
Proof.
  intros Hs. rewrite m_mention_eq.
  destruct (spaced_cons c r Hs) as [[-> _]|Hc]; [reflexivity|].
  destruct (token_char_facts c Hc) as [_ [_ [_ [_ [_ [_ [E _]]]]]]]. rewrite E. reflexivity.
Qed.

Lemma m_hashtag_spaced c r : spaced (c :: r) = true -> m_hashtag (c :: r) = None.
Proof.
  intros Hs. rewrite m_hashtag_eq.
  destruct (spaced_cons c r Hs) as [[-> _]|Hc]; [reflexivity|].
  destruct (token_char_facts c Hc) as [_ [_ [_ [_ [_ [_ [_ [E _]]]]]]]]. rewrite E. reflexivity.
Qed.

Lemma prefixes_absent t : Forall text_char t ->
  strip_prefix (u "https://") t = None /\ strip_prefix (u "http://") t = None /\
  strip_prefix (u "www.") t = None.
Proof.
  intros H. repeat split; apply (strip_prefix_absent text_char); try exact H.
  - exists 58. split; [simpl; tauto|]. intros [E|E]; discriminate.
  - exists 58. split; [simpl; tauto|]. intros [E|E]; discriminate.
  - exists 46. split; [simpl; tauto|]. intros [E|E]; discriminate.
Qed.

End SecondPass.

(** ** The normalisation steps on single-spaced text *)
Module FixedText.
Import Py Norm Normal SubFacts CharFacts AsciiFacts RunFacts StageFacts SplitFacts FirstPass SecondPass.

Lemma low_text_char c : text_char c -> low c = c.
Proof.
  intros [H| ->]; [|reflexivity]. unfold low.
  destruct (token_char_facts c H) as [_ [_ [_ [_ [_ [E _]]]]]]. rewrite E. reflexivity.
Qed.

Lemma tail_steps_spaced y : spaced y = true -> runs_ok y = true ->
  (y = [] \/ starts_token y = true) -> tail_steps y = y.
Proof.
  intros Hs Hr Hh. pose proof (spaced_chars y Hs) as Hc.
  assert (Ha : Forall asc y) by (eapply Forall_impl; [exact text_char_ascii|exact Hc]).
  unfold tail_steps. cbv zeta.
  rewrite sub_emoji_ascii by exact Ha. rewrite lower_ascii by exact Ha.
  assert (Hl : map low y = y).
  { rewrite <- (map_id y) at 2. apply map_ext_in. intros c Hin.
    rewrite Forall_forall in Hc. apply low_text_char, Hc, Hin. }
  rewrite Hl.
  rewrite (sub_none m_repeat y).
  2:{ intros [|c r] Ht; [reflexivity|]. apply m_repeat_spaced;
      [exact (spaced_suffix _ _ Ht Hs)|exact (runs_ok_suffix _ _ Ht Hr)]. }
  rewrite (sub_none m_special y).
  2:{ intros [|c r] Ht; [reflexivity|]. apply m_special_spaced, (spaced_suffix _ _ Ht Hs). }
  rewrite (sub_id m_spaces y).
  2:{ intros [|c r] Ht; [left; reflexivity|].
      destruct (m_spaces_spaced c r (spaced_suffix _ _ Ht Hs)) as [E|[-> E]]; [left; exact E|].
      right. exists [space], r. split; [exact E|reflexivity]. }
  destruct Hh as [->|Hh]; [reflexivity|]. destruct y as [|c r]; [reflexivity|].
  unfold strip. simpl in Hh.
  assert (E1 : span Unicode.isspace (c :: r) = ([], c :: r)).
  { simpl. rewrite (token_not_space c Hh). reflexivity. }
  rewrite E1. cbn [snd].
  destruct (spaced_last (c :: r) Hs ltac:(discriminate)) as [s' [d [E Hd]]]. rewrite E.
  assert (E2 : span Unicode.isspace (rev (s' ++ [d])) = ([], rev (s' ++ [d]))).
  { rewrite rev_app_distr. simpl. rewrite (token_not_space d Hd). reflexivity. }
  rewrite E2. cbn [snd]. apply rev_involutive.
Qed.

Lemma sentiment_removals_spaced y : spaced y = true ->
  sub m_hashtag (sub m_mention (sub Sentiment.m_www (sub Sentiment.m_url
    (convert_emoji Sentiment.emoji_dict y)))) = y.
Proof.
  intros Hs. pose proof (spaced_chars y Hs) as Hc.
  assert (Ha : Forall asc y) by (eapply Forall_impl; [exact text_char_ascii|exact Hc]).
  rewrite convert_emoji_ascii by (exact sentiment_dict_nonascii || exact Ha).
  rewrite (sub_none Sentiment.m_url y).
  2:{ intros t Ht. destruct (prefixes_absent t (Forall_suffix _ _ _ Ht Hc)) as [E1 [E2 _]].
      unfold Sentiment.m_url. rewrite E1, E2. reflexivity. }
  rewrite (sub_none Sentiment.m_www y).
  2:{ intros t Ht. destruct (prefixes_absent t (Forall_suffix _ _ _ Ht Hc)) as [_ [_ E3]].
      unfold Sentiment.m_www. rewrite E3. reflexivity. }
  rewrite (sub_none m_mention y).
  2:{ intros [|c r] Ht; [reflexivity|]. apply m_mention_spaced, (spaced_suffix _ _ Ht Hs). }
  apply sub_none.
  intros [|c r] Ht; [reflexivity|]. apply m_hashtag_spaced, (spaced_suffix _ _ Ht Hs).
Qed.

Lemma emotion_removals_spaced y : spaced y = true ->
  sub m_hashtag (sub m_mention (sub Emotion.m_www (sub Emotion.m_url
    (convert_emoji Emotion.emoji_dict y)))) = y.
Proof.
  intros Hs. pose proof (spaced_chars y Hs) as Hc.
  assert (Ha : Forall asc y) by (eapply Forall_impl; [exact text_char_ascii|exact Hc]).
  rewrite convert_emoji_ascii by (exact emotion_dict_nonascii || exact Ha).
  rewrite (sub_none Emotion.m_url y).
  2:{ intros t Ht. destruct (prefixes_absent t (Forall_suffix _ _ _ Ht Hc)) as [E1 [E2 _]].
      unfold Emotion.m_url. rewrite E1, E2. reflexivity. }
  rewrite (sub_none Emotion.m_www y).
  2:{ intros t Ht. destruct (prefixes_absent t (Forall_suffix _ _ _ Ht Hc)) as [_ [_ E3]].
      unfold Emotion.m_www. rewrite E3. reflexivity. }
  rewrite (sub_none m_mention y).
  2:{ intros [|c r] Ht; [reflexivity|]. apply m_mention_spaced, (spaced_suffix _ _ Ht Hs). }
  apply sub_none.
  intros [|c r] Ht; [reflexivity|]. apply m_hashtag_spaced, (spaced_suffix _ _ Ht Hs).
Qed.

End FixedText.

(** ** [split] of a join, and the fixed points of the normalisation *)
Module JoinFacts.
Import Py Norm Normal SubFacts CharFacts AsciiFacts RunFacts StageFacts SplitFacts FirstPass SecondPass FixedText.

Lemma split_aux_app w : forall cur s, Forall (fun c => Unicode.isspace c = false) w ->
  split_aux cur (w ++ s) = split_aux (rev w ++ cur) s.
Proof.
  induction w as [|c w IH]; intros cur s H; [reflexivity|]. inversion H as [|? ? Hc Hw]; subst.
  simpl. rewrite Hc, IH by exact Hw. rewrite <- app_assoc. reflexivity.
Qed.

Lemma split_aux_end cur : cur <> [] -> split_aux cur [] = [rev cur].
Proof. destruct cur; [congruence|reflexivity]. Qed.

Lemma split_aux_space cur s : cur <> [] -> split_aux cur (space :: s) = rev cur :: split_aux [] s.
Proof. destruct cur; [congruence|reflexivity]. Qed.

Lemma rev_nonempty (w : ustr) : w <> [] -> rev w <> [].
Proof. intros H E. apply H. rewrite <- (rev_involutive w), E. reflexivity. Qed.

Lemma split_join ws :
  Forall (fun w => w <> [] /\ Forall (fun c => Unicode.isspace c = false) w) ws ->
  split (join [space] ws) = ws.
Proof.
  unfold split. induction ws as [|w ws IH]; intros H; [reflexivity|].
  inversion H as [|? ? [Hne Hw] Hws]; subst. destruct ws as [|w2 ws].
  - cbn [join]. rewrite <- (app_nil_r w) at 1. rewrite split_aux_app, app_nil_r by exact Hw.
    rewrite split_aux_end by exact (rev_nonempty w Hne). rewrite rev_involutive. reflexivity.
  - change (join [space] (w :: w2 :: ws)) with (w ++ space :: join [space] (w2 :: ws)).
    rewrite split_aux_app, app_nil_r by exact Hw.
    rewrite split_aux_space by exact (rev_nonempty w Hne). rewrite rev_involutive, IH by exact Hws.
    reflexivity.
Qed.

Lemma normal_token_split w : normal_token w = true ->
  w <> [] /\ Forall (fun c => Unicode.isspace c = false) w.
Proof.
  unfold normal_token. intros H. apply andb_prop in H as [H _]. apply andb_prop in H as [Hne Ht].
  split; [destruct w; discriminate|].
  apply Forall_forall. intros c Hc. rewrite forallb_forall in Ht. apply token_not_space, Ht, Hc.
Qed.

Lemma filter_all {A} (f : A -> bool) l : Forall (fun x => f x = true) l -> filter f l = l.
Proof.
  induction l as [|x l IH]; intros H; [reflexivity|]. inversion H; subst. simpl.
  rewrite H2, IH by assumption. reflexivity.
Qed.

(** The sentiment normalisation leaves a single-spaced join of normal
    tokens that pass [keep_word] as it is. *)
Lemma sentiment_fixed ws :
  Forall (fun w => normal_token w = true /\ Sentiment.keep_word w = true) ws ->
  Sentiment.preprocess_text (PyStr (join [space] ws)) = join [space] ws.
Proof.
  intros H.
  assert (Hn : Forall (fun w => normal_token w = true) ws)
    by (eapply Forall_impl; [|exact H]; intros w [Hw _]; exact Hw).
  destruct (join_shape ws Hn) as [S1 [S2 S3]].
  assert (S3' : join [space] ws = [] \/ starts_token (join [space] ws) = true)
    by (destruct S3 as [->|S3]; auto).
  remember (join [space] ws) as y eqn:Ey. destruct y as [|c r]; [reflexivity|].
  cbv beta iota zeta delta [Sentiment.preprocess_text].
  rewrite sentiment_removals_spaced by exact S1. rewrite tail_steps_spaced by assumption.
  rewrite Ey. rewrite split_join.
  - rewrite filter_all; [reflexivity|]. eapply Forall_impl; [|exact H]. intros w [_ Hw]; exact Hw.
  - eapply Forall_impl; [|exact Hn]. exact normal_token_split.
Qed.

(** The emotion normalisation leaves a single-spaced join of normal
    tokens as it is. *)
Lemma emotion_fixed ws : Forall (fun w => normal_token w = true) ws ->
  Emotion.preprocess_text (PyStr (join [space] ws)) = join [space] ws.
Proof.
  intros Hn. destruct (join_shape ws Hn) as [S1 [S2 S3]].
  assert (S3' : join [space] ws = [] \/ starts_token (join [space] ws) = true)
    by (destruct S3 as [->|S3]; auto).
  remember (join [space] ws) as y eqn:Ey. destruct y as [|c r]; [reflexivity|].
  cbv beta iota zeta delta [Emotion.preprocess_text].
  rewrite emotion_removals_spaced by exact S1. apply tail_steps_spaced; assumption.
Qed.

Lemma split_aux_nonspace s : forall cur,
  Forall (fun c => Unicode.isspace c = false) cur ->
  Forall (fun w => w <> [] /\ Forall (fun c => Unicode.isspace c = false) w) (split_aux cur s).
Proof.
  induction s as [|c r IH]; intros cur Hs.
  - destruct cur as [|x cur']; [constructor|]. constructor; [|constructor].
    split; [apply rev_nonempty; discriminate|apply Forall_rev, Hs].
  - cbn [split_aux]. destruct (Unicode.isspace c) eqn:Ec.
    + destruct cur as [|x cur']; [apply IH; constructor|]. constructor; [|apply IH; constructor].
      split; [apply rev_nonempty; discriminate|apply Forall_rev, Hs].
    + apply IH. constructor; assumption.
Qed.

(** Every output of the sentiment normalisation splits back into the
    tokens it was joined from, each passing [keep_word]. *)
Lemma sentiment_output_tokens x : exists ws,
  Sentiment.preprocess_text x = join [space] ws /\ split (Sentiment.preprocess_text x) = ws /\
  Forall (fun w => Sentiment.keep_word w = true) ws.
Proof.
  destruct x as [| |[|c r]];
    [exists []; split; [reflexivity|split; [reflexivity|constructor]]..|].
  cbv beta iota zeta delta [Sentiment.preprocess_text].
  match goal with |- context [tail_steps ?a] => generalize (tail_steps a); intros t end.
  pose proof (split_aux_nonspace t [] (Forall_nil _)) as Ht.
  exists (filter Sentiment.keep_word (split t)). split; [reflexivity|]. split.
  - apply split_join. apply Forall_forall. intros w Hw. apply filter_In in Hw as [Hw _].
    rewrite Forall_forall in Ht. apply Ht, Hw.
  - apply Forall_forall. intros w Hw. apply filter_In in Hw as [_ Hw]. exact Hw.
Qed.

End JoinFacts.

(** ** The rule batteries of [RecommendationProcessor] *)
Module RulesFacts.
Import Py Score Recommend Rules.

Lemma Qgtb_spec a b : Qgtb a b = true <-> (b < a)%Q.
Proof.
  unfold Qgtb. rewrite negb_true_iff. split.
  - intros H. apply Qnot_le_lt. intros H'. apply Qle_bool_iff in H'. congruence.
  - intros H. destruct (Qle_bool a b) eqn:E; [|reflexivity].
    apply Qle_bool_iff in E. exfalso. apply (Qlt_not_le _ _ H E).
Qed.

Lemma Qgtb_false a b : Qgtb a b = false <-> (a <= b)%Q.
Proof.
  split; intros H.
  - apply Qnot_lt_le. intros H'. apply Qgtb_spec in H'. congruence.
  - destruct (Qgtb a b) eqn:E; [|reflexivity]. apply Qgtb_spec in E.
    exfalso. apply (Qlt_not_le _ _ E H).
Qed.

(** X1: [_analyze_sentiment] gives at most three recommendations, all of
    category Sentiment and none of low priority; one of them is critical
    exactly when the negative percentage is above 40. *)
Lemma analyze_sentiment_shape str_num d :
  let rs := analyze_sentiment str_num (Some d) in
  (List.length rs <= 3)%nat /\
  Forall (fun r => category r = u "Sentiment" /\ priority_of r <> low) rs /\
  ((exists r, In r rs /\ priority_of r = critical) <-> (40 < pct d (u "negative"))%Q).
Proof.
  cbv zeta. unfold analyze_sentiment.
  destruct (Qgtb (pct d (u "negative")) 40) eqn:E1;
  [|destruct (Qgtb (pct d (u "negative")) 25) eqn:E2];
  destruct (Qgtb 30 (pct d (u "positive"))) eqn:E3;
  destruct (Qgtb (pct d (u "neutral")) 50) eqn:E4.
  all: cbn [app]; refine (conj _ (conj _ _)).
  all: try (simpl; lia).
  all: try (repeat constructor; discriminate).
  all: split; [intros [r [Hr Hp]]; simpl in Hr; repeat destruct Hr as [<-|Hr]; simpl in Hp;
               try discriminate; try contradiction; apply Qgtb_spec; exact E1|].
  all: intros H; try (apply Qgtb_spec in H; congruence).
  all: eexists; split; [left; reflexivity|reflexivity].
Qed.
(** An element of an explicit list satisfying a decidable-by-computation property. *)
Ltac pick :=
  apply (proj1 (Exists_exists _ _));
  repeat (first [apply Exists_cons_hd; solve [split; reflexivity | reflexivity]
                | apply Exists_cons_tl]).

Lemma pct_absent d k : ~ In k (map fst d) -> pct d k = 0%Q.
Proof.
  intros H. unfold pct. destruct (find (fun p => ustr_eqb (fst p) k) d) as [[l q]|] eqn:E;
  [|reflexivity].
  apply find_some in E. destruct E as [Hin Heq]. simpl in Heq.
  destruct (ustr_eqb_spec l k) as [->|]; [|discriminate].
  exfalso. apply H. apply in_map_iff. exists (k, q). split; [reflexivity|exact Hin].
Qed.

(** X2: [_analyze_emotions] gives at most five recommendations, all of
    category Emotion and none of low priority; one is critical exactly when
    anger is above 15% or disgust above 5%; a distribution without a joy
    entry counts joy as 0% and always yields the medium "Low
    Joy/Satisfaction Levels" recommendation. *)
Lemma analyze_emotions_shape str_num d :
  let rs := analyze_emotions str_num (Some d) in
  (List.length rs <= 5)%nat /\
  Forall (fun r => category r = u "Emotion" /\ priority_of r <> low) rs /\
  ((exists r, In r rs /\ priority_of r = critical) <->
     (15 < pct d (u "anger") \/ 5 < pct d (u "disgust"))%Q) /\
  (~ In (u "joy") (map fst d) ->
     exists r, In r rs /\ title r = u "Low Joy/Satisfaction Levels" /\ priority_of r = medium).
Proof.
  cbv zeta. unfold analyze_emotions.
  destruct (Qgtb (pct d (u "anger")) 15) eqn:E1;
  destruct (Qgtb (pct d (u "fear")) 5) eqn:E2;
  destruct (Qgtb (pct d (u "sadness")) 10) eqn:E3;
  destruct (Qgtb 25 (pct d (u "joy"))) eqn:E4;
  destruct (Qgtb (pct d (u "disgust")) 5) eqn:E5.
  all: cbn [app]; refine (conj _ (conj _ (conj _ _))).
  all: try (simpl; lia).
  all: try (repeat constructor; discriminate).
  all: try (intros Hj; rewrite (pct_absent d _ Hj) in E4; discriminate E4).
  all: try (intros _; pick).
  all: split; [intros [r [Hr Hp]]; simpl in Hr; repeat destruct Hr as [<-|Hr]; simpl in Hp;
               try discriminate; try contradiction;
               first [left; apply Qgtb_spec; exact E1 | right; apply Qgtb_spec; exact E5]|].
  all: intros H; try (destruct H as [H|H]; apply Qgtb_spec in H; congruence).
  all: pick.
Qed.

Lemma insert_topic_head t a r :
  exists r', insert_topic t (a :: r) = step_topic a t :: r'.
Proof.
  unfold step_topic, gt_topic. simpl. destruct (topic_total a <? topic_total t)%Z.
  - eexists; reflexivity.
  - eexists; reflexivity.
Qed.

Lemma fold_topic_head l a r :
  exists r', fold_left (fun acc t => insert_topic t acc) l (a :: r)
             = fold_left step_topic l a :: r'.
Proof.
  revert a r; induction l as [|y l IH]; intros a r; cbn [fold_left]; [eexists; reflexivity|].
  destruct (insert_topic_head y a r) as [r' ->]. apply IH.
Qed.

Lemma sort_topics_head x l :
  exists r', sort_topics (x :: l) = fold_left step_topic l x :: r'.
Proof. unfold sort_topics. simpl. apply fold_topic_head. Qed.

Lemma insert_topic_perm t l : Permutation (insert_topic t l) (t :: l).
Proof.
  induction l as [|x l IH]; simpl; [auto|].
  destruct (topic_total x <? topic_total t)%Z; [auto|].
  eapply perm_trans; [apply perm_skip, IH | apply perm_swap].
Qed.

Lemma fold_topic_perm l acc :
  Permutation (fold_left (fun acc t => insert_topic t acc) l acc) (acc ++ l).
Proof.
  revert acc; induction l as [|t l IH]; intros acc; simpl.
  - rewrite app_nil_r. auto.
  - eapply perm_trans; [apply IH|].
    eapply perm_trans; [apply Permutation_app_tail, insert_topic_perm|].
    simpl. apply Permutation_middle.
Qed.

Lemma fold_step_first_max l P b :
  first_max b P -> first_max (fold_left step_topic l b) (P ++ l).
Proof.
  revert P b; induction l as [|y l IH]; intros P b [pre [post [-> [Hpre Hpost]]]]; simpl.
  - rewrite app_nil_r. exists pre, post. auto.
  - rewrite (app_assoc _ [y] l). apply IH. unfold step_topic, gt_topic.
    destruct (Z.ltb_spec (topic_total b) (topic_total y)) as [Hlt|Hge].
    + exists (pre ++ b :: post), []. rewrite <- app_assoc. split; [reflexivity|].
      split; [|constructor]. apply Forall_app. split.
      * eapply Forall_impl; [|exact Hpre]. simpl. intros; lia.
      * constructor; [exact Hlt|]. eapply Forall_impl; [|exact Hpost]. simpl. intros; lia.
    + exists pre, (post ++ [y]). rewrite <- app_assoc. split; [reflexivity|].
      split; [exact Hpre|]. apply Forall_app. split; [exact Hpost|]. constructor; [lia|constructor].
Qed.

Lemma last_cons_ne {A} (a : A) l d : l <> [] -> last (a :: l) d = last l d.
Proof. destruct l; [congruence|reflexivity]. Qed.

Lemma insert_topic_ne t l : insert_topic t l <> [].
Proof. destruct l; simpl; [discriminate|]. destruct (_ <? _)%Z; discriminate. Qed.

Lemma last_insert_topic t l d :
  l <> [] ->
  last (insert_topic t l) d =
  if existsb (fun y => topic_total y <? topic_total t)%Z l then last l d else t.
Proof.
  induction l as [|a l IH]; intros Hne; [congruence|].
  cbn [insert_topic existsb]. destruct (topic_total a <? topic_total t)%Z eqn:E.
  - reflexivity.
  - simpl orb. destruct l as [|b l].
    + reflexivity.
    + rewrite last_cons_ne by apply insert_topic_ne. rewrite IH by discriminate.
      rewrite (last_cons_ne a (b :: l)) by discriminate. reflexivity.
Qed.

Lemma fold_last_min l acc P t0 :
  acc <> [] -> Permutation acc P -> last_min (last acc t0) P ->
  last_min (last (fold_left (fun acc t => insert_topic t acc) l acc) t0) (P ++ l).
Proof.
  revert acc P; induction l as [|y l IH]; intros acc P Hne Hp Hm; simpl.
  - rewrite app_nil_r. exact Hm.
  - rewrite (app_assoc _ [y] l). apply IH.
    + apply insert_topic_ne.
    + eapply perm_trans; [apply insert_topic_perm|].
      eapply perm_trans; [apply perm_skip, Hp|]. apply Permutation_cons_append.
    + rewrite last_insert_topic by exact Hne.
      destruct Hm as [pre [post [HP [Hpre Hpost]]]].
      set (t' := last acc t0) in *.
      assert (Hall : forall z, In z P -> topic_total t' <= topic_total z).
      { intros z Hz. rewrite HP in Hz. apply in_app_or in Hz. destruct Hz as [Hz|[<-|Hz]].
        - rewrite Forall_forall in Hpre. apply Hpre, Hz.
        - lia.
        - rewrite Forall_forall in Hpost. specialize (Hpost z Hz). lia. }
      destruct (existsb (fun z => topic_total z <? topic_total y)%Z acc) eqn:E.
      * apply existsb_exists in E. destruct E as [z [Hz Hlt]]. apply Z.ltb_lt in Hlt.
        apply (Permutation_in _ Hp) in Hz. specialize (Hall z Hz).
        exists pre, (post ++ [y]). rewrite HP, <- app_assoc. split; [reflexivity|].
        split; [exact Hpre|]. apply Forall_app. split; [exact Hpost|].
        constructor; [lia|constructor].
      * assert (Hy : topic_total y <= topic_total t').
        { destruct (Z.le_gt_cases (topic_total y) (topic_total t')) as [H|H]; [exact H|].
          exfalso. assert (Hin : In t' acc).
          { apply (Permutation_in _ (Permutation_sym Hp)). rewrite HP.
            apply in_or_app. right. left. reflexivity. }
          assert (Hex : existsb (fun z => topic_total z <? topic_total y)%Z acc = true).
          { apply existsb_exists. exists t'. split; [exact Hin|]. apply Z.ltb_lt. exact H. }
          congruence. }
        exists P, []. split; [reflexivity|]. split; [|constructor].
        apply Forall_forall. intros z Hz. specialize (Hall z Hz). lia.
Qed.

(** X3: on a non-empty topic list, [_analyze_topics] names its first
    recommendation after the first topic of greatest total engagement, and
    adds a "Low Engagement Topic" one, for the last topic of least
    engagement, exactly when there are more than two topics. *)
Lemma analyze_topics_titles fmt_commas ts :
  ts <> [] ->
  exists t t', first_max t ts /\ last_min t' ts /\
    map title (analyze_topics fmt_commas (Some ts)) =
      (u "Top Performing Topic: " ++ topic_label t) ::
      (if (2 <? List.length ts)%nat then [u "Low Engagement Topic: " ++ topic_label t'] else []).
Proof.
  destruct ts as [|x l]; intros Hne; [congruence|].
  destruct (sort_topics_head x l) as [r' Hs].
  exists (fold_left step_topic l x),
    (last (sort_topics (x :: l)) (fold_left step_topic l x)).
  refine (conj _ (conj _ _)).
  - apply (fold_step_first_max l [x] x). exists [], []. auto.
  - apply (fold_last_min l [x] [x]); [discriminate|auto|]. exists [], []. auto.
  - unfold analyze_topics. cbv zeta. rewrite Hs.
    assert (Hlen : List.length (fold_left step_topic l x :: r') = List.length (x :: l)).
    { rewrite <- Hs. apply Permutation_length. unfold sort_topics.
      apply (fold_topic_perm (x :: l) []). }
    rewrite Hlen. cbn [map]. destruct (2 <? List.length (x :: l))%nat; reflexivity.
Qed.

Lemma analyze_topics_titles_witness :
  let ts := [{| topic_label := u "Gangguan"; topic_total := 120 |};
             {| topic_label := u "Promo"; topic_total := 45 |};
             {| topic_label := u "Tagihan"; topic_total := 45 |}] in
  ts <> [] /\
  exists t t', first_max t ts /\ last_min t' ts /\
    map title (analyze_topics (fun _ => []) (Some ts)) =
      (u "Top Performing Topic: " ++ topic_label t) ::
      (if (2 <? List.length ts)%nat then [u "Low Engagement Topic: " ++ topic_label t'] else []).
Proof.
  cbv zeta. split; [discriminate|]. apply analyze_topics_titles. discriminate.
Defined.

(** X4: the Top Topic insight of [_generate_insights] names the same topic
    as the "Top Performing Topic" recommendation of [_analyze_topics], and
    the one is present exactly when the other is. *)
Lemma top_topic_insight_agrees fmt_commas ts :
  map (fun i => u "Top Performing Topic: " ++ ivalue i) (topic_insight fmt_commas (Some ts)) =
  firstn 1 (map title (analyze_topics fmt_commas (Some ts))).
Proof.
  destruct ts as [|x l]; [reflexivity|].
  destruct (sort_topics_head x l) as [r' Hs].
  unfold topic_insight, analyze_topics. cbv zeta. rewrite Hs. reflexivity.
Qed.
Lemma half_average_flag (S t : Z) (p : positive) :
  Qgtb (inject_Z S / inject_Z (Zpos p) * (1 # 2)) (inject_Z t) = (2 * Zpos p * t <? S)%Z.
Proof.
  destruct (Qgtb _ _) eqn:E; symmetry.
  - apply Qgtb_spec in E. apply Z.ltb_lt.
    unfold Qlt, Qdiv, Qmult, Qinv, inject_Z in E. simpl in E. rewrite Pos2Z.inj_mul in E. lia.
  - apply Qgtb_false in E. apply Z.ltb_ge.
    unfold Qle, Qdiv, Qmult, Qinv, inject_Z in E. simpl in E. rewrite Pos2Z.inj_mul in E. lia.
Qed.

Lemma sum_below {A} (f : A -> Z) (c : Z) l :
  l <> [] -> Forall (fun x => f x < c)%Z l ->
  (fold_right Z.add 0 (map f l) < Z.of_nat (List.length l) * c)%Z.
Proof.
  induction l as [|x l IH]; intros Hne H; [congruence|].
  inversion H as [|? ? Hx Hl]; subst. cbv beta in Hx. cbn [map fold_right List.length].
  rewrite Nat2Z.inj_succ. destruct l as [|y l].
  - cbn [fold_right map Z.of_nat List.length]. lia.
  - specialize (IH ltac:(discriminate) Hl). lia.
Qed.

Lemma flat_map_filter_length {A} (G : A -> bool) (mk : A -> recommendation) l :
  (forall e, priority_of (mk e) = medium) ->
  List.length (filter (fun r => match priority_of r with medium => true | _ => false end)
                 (flat_map (fun e => if G e then [mk e] else []) l))
  = List.length (filter G l).
Proof.
  intros Hmk. induction l as [|e l IH]; [reflexivity|]. cbn [flat_map filter].
  destruct (G e); cbn [app filter].
  - rewrite Hmk. cbn [List.length]. rewrite IH. reflexivity.
  - exact IH.
Qed.

Lemma filter_length_lt {A} (G : A -> bool) l e :
  In e l -> G e = false -> (List.length (filter G l) < List.length l)%nat.
Proof.
  induction l as [|x l IH]; intros Hin He; [destruct Hin|].
  cbn [filter List.length]. pose proof (filter_length_le G l) as Hle.
  destruct Hin as [->|Hin].
  - rewrite He. lia.
  - specialize (IH Hin He). destruct (G x); cbn [List.length]; lia.
Qed.

(** X5: when [engagement_by_type] is a non-empty list of non-negative
    totals, [_analyze_engagement] flags (with a medium recommendation)
    fewer types than there are: not every type is below half the average. *)
Lemma engagement_types_not_all_low fmt_0f ed eng_types :
  engagement_by_type ed = Some eng_types -> eng_types <> [] ->
  Forall (fun e => 0 <= type_total e)%Z eng_types ->
  (List.length (filter (fun r => match priority_of r with medium => true | _ => false end)
                  (analyze_engagement fmt_0f (Some ed))) < List.length eng_types)%nat.
Proof.
  intros Hed Hne Hnn. unfold analyze_engagement. rewrite Hed.
  rewrite filter_app, length_app.
  match goal with |- (_ + List.length (filter ?g ?o) < _)%nat =>
    assert (Ho : filter g o = []) end.
  { destruct (total_engagement (totals ed)); [|reflexivity].
    destruct (Qgtb 100 _); reflexivity. }
  rewrite Ho. cbn [List.length]. rewrite Nat.add_0_r.
  erewrite flat_map_filter_length; [|intros; reflexivity].
  set (S := fold_right Z.add 0%Z (map type_total eng_types)).
  assert (Hn : exists p, Z.of_nat (List.length eng_types) = Zpos p).
  { destruct eng_types; [congruence|]. exists (Pos.of_succ_nat (List.length eng_types)).
    simpl. reflexivity. }
  destruct Hn as [p Hp].
  match goal with |- (List.length (filter ?G _) < _)%nat => set (F := G) end.
  assert (HF : forall e, F e = (2 * Zpos p * type_total e <? S)%Z).
  { intros e. unfold F. destruct eng_types; [congruence|]. rewrite Hp.
    apply half_average_flag. }
  assert (HS : (0 <= S)%Z).
  { unfold S. clear -Hnn. induction Hnn; simpl; lia. }
  destruct (existsb (fun e => negb (F e)) eng_types) eqn:Ex.
  - apply existsb_exists in Ex. destruct Ex as [e [He Hf]].
    apply (filter_length_lt F _ e He). destruct (F e); [discriminate|reflexivity].
  - exfalso.
    assert (Hall : Forall (fun e => 2 * Zpos p * type_total e < S)%Z eng_types).
    { apply Forall_forall. intros e He. apply Z.ltb_lt. rewrite <- HF.
      destruct (F e) eqn:Fe; [reflexivity|].
      assert (existsb (fun e => negb (F e)) eng_types = true) as Ht.
      { apply existsb_exists. exists e. rewrite Fe. auto. }
      congruence. }
    pose proof (sum_below (fun e => 2 * Zpos p * type_total e)%Z S eng_types Hne Hall) as Hs.
    rewrite Hp in Hs.
    assert (Hmap : fold_right Z.add 0%Z (map (fun e => 2 * Zpos p * type_total e)%Z eng_types)
                   = (2 * Zpos p * S)%Z).
    { unfold S. clear. induction eng_types as [|e l IH]; cbn [map fold_right]; [lia|].
      rewrite IH. lia. }
    rewrite Hmap in Hs. nia.
Qed.

Lemma engagement_types_not_all_low_witness :
  let ets := [{| type_name := u "Tweet"; type_total := 300 |};
              {| type_name := u "Quote"; type_total := 20 |};
              {| type_name := u "Reply"; type_total := 10 |}] in
  let ed := {| engagement_by_type := Some ets;
               totals := {| total_posts := Some 3%Q; total_engagement := Some 330%Q |} |} in
  engagement_by_type ed = Some ets /\ ets <> [] /\
  Forall (fun e => 0 <= type_total e)%Z ets /\
  (List.length (filter (fun r => match priority_of r with medium => true | _ => false end)
                  (analyze_engagement (fun _ => []) (Some ed))) < List.length ets)%nat.
Proof.
  cbv zeta. refine (conj eq_refl (conj _ (conj _ _))).
  - discriminate.
  - repeat constructor; discriminate.
  - apply engagement_types_not_all_low with (eng_types := [{| type_name := u "Tweet"; type_total := 300 |};
              {| type_name := u "Quote"; type_total := 20 |};
              {| type_name := u "Reply"; type_total := 10 |}]);
      [reflexivity|discriminate|repeat constructor; discriminate].
Defined.

(** X6: when [total_engagement] is given, [_analyze_engagement] gives the
    high "Low Overall Engagement Rate" recommendation exactly when the
    average per post is below 100, the average being 0 when [total_posts]
    is not positive and [total_posts] defaulting to 1. *)
Lemma overall_engagement_rate_rule fmt_0f ed te :
  total_engagement (totals ed) = Some te ->
  ((exists r, In r (analyze_engagement fmt_0f (Some ed)) /\ priority_of r = high /\
              title r = u "Low Overall Engagement Rate") <->
   match total_posts (totals ed) with
   | Some tp => (tp <= 0 \/ te / tp < 100)%Q
   | None => (te < 100)%Q
   end).
Proof.
  intros Hte. unfold analyze_engagement. rewrite Hte.
  set (B := match engagement_by_type ed with None => [] | Some _ => _ end).
  assert (HB : forall r, In r B -> priority_of r = medium).
  { intros r. unfold B. destruct (engagement_by_type ed); [|simpl; tauto].
    intros Hr. apply in_flat_map in Hr. destruct Hr as [e [_ Hr]].
    destruct (Qgtb _ _) in Hr; simpl in Hr; [destruct Hr as [<-|[]]; reflexivity|contradiction]. }
  set (tp := match total_posts (totals ed) with Some q => q | None => 1%Q end).
  assert (Hiff : Qgtb 100 (if Qgtb tp 0 then te / tp else 0) = true <->
                 match total_posts (totals ed) with
                 | Some tp => (tp <= 0 \/ te / tp < 100)%Q
                 | None => (te < 100)%Q
                 end).
  { rewrite Qgtb_spec. unfold tp. destruct (total_posts (totals ed)) as [q|].
    - destruct (Qgtb q 0) eqn:E.
      + apply Qgtb_spec in E. split; [intros H; right; exact H|].
        intros [H|H]; [exfalso; apply (Qlt_not_le _ _ E H)|exact H].
      + apply Qgtb_false in E. split; [intros _; left; exact E|intros _; reflexivity].
    - change (Qgtb 1 0) with true. cbv iota.
      assert (Hq : te / 1 == te) by (unfold Qdiv; apply Qmult_1_r). rewrite Hq. reflexivity. }
  rewrite <- Hiff. clear Hiff. split.
  - intros [r [Hr [Hp _]]]. apply in_app_or in Hr. destruct Hr as [Hr|Hr].
    + rewrite (HB r Hr) in Hp. discriminate.
    + destruct (Qgtb 100 _); [reflexivity|contradiction].
  - intros H. rewrite H. eexists. split; [apply in_or_app; right; left; reflexivity|].
    split; reflexivity.
Qed.

Lemma overall_engagement_rate_rule_witness :
  let ed := {| engagement_by_type := None;
               totals := {| total_posts := Some 4%Q; total_engagement := Some 300%Q |} |} in
  total_engagement (totals ed) = Some 300%Q /\
  ((exists r, In r (analyze_engagement (fun _ => []) (Some ed)) /\ priority_of r = high /\
              title r = u "Low Overall Engagement Rate") <->
   match total_posts (totals ed) with
   | Some tp => (tp <= 0 \/ 300 / tp < 100)%Q
   | None => (300 < 100)%Q
   end).
Proof.
  cbv zeta. split; [reflexivity|]. apply overall_engagement_rate_rule. reflexivity.
Defined.
Lemma urgent_key r : urgent r = (key r <=? 2)%nat.
Proof. unfold urgent, key. destruct (priority_of r); reflexivity. Qed.

Lemma sorted_urgent_prefix l :
  Sorted le_key l -> l = filter urgent l ++ filter (fun r => negb (urgent r)) l.
Proof.
  intros Hs. apply Sorted_StronglySorted in Hs; [|exact RecommendFacts.le_key_trans].
  induction Hs as [|x l Hs IH Hall]; [reflexivity|].
  cbn [filter]. destruct (urgent x) eqn:Ux; cbn [negb].
  - cbn [app]. f_equal. exact IH.
  - assert (Hno : Forall (fun y => urgent y = false) l).
    { eapply Forall_impl; [|exact Hall]. intros y Hy. unfold le_key in Hy.
      rewrite urgent_key in *. apply Nat.leb_gt in Ux. apply Nat.leb_gt. lia. }
    assert (H1 : filter urgent l = []).
    { clear IH Hall Hs. induction Hno as [|y l Hy _ IHl]; [reflexivity|].
      cbn [filter]. rewrite Hy. exact IHl. }
    assert (H2 : filter (fun r => negb (urgent r)) l = l).
    { clear IH Hall Hs H1. induction Hno as [|y l Hy _ IHl]; [reflexivity|].
      cbn [filter]. rewrite Hy. cbn [negb]. rewrite IHl. reflexivity. }
    rewrite H1, H2. reflexivity.
Qed.

(** X7: the [priority_actions] of [generate_recommendations] are the first
    min(5, k) recommendations of the sorted list, k being the number of
    critical or high ones, and the list holds every recommendation of the
    five analysers. *)
Lemma priority_actions_lead str_num fmt_commas fmt_0f sd ed td engd pd :
  let recs := recommendations_of str_num fmt_commas fmt_0f sd ed td engd pd in
  priority_actions_of recs = firstn (Nat.min 5 (List.length (filter urgent recs))) recs /\
  List.length recs =
    (List.length (analyze_sentiment str_num sd) + List.length (analyze_emotions str_num ed)
     + List.length (analyze_topics fmt_commas td) + List.length (analyze_engagement fmt_0f engd)
     + List.length (analyze_timing pd))%nat.
Proof.
  cbv zeta. split.
  - unfold priority_actions_of.
    set (l := recommendations_of _ _ _ _ _ _ _ _).
    assert (Hs : Sorted le_key l) by apply RecommendFacts.sort_by_priority_sorted.
    rewrite (sorted_urgent_prefix l Hs) at 3.
    rewrite firstn_app.
    replace (Nat.min 5 (List.length (filter urgent l)) - List.length (filter urgent l))%nat
      with 0%nat by lia.
    rewrite firstn_O, app_nil_r.
    destruct (Nat.le_ge_cases 5 (List.length (filter urgent l))) as [H|H].
    + replace (Nat.min 5 (List.length (filter urgent l))) with 5%nat by lia. reflexivity.
    + replace (Nat.min 5 (List.length (filter urgent l)))
        with (List.length (filter urgent l)) by lia.
      rewrite firstn_all, firstn_all2 by exact H. reflexivity.
  - unfold recommendations_of, Recommend.generate_recommendations.
    rewrite (Permutation_length (RecommendFacts.sort_by_priority_perm _)).
    unfold generated. rewrite !length_app. lia.
Qed.
Lemma key_ge_1 r : (1 <= key r)%nat.
Proof. unfold key, weight. destruct (priority_of r); lia. Qed.

(** X8: when the negative percentage is above 40, the first recommendation
    of [generate_recommendations] is the critical "High Negative Sentiment
    Detected". *)
Lemma high_negative_first str_num fmt_commas fmt_0f d ed td engd pd :
  (40 < pct d (u "negative"))%Q ->
  exists r rest,
    recommendations_of str_num fmt_commas fmt_0f (Some d) ed td engd pd = r :: rest /\
    title r = u "High Negative Sentiment Detected" /\ priority_of r = critical.
Proof.
  intros Hneg. apply Qgtb_spec in Hneg.
  unfold recommendations_of, Recommend.generate_recommendations.
  set (g := generated _ _ _ _ _ _ _ _ _ _ _ _ _ _ _).
  assert (Hg : exists R rest, g = R :: rest /\
                 title R = u "High Negative Sentiment Detected" /\ priority_of R = critical).
  { unfold g, generated, analyze_sentiment. cbv zeta. rewrite Hneg.
    eexists; eexists; split; [reflexivity|split; reflexivity]. }
  destruct Hg as [R [rest [Hg [HtR HpR]]]].
  assert (Hs := RecommendFacts.sort_by_priority_sorted g).
  assert (Hk := RecommendFacts.sort_by_priority_stable 1 g).
  assert (Hin : In R (sort_by_priority g)).
  { apply (Permutation_in _ (Permutation_sym (RecommendFacts.sort_by_priority_perm g))).
    rewrite Hg. left. reflexivity. }
  destruct (sort_by_priority g) as [|x l] eqn:E; [destruct Hin|].
  apply Sorted_StronglySorted in Hs; [|exact RecommendFacts.le_key_trans].
  inversion Hs as [|? ? _ Hall]; subst.
  assert (Hx : key x = 1%nat).
  { destruct Hin as [<-|Hin]; [unfold key; rewrite HpR; reflexivity|].
    rewrite Forall_forall in Hall. specialize (Hall R Hin). unfold le_key in Hall.
    unfold key at 2 in Hall. rewrite HpR in Hall. simpl in Hall. pose proof (key_ge_1 x). lia. }
  rewrite Hg in Hk. unfold with_key in Hk. cbn [filter] in Hk.
  rewrite Hx in Hk. replace (key R) with 1%nat in Hk by (unfold key; rewrite HpR; reflexivity).
  cbn [Nat.eqb] in Hk.
  injection Hk as Hxr _. subst x. exists R, l. auto.
Qed.

Lemma high_negative_first_witness :
  let d := [(u "negative", 55%Q); (u "neutral", 30%Q); (u "positive", 15%Q)] in
  (40 < pct d (u "negative"))%Q /\
  exists r rest,
    recommendations_of (fun _ => []) (fun _ => []) (fun _ => []) (Some d) None None None None
      = r :: rest /\
    title r = u "High Negative Sentiment Detected" /\ priority_of r = critical.
Proof.
  cbv zeta. split; [vm_compute; reflexivity|].
  apply high_negative_first. vm_compute. reflexivity.
Defined.

(** X9: [generate_recommendations] raises (in the [max] of
    [_generate_insights]) when the sentiment or the emotion distribution is
    the empty one of the report of an empty corpus. *)
Lemma generate_raises_on_empty_report str_num fmt_commas fmt_0f capitalize sd ed td engd pd :
  generate str_num fmt_commas fmt_0f capitalize
    (report_dist (Report.generate_sentiment_report [])) ed td engd pd = None /\
  generate str_num fmt_commas fmt_0f capitalize
    sd (report_dist (Report.generate_emotion_report [])) td engd pd = None.
Proof.
  split; unfold generate, generate_insights.
  - reflexivity.
  - destruct (sentiment_insight str_num capitalize sd); reflexivity.
Qed.
End RulesFacts.

(** ** Hashtags, permalinks and word frequencies *)
Module DataFacts.
Import Py Data.

Lemma span_props p s :
  forallb p (fst (span p s)) = true /\ stops p (snd (span p s)).
Proof.
  induction s as [|c r IH]; simpl; [split; [reflexivity|exact I]|].
  destruct (p c) eqn:E.
  - destruct (span p r) as [a b]. simpl in *. rewrite E. exact IH.
  - split; [reflexivity|exact E].
Qed.

Lemma span_exact p w rest :
  forallb p w = true -> stops p rest -> span p (w ++ rest) = (w, rest).
Proof.
  induction w as [|c w IH]; intros Hw Hr.
  - destruct rest as [|c rest]; [reflexivity|]. simpl in *. rewrite Hr. reflexivity.
  - simpl in Hw. apply andb_true_iff in Hw. destruct Hw as [Hc Hw].
    simpl. rewrite Hc, IH by assumption. reflexivity.
Qed.

Lemma m_hashtag_text_spec s g rest :
  m_hashtag_text s = Some (g, rest) ->
  exists w, g = 35 :: w /\ s = g ++ rest /\ w <> [] /\
            forallb Unicode.is_word w = true /\ stops Unicode.is_word rest.
Proof.
  intros H. destruct s as [|c r]; [discriminate|].
  destruct (Z.eqb_spec c 35) as [->|Hc].
  2:{ exfalso. unfold m_hashtag_text in H.
      destruct c as [|p|p]; try discriminate;
      repeat (destruct p as [p|p|]; try discriminate; try lia). }
  unfold m_hashtag_text in H.
  destruct (plus Unicode.is_word r) as [[w rest']|] eqn:E; [|discriminate].
  injection H as <- <-.
  pose proof (SubFacts.plus_app _ _ _ _ E) as [Hr Hne].
  unfold plus in E. pose proof (span_props Unicode.is_word r) as [H1 H2].
  destruct (span Unicode.is_word r) as [[|x a] b]; [discriminate|]. injection E as <- <-.
  exists (x :: a). simpl. rewrite Hr at 1. auto.
Qed.

Lemma m_hashtag_text_progressive : Normal.progressive m_hashtag_text.
Proof.
  intros s g rest H. apply m_hashtag_text_spec in H. destruct H as [w [-> [-> _]]].
  rewrite length_app. simpl. lia.
Qed.

Lemma findall_fuel_enough (m : matcher) : Normal.progressive m ->
  forall f g s, (length s <= f)%nat -> (length s <= g)%nat ->
  findall_fuel f m s = findall_fuel g m s.
Proof.
  intros Hp f. induction f as [|f IH]; intros g s Hf Hg.
  - destruct s; [destruct g; reflexivity|simpl in Hf; lia].
  - destruct g as [|g]; [destruct s; [reflexivity|simpl in Hg; lia]|].
    destruct s as [|c r]; [reflexivity|]. simpl.
    destruct (m (c :: r)) as [[rep rest]|] eqn:E.
    + pose proof (Hp _ _ _ E) as L. simpl in L, Hf, Hg. f_equal. apply IH; lia.
    + simpl in Hf, Hg. apply IH; lia.
Qed.

Lemma findall_cons (m : matcher) c r : Normal.progressive m ->
  findall m (c :: r) = match m (c :: r) with
                       | Some (g, rest) => g :: findall m rest
                       | None => findall m r
                       end.
Proof.
  intros Hp. unfold findall at 1. cbn [length findall_fuel].
  destruct (m (c :: r)) as [[g rest]|] eqn:E.
  - pose proof (Hp _ _ _ E) as L. simpl in L. f_equal. unfold findall.
    apply findall_fuel_enough; [exact Hp|lia|lia].
  - reflexivity.
Qed.

Lemma findall_hashtags_shape fuel s :
  Forall (fun h => exists w, h = 35 :: w /\ w <> [] /\ forallb Unicode.is_word w = true /\
                     exists pre post, s = pre ++ h ++ post /\ stops Unicode.is_word post)
         (findall_fuel fuel m_hashtag_text s).
Proof.
  revert s; induction fuel as [|f IH]; intros s; [constructor|].
  destruct s as [|c r]; [constructor|]. cbn [findall_fuel].
  destruct (m_hashtag_text (c :: r)) as [[g rest]|] eqn:E.
  - pose proof (m_hashtag_text_spec _ _ _ E) as [w [Hg [Hs [Hne [Hw Hst]]]]].
    constructor.
    + exists w. split; [exact Hg|]. split; [exact Hne|]. split; [exact Hw|].
      exists [], rest. split; [exact Hs|exact Hst].
    + eapply Forall_impl; [|apply IH]. intros h [w' [Hh [Hne' [Hw' [pre [post [Hr Hp]]]]]]].
      exists w'. split; [exact Hh|]. split; [exact Hne'|]. split; [exact Hw'|].
      exists (g ++ pre), post. split; [rewrite Hs, Hr, <- app_assoc; reflexivity|exact Hp].
  - eapply Forall_impl; [|apply IH]. intros h [w' [Hh [Hne' [Hw' [pre [post [Hr Hp]]]]]]].
    exists w'. split; [exact Hh|]. split; [exact Hne'|]. split; [exact Hw'|].
    exists (c :: pre), post. split; [rewrite Hr; reflexivity|exact Hp].
Qed.

(** X10: every hashtag [extract_hashtags] returns is [#] followed by a
    non-empty run of word characters that occurs in the text and is not
    followed by a word character; a missing value gives none. *)
Lemma extract_hashtags_shape text :
  Forall (fun h => exists w, h = 35 :: w /\ w <> [] /\ forallb Unicode.is_word w = true /\
                     exists s pre post, text = PyStr s /\ s = pre ++ h ++ post /\
                                        stops Unicode.is_word post)
         (extract_hashtags text).
Proof.
  destruct text as [| |s]; simpl; [constructor|constructor|].
  eapply Forall_impl; [|apply findall_hashtags_shape].
  intros h [w [Hh [Hne [Hw [pre [post [Hs Hp]]]]]]].
  exists w. repeat (split; [assumption|]). exists s, pre, post. auto.
Qed.

(** X11: on hashtags of non-empty word-character runs joined by spaces,
    [extract_hashtags] returns exactly those hashtags, in order. *)
Lemma extract_hashtags_roundtrip ws :
  Forall (fun w => w <> [] /\ forallb Unicode.is_word w = true) ws ->
  extract_hashtags (PyStr (join (u " ") (map (cons 35) ws))) = map (cons 35) ws.
Proof.
  intros H. cbn [extract_hashtags].
  induction H as [|w ws [Hne Hw] Hws IH]; [reflexivity|].
  destruct w as [|x w']; [congruence|].
  destruct ws as [|w2 ws].
  - cbn [map join]. rewrite findall_cons by apply m_hashtag_text_progressive.
    unfold m_hashtag_text at 1. unfold plus.
    rewrite <- (app_nil_r (x :: w')) at 1. rewrite span_exact by (exact Hw || exact I).
    reflexivity.
  - change (join (u " ") (map (cons 35) ((x :: w') :: w2 :: ws)))
      with ((35 :: x :: w') ++ [32] ++ join (u " ") (map (cons 35) (w2 :: ws))).
    cbn [app]. rewrite findall_cons by apply m_hashtag_text_progressive.
    unfold m_hashtag_text at 1. unfold plus.
    change (x :: w' ++ 32 :: join (u " ") (map (cons 35) (w2 :: ws)))
      with ((x :: w') ++ 32 :: join (u " ") (map (cons 35) (w2 :: ws))).
    rewrite span_exact by (exact Hw || reflexivity).
    rewrite findall_cons by apply m_hashtag_text_progressive.
    cbn [map]. f_equal. exact IH.
Qed.

Lemma extract_hashtags_roundtrip_witness :
  let ws := [u "IndiHome"; u "internet_lemot"; u "2025"] in
  Forall (fun w => w <> [] /\ forallb Unicode.is_word w = true) ws /\
  extract_hashtags (PyStr (join (u " ") (map (cons 35) ws))) = map (cons 35) ws.
Proof.
  cbv zeta. split.
  - repeat constructor; (discriminate || vm_compute; reflexivity).
  - apply extract_hashtags_roundtrip. repeat constructor; (discriminate || vm_compute; reflexivity).
Defined.

Lemma insert_desc_sorted p l :
  StronglySorted desc l -> StronglySorted desc (Report.insert_desc p l).
Proof.
  induction l as [|q r IH]; intros Hs; simpl.
  - repeat constructor.
  - inversion Hs as [|? ? Hr Hq]; subst.
    destruct (Nat.ltb_spec (snd q) (snd p)) as [Hlt|Hge].
    + constructor; [exact Hs|]. constructor; [unfold desc; lia|].
      eapply Forall_impl; [|exact Hq]. unfold desc; intros a Ha; lia.
    + constructor; [apply IH, Hr|].
      apply (Permutation_Forall (Permutation_sym (ReportFacts.insert_desc_perm p r))).
      constructor; [unfold desc; lia|exact Hq].
Qed.

Lemma sort_desc_sorted l : StronglySorted desc (Report.sort_desc l).
Proof.
  unfold Report.sort_desc. induction (rev l) as [|p r IH]; simpl;
    [constructor|apply insert_desc_sorted, IH].
Qed.

Lemma value_counts_facts l :
  StronglySorted desc (Report.value_counts l) /\
  NoDup (map fst (Report.value_counts l)) /\
  (forall w c, In (w, c) (Report.value_counts l) -> c = Report.count_of w l /\ In w l) /\
  (forall w, In w l -> In (w, Report.count_of w l) (Report.value_counts l)) /\
  List.length (Report.value_counts l) = List.length (Report.uniques l).
Proof.
  pose proof (ReportFacts.sort_desc_perm
                (map (fun a => (a, Report.count_of a l)) (Report.uniques l))) as P.
  unfold Report.value_counts. split; [apply sort_desc_sorted|].
  split; [|split; [|split]].
  - rewrite (Permutation_NoDup' (Permutation_map fst P)), map_map.
    rewrite map_id. apply ReportFacts.uniques_nodup.
  - intros w c H. apply (Permutation_in _ P), in_map_iff in H.
    destruct H as [a [Ha Hin]]. injection Ha as <- <-. split; [reflexivity|].
    clear P. induction l as [|x r IH]; simpl in *; [exact Hin|].
    destruct Hin as [<-|Hin]; [left; reflexivity|].
    apply filter_In in Hin. right. apply IH, Hin.
  - intros w H. apply (Permutation_in _ (Permutation_sym P)), in_map_iff.
    exists w. split; [reflexivity|]. apply ReportFacts.uniques_in, H.
  - rewrite (Permutation_length P), length_map. reflexivity.
Qed.

Lemma firstn_skipn_desc (L : list (ustr * nat)) n a b :
  StronglySorted desc L -> In a (firstn n L) -> In b (skipn n L) -> (snd b <= snd a)%nat.
Proof.
  intros Hs Ha Hb. rewrite <- (firstn_skipn n L) in Hs.
  remember (firstn n L) as F. remember (skipn n L) as K. clear HeqF HeqK.
  induction F as [|x F IH]; [destruct Ha|].
  inversion Hs as [|? ? Hr Hx]; subst.
  destruct Ha as [<-|Ha]; [|apply IH; assumption].
  rewrite Forall_forall in Hx. apply Hx, in_or_app. right; exact Hb.
Qed.

Lemma sorted_app_l {A} (R : A -> A -> Prop) (F K : list A) :
  StronglySorted R (F ++ K) -> StronglySorted R F.
Proof.
  induction F as [|x F IH]; intros Hs; [constructor|].
  inversion Hs as [|? ? Hr Hx]; subst. constructor; [apply IH, Hr|].
  rewrite Forall_forall in *. intros y Hy. apply Hx, in_or_app. left; exact Hy.
Qed.

Lemma most_common_facts n l :
  let r := most_common n l in
  List.length r = Nat.min n (List.length (Report.uniques l)) /\
  StronglySorted desc r /\
  NoDup (map fst r) /\
  (forall w c, In (w, c) r -> c = Report.count_of w l /\ In w l) /\
  (forall w c w', In (w, c) r -> In w' l -> ~ In w' (map fst r) ->
                  (Report.count_of w' l <= c)%nat).
Proof.
  pose proof (value_counts_facts l) as [Hs [Hnd [Hin [Hall Hlen]]]].
  unfold most_common. cbv zeta. set (L := Report.value_counts l) in *.
  split; [rewrite length_firstn, Hlen; reflexivity|].
  split; [|split; [|split]].
  - rewrite <- (firstn_skipn n L) in Hs. exact (sorted_app_l _ _ _ Hs).
  - rewrite <- (firstn_skipn n L), map_app in Hnd. apply NoDup_app_remove_r in Hnd. exact Hnd.
  - intros w c H. apply Hin. rewrite <- (firstn_skipn n L). apply in_or_app. left; exact H.
  - intros w c w' H Hw' Hn. specialize (Hall _ Hw').
    assert (Hk : In (w', Report.count_of w' l) (skipn n L)).
    { rewrite <- (firstn_skipn n L) in Hall. apply in_app_or in Hall.
      destruct Hall as [Hf|Hk]; [|exact Hk]. exfalso. apply Hn.
      apply (in_map fst) in Hf. exact Hf. }
    apply (firstn_skipn_desc L n (w, c) _ Hs H Hk).
Qed.

Lemma get_top_hashtags_most_common captions limit :
  get_top_hashtags captions limit = most_common limit (flat_map extract_hashtags captions).
Proof.
  destruct captions as [|c cs]; [|reflexivity].
  unfold most_common. simpl. destruct limit; reflexivity.
Qed.

Lemma split_aux_space_app cur s c t : Unicode.isspace c = true ->
  split_aux cur (s ++ c :: t) = split_aux cur s ++ split_aux [] t.
Proof.
  intros Hc. revert cur. induction s as [|d s IH]; intros cur.
  - simpl. rewrite Hc. destruct cur; reflexivity.
  - cbn [app split_aux]. destruct (Unicode.isspace d).
    + destruct cur; rewrite IH; reflexivity.
    + apply IH.
Qed.

Lemma split_join_flat texts : split (join (u " ") texts) = flat_map split texts.
Proof.
  induction texts as [|w [|w2 ws] IH]; [reflexivity|simpl; rewrite app_nil_r; reflexivity|].
  change (join (u " ") (w :: w2 :: ws)) with (w ++ 32 :: join (u " ") (w2 :: ws)).
  unfold split in *. rewrite split_aux_space_app by reflexivity. rewrite IH. reflexivity.
Qed.

Lemma split_on_facts sep s :
  split_on sep s <> [] /\ join [sep] (split_on sep s) = s /\
  Forall (fun p => ~ In sep p) (split_on sep s).
Proof.
  induction s as [|c r [Hne [Hj Hf]]]; [split; [discriminate|split; [reflexivity|repeat constructor; simpl; tauto]]|].
  cbn [split_on]. destruct (Z.eqb_spec c sep) as [->|Hc].
  - split; [discriminate|]. split.
    + destruct (split_on sep r) as [|p ps]; [congruence|]. change (sep :: join [sep] (p :: ps) = sep :: r).
      rewrite Hj. reflexivity.
    + constructor; [simpl; tauto|exact Hf].
  - destruct (split_on sep r) as [|p ps]; [congruence|].
    split; [discriminate|]. inversion Hf as [|? ? Hp Hps]; subst. split.
    + destruct ps; reflexivity.
    + constructor; [simpl; intros [H|H]; [congruence|tauto]|exact Hps].
Qed.

Lemma join_snoc (sep : ustr) l x :
  join sep (l ++ [x]) = match l with [] => x | _ => join sep l ++ sep ++ x end.
Proof.
  induction l as [|a [|b l] IH]; [reflexivity|reflexivity|].
  change ((a :: b :: l) ++ [x]) with (a :: ((b :: l) ++ [x])).
  change (join sep (a :: (b :: l) ++ [x])) with (a ++ sep ++ join sep ((b :: l) ++ [x])).
  rewrite IH. change (join sep (a :: b :: l)) with (a ++ sep ++ join sep (b :: l)).
  rewrite !app_assoc. reflexivity.
Qed.

Lemma word_frequency_words k texts n w c :
  In (w, c) (most_common n (filter (fun word => (k <? List.length word)%nat)
                                   (split (join (u " ") texts)))) ->
  (k < List.length w)%nat /\ Forall (fun c => Unicode.isspace c = false) w /\
  exists t, In t texts /\ In w (split t).
Proof.
  intros H. apply most_common_facts in H as [_ H].
  apply filter_In in H as [Hw Hk]. apply Nat.ltb_lt in Hk. split; [exact Hk|].
  rewrite split_join_flat in Hw. apply in_flat_map in Hw as [t [Ht Hwt]].
  split; [|exists t; auto].
  pose proof (JoinFacts.split_aux_nonspace t [] (Forall_nil _)) as F.
  rewrite Forall_forall in F. apply (F w Hwt).
Qed.

(** X12: [get_top_hashtags] returns min(limit, number of distinct hashtags)
    distinct hashtags with their true counts, by non-increasing count, and
    no hashtag left out has a greater count than one returned. *)
Theorem top_hashtags_ranking captions limit :
  let tags := flat_map extract_hashtags captions in
  let r := get_top_hashtags captions limit in
  List.length r = Nat.min limit (List.length (Report.uniques tags)) /\
  StronglySorted desc r /\ NoDup (map fst r) /\
  (forall h c, In (h, c) r -> c = Report.count_of h tags /\ In h tags) /\
  (forall h c h', In (h, c) r -> In h' tags -> ~ In h' (map fst r) ->
                  (Report.count_of h' tags <= c)%nat).
Proof. cbv zeta. rewrite get_top_hashtags_most_common. apply most_common_facts. Qed.

(** X13: both [get_word_frequency] count the words of each text separately
    (joining never glues two words), keep only words longer than 3
    (sentiment) or 2 (emotion) characters, and return words of the texts. *)
Theorem word_frequency_per_text texts n :
  sentiment_get_word_frequency texts n =
    most_common n (filter (fun word => (3 <? List.length word)%nat) (flat_map split texts)) /\
  emotion_get_word_frequency texts n =
    most_common n (filter (fun word => (2 <? List.length word)%nat) (flat_map split texts)) /\
  (forall w c, In (w, c) (sentiment_get_word_frequency texts n) ->
     (3 < List.length w)%nat /\ Forall (fun c => Unicode.isspace c = false) w /\
     exists t, In t texts /\ In w (split t)) /\
  (forall w c, In (w, c) (emotion_get_word_frequency texts n) ->
     (2 < List.length w)%nat /\ Forall (fun c => Unicode.isspace c = false) w /\
     exists t, In t texts /\ In w (split t)).
Proof.
  unfold sentiment_get_word_frequency, emotion_get_word_frequency. cbv zeta.
  split; [rewrite split_join_flat; reflexivity|].
  split; [rewrite split_join_flat; reflexivity|].
  split; intros w c; apply word_frequency_words.
Qed.

(** X14: [get_tweet_id_from_permalink] returns [None] on a missing value and
    otherwise the text after the last [/] (the whole text when it has none),
    which contains no [/]. *)
Theorem tweet_id_is_last_segment p :
  match p with
  | PyStr s => exists id, get_tweet_id_from_permalink p = Some id /\ ~ In 47 id /\
                          (s = id \/ exists pre, s = pre ++ 47 :: id)
  | _ => get_tweet_id_from_permalink p = None
  end.
Proof.
  destruct p as [| |s]; [reflexivity|reflexivity|].
  pose proof (split_on_facts 47 s) as [Hne [Hj Hf]].
  unfold get_tweet_id_from_permalink. cbv zeta.
  destruct (exists_last Hne) as [init [id Hl]].
  rewrite Hl in Hj, Hf |- *. exists id. rewrite last_last.
  split; [rewrite length_app; simpl; replace (0 <? _)%nat with true by (symmetry; apply Nat.ltb_lt; lia); reflexivity|].
  apply Forall_app in Hf as [_ Hid]. split; [exact (Forall_inv Hid)|].
  rewrite join_snoc in Hj. destruct init as [|a init]; [left; symmetry; exact Hj|].
  right. exists (join [47] (a :: init)). rewrite <- Hj. reflexivity.
Qed.

End DataFacts.

(** ** The statistics of [DataProcessor] *)
Module StatsFacts.
Import Py Data Stats.

Lemma trunc_spec q :
  (0 <= q -> inject_Z (trunc q) <= q < inject_Z (trunc q) + 1)%Q /\
  (q <= 0 -> inject_Z (trunc q) - 1 < q <= inject_Z (trunc q))%Q.
Proof.
  destruct q as [a b]. unfold trunc. cbn [Qnum Qden].
  pose proof (Z.quot_rem a (Zpos b) ltac:(discriminate)) as E.
  set (t := Z.quot a (Zpos b)) in *. set (r := Z.rem a (Zpos b)) in *.
  unfold Qle, Qlt, Qplus, Qminus, Qopp, inject_Z. cbn [Qnum Qden].
  split; intros H; unfold Qle in H; cbn [Qnum Qden] in H.
  - pose proof (Z.rem_bound_pos a (Zpos b) ltac:(lia) ltac:(lia)) as B. fold r in B.
    rewrite ?Pos.mul_1_r. simpl. split; nia.
  - pose proof (Z.rem_bound_pos (- a) (Zpos b) ltac:(lia) ltac:(lia)) as B0.
    pose proof (Z.rem_opp_l' (- a) (Zpos b)) as B1. rewrite Z.opp_involutive in B1.
    fold r in B1. assert (B : - Zpos b < r <= 0) by lia.
    rewrite ?Pos.mul_1_r. simpl. split; nia.
Qed.

Lemma Z_of_Q_lt (a b : Z) : (inject_Z a < inject_Z b + 1)%Q -> a <= b.
Proof.
  intros H. change 1%Q with (inject_Z 1) in H. rewrite <- (inject_Z_plus b 1) in H.
  rewrite <- Zlt_Qlt in H. lia.
Qed.

Lemma trunc_compat q q' : (q == q')%Q -> trunc q = trunc q'.
Proof.
  intros E. pose proof (trunc_spec q) as [P N]. pose proof (trunc_spec q') as [P' N'].
  destruct (Qlt_le_dec q 0) as [Hn|Hp].
  - assert (q <= 0)%Q as H1 by lra. assert (q' <= 0)%Q as H2 by lra.
    specialize (N H1). specialize (N' H2).
    apply Z.le_antisymm; apply Z_of_Q_lt; lra.
  - assert (0 <= q')%Q as H2 by lra. specialize (P Hp). specialize (P' H2).
    apply Z.le_antisymm; apply Z_of_Q_lt; lra.
Qed.

Lemma trunc_sign q :
  ((0 < q)%Q /\ (inject_Z (trunc q) <= q < inject_Z (trunc q) + 1)%Q) \/
  ((q == 0)%Q /\ trunc q = 0) \/
  ((q < 0)%Q /\ (inject_Z (trunc q) - 1 < q <= inject_Z (trunc q))%Q).
Proof.
  pose proof (trunc_spec q) as [P N].
  destruct (Q_dec 0 q) as [[H|H]|H].
  - left. split; [exact H|apply P; lra].
  - right; right. split; [exact H|apply N; lra].
  - right; left. split; [symmetry; exact H|].
    rewrite (trunc_compat q 0) by (symmetry; exact H). reflexivity.
Qed.

Lemma trunc_sum3 x y z :
  Z.abs (trunc (x + y + z) - (trunc x + trunc y + trunc z)) <= 2.
Proof.
  assert (B : (inject_Z (trunc (x + y + z)) <
               inject_Z (trunc x + trunc y + trunc z) + 3)%Q /\
              (inject_Z (trunc x + trunc y + trunc z) <
               inject_Z (trunc (x + y + z)) + 3)%Q).
  { rewrite !inject_Z_plus.
    destruct (trunc_sign x) as [[Hx Tx]|[[Hx Tx]|[Hx Tx]]];
    destruct (trunc_sign y) as [[Hy Ty]|[[Hy Ty]|[Hy Ty]]];
    destruct (trunc_sign z) as [[Hz Tz]|[[Hz Tz]|[Hz Tz]]];
    destruct (trunc_sign (x + y + z)) as [[Hs Ts]|[[Hs Ts]|[Hs Ts]]];
    try rewrite Tx in *; try rewrite Ty in *; try rewrite Tz in *; try rewrite Ts in *;
    change (inject_Z 0) with 0%Q in *; split; lra. }
  destruct B as [B1 B2].
  change 3%Q with (inject_Z 3) in B1, B2. rewrite <- inject_Z_plus in B1, B2.
  rewrite <- !Zlt_Qlt in B1, B2. lia.
Qed.

Lemma sumZ_perm (a b : list Z) : Permutation a b -> sumZ a = sumZ b.
Proof. induction 1; simpl; lia. Qed.

Lemma sumZ_app (a b : list Z) : sumZ (a ++ b) = sumZ a + sumZ b.
Proof. induction a; simpl; lia. Qed.

Lemma row_sum_facts L : forall R T,
  List.length L = List.length R -> List.length R = List.length T ->
  sumZ (row_sum L R T) = sumZ L + sumZ R + sumZ T /\
  List.length (row_sum L R T) = List.length L /\
  last (row_sum L R T) 0 = last L 0 + last R 0 + last T 0 /\
  removelast (row_sum L R T) = row_sum (removelast L) (removelast R) (removelast T).
Proof.
  induction L as [|l L IH]; intros [|k R] [|t T] H1 H2; simpl in H1, H2; try lia.
  - repeat split; reflexivity.
  - injection H1 as H1. injection H2 as H2.
    destruct (IH R T H1 H2) as [S [N [La Rl]]].
    change (row_sum (l :: L) (k :: R) (t :: T)) with ((l + k + t) :: row_sum L R T).
    cbn [sumZ fold_right List.length]. unfold sumZ in S. split; [lia|]. split; [lia|].
    destruct L as [|l2 L]; destruct R as [|k2 R]; destruct T as [|t2 T];
      simpl in H1, H2; try lia.
    + split; reflexivity.
    + change (row_sum (l2 :: L) (k2 :: R) (t2 :: T)) with ((l2 + k2 + t2) :: row_sum L R T) in *.
      cbn [last removelast] in *. split; [exact La|]. rewrite Rl. reflexivity.
Qed.

Lemma reply_column_total py_int ids rows :
  match reply_column py_int ids rows with
  | Some ks => total_replies_from_csv py_int ids rows = Some (sumZ ks) /\
               List.length ks = List.length rows
  | None => total_replies_from_csv py_int ids rows = None
  end.
Proof.
  induction rows as [|r rs IH]; [split; reflexivity|]. cbn [reply_column total_replies_from_csv].
  destruct (reply_count_csv py_int ids r) as [k|]; [|reflexivity].
  destruct (reply_column py_int ids rs) as [ks|].
  - destruct IH as [-> N]. simpl. split; [reflexivity|lia].
  - rewrite IH. reflexivity.
Qed.

Lemma total_replies_perm py_int ids rows rows' : Permutation rows rows' ->
  total_replies_from_csv py_int ids rows = total_replies_from_csv py_int ids rows'.
Proof.
  induction 1 as [|x l l' _ IH|x y l|l l' l'' _ IH1 _ IH2]; cbn [total_replies_from_csv].
  - reflexivity.
  - rewrite IH. reflexivity.
  - destruct (reply_count_csv py_int ids x), (reply_count_csv py_int ids y); try reflexivity.
    destruct (total_replies_from_csv py_int ids l); simpl; [f_equal; lia|reflexivity].
  - congruence.
Qed.


Lemma dates_parse_perm to_datetime rows rows' :
  Permutation rows rows' -> dates_parse to_datetime rows = dates_parse to_datetime rows'.
Proof.
  intros P. unfold dates_parse.
  destruct (forallb _ rows) eqn:F1, (forallb _ rows') eqn:F2; try reflexivity.
  - rewrite forallb_forall in F1. apply not_true_iff_false in F2. exfalso. apply F2.
    apply forallb_forall. intros x Hx. apply F1. eapply Permutation_in; [symmetry; exact P|exact Hx].
  - rewrite forallb_forall in F2. apply not_true_iff_false in F1. exfalso. apply F1.
    apply forallb_forall. intros x Hx. apply F2. eapply Permutation_in; [exact P|exact Hx].
Qed.

(** X15: when every [Date] parses and every permalink is a string,
    [get_basic_statistics] and the totals of [get_statistics_with_delta] on
    the same rows, in any order, agree: both fail together and give the same
    five totals.  When a [Date] does not parse, [get_statistics_with_delta]
    gives [{}] whatever [get_basic_statistics] gives. *)
Theorem basic_statistics_agree py_int ids to_datetime rows sorted_rows :
  Permutation rows sorted_rows ->
  (Forall (fun r => to_datetime (date r) <> None /\ exists s, permalink r = PyStr s) rows ->
   get_basic_statistics py_int ids rows =
   option_map totals (get_statistics_with_delta py_int ids to_datetime sorted_rows)) /\
  (Exists (fun r => to_datetime (date r) = None) rows ->
   get_statistics_with_delta py_int ids to_datetime sorted_rows = None).
Proof.
  intros P. split.
  - intros F.
    assert (D : dates_parse to_datetime sorted_rows = true).
    { rewrite <- (dates_parse_perm _ _ _ P). unfold dates_parse. apply forallb_forall.
      intros x Hx. rewrite Forall_forall in F. destruct (F x Hx) as [Hd _].
      destruct (to_datetime (date x)); [reflexivity|congruence]. }
    destruct rows as [|r0 rs0].
    { apply Permutation_nil in P. subst. reflexivity. }
    destruct sorted_rows as [|s0 ss0].
    { apply Permutation_length in P. discriminate. }
    unfold get_basic_statistics, get_statistics_with_delta.
    set (rows := r0 :: rs0) in *. set (srt := s0 :: ss0) in *.
    change (match rows with [] => None | _ :: _ => ?x end) with x.
    change (match srt with [] => None | _ :: _ => ?x end) with x.
    rewrite D. cbn [negb].
    rewrite (total_replies_perm _ _ _ _ P).
    pose proof (reply_column_total py_int ids srt) as C.
    destruct (reply_column py_int ids srt) as [ks|]; [|rewrite C; reflexivity].
    destruct C as [-> _]. cbv zeta.
    rewrite (Permutation_length P), (sumZ_perm _ _ (Permutation_map likes P)),
      (sumZ_perm _ _ (Permutation_map retweets P)).
    destruct (2 <=? Z.of_nat (List.length srt)); reflexivity.
  - intros Ex.
    assert (D : dates_parse to_datetime sorted_rows = false).
    { rewrite <- (dates_parse_perm _ _ _ P). unfold dates_parse.
      apply not_true_iff_false. intros T. rewrite forallb_forall in T.
      apply Exists_exists in Ex as [x [Hx Hn]]. specialize (T x Hx). rewrite Hn in T.
      discriminate. }
    unfold get_statistics_with_delta. destruct sorted_rows; [reflexivity|].
    rewrite D. reflexivity.
Qed.

Lemma basic_statistics_agree_witness :
  let rows := [{| likes := 0; retweets := 0; permalink := PyStr (u "https://x.com/IndiHome/status/");
               tweet_type := u "Tweet"; replies := 0; date := u "2025-11-14T08:00:00+07:00" |};
             {| likes := 0; retweets := 0; permalink := PyStr (u "https://x.com/IndiHome/status/8");
               tweet_type := u "Tweet"; replies := 0; date := u "2025-11-14T09:00:00+07:00" |};
             {| likes := 1; retweets := 1; permalink := PyStr (u "https://x.com/IndiHome/status/7");
               tweet_type := u "Quote"; replies := 1; date := u "2025-11-15T10:00:00+07:00" |};
             {| likes := 1; retweets := 1; permalink := PyStr (u "https://x.com/IndiHome/status/7");
               tweet_type := u "Tweet"; replies := 1; date := u "2025-11-15T11:00:00+07:00" |}] in
  let year (d : ustr) := py_int_digits (firstn 4 d) in
  let bad := {| likes := 2; retweets := 0; permalink := PyStr (u "https://x.com/IndiHome/status/7");
                tweet_type := u "Tweet"; replies := 0; date := u "kemarin" |} in
  Permutation rows (rev rows) /\
  get_basic_statistics py_int_digits [7] rows =
  option_map totals (get_statistics_with_delta py_int_digits [7] year (rev rows)) /\
  get_basic_statistics py_int_digits [7] (bad :: rows) <> None /\
  get_statistics_with_delta py_int_digits [7] year (rev (bad :: rows)) = None.
Proof.
  cbv zeta. split; [apply Permutation_rev|].
  split.
  - apply (basic_statistics_agree _ _ _ _ _ (Permutation_rev _)).
    repeat constructor; try discriminate; eexists; reflexivity.
  - split; [vm_compute; discriminate|].
    apply (basic_statistics_agree _ _ _ _ _ (Permutation_rev _)).
    apply Exists_cons_hd. vm_compute. reflexivity.
Defined.

(** X16: in [get_statistics_with_delta], [delta_engagement] differs from
    [delta_likes + delta_replies + delta_retweets] by at most 2. *)
Theorem delta_engagement_close py_int ids to_datetime rows st :
  get_statistics_with_delta py_int ids to_datetime rows = Some st ->
  Z.abs (delta_engagement st - (delta_likes st + delta_replies st + delta_retweets st)) <= 2.
Proof.
  unfold get_statistics_with_delta. destruct rows as [|r0 rs0]; [discriminate|].
  destruct (negb (dates_parse to_datetime (r0 :: rs0))); [discriminate|].
  pose proof (reply_column_total py_int ids (r0 :: rs0)) as C.
  destruct (reply_column py_int ids (r0 :: rs0)) as [ks|]; [|discriminate].
  destruct C as [_ N]. cbv zeta.
  destruct (2 <=? _); intros E; injection E as <-; cbn [delta_engagement delta_likes
    delta_replies delta_retweets]; [|lia].
  set (L := likes r0 :: map likes rs0) in *. set (T := retweets r0 :: map retweets rs0) in *.
  assert (H1 : List.length L = List.length ks)
    by (unfold L; cbn [List.length] in *; rewrite length_map; lia).
  assert (H2 : List.length ks = List.length T)
    by (unfold T; cbn [List.length] in *; rewrite length_map; lia).
  destruct (row_sum_facts L ks T H1 H2) as [_ [_ [La Rl]]].
  assert (RL : forall l : list Z, List.length (removelast l) = pred (List.length l)).
  { intros l. rewrite removelast_firstn_len, length_firstn. lia. }
  destruct (row_sum_facts (removelast L) (removelast ks) (removelast T)) as [S [Nr _]];
    [rewrite !RL; lia|rewrite !RL; lia|].
  unfold delta, mean. rewrite La, Rl, S, Nr, !RL, <- H2, <- H1.
  rewrite (trunc_compat _ ((inject_Z (last L 0) - inject_Z (sumZ (removelast L)) /
                                inject_Z (Z.of_nat (pred (List.length L)))) +
                          (inject_Z (last ks 0) - inject_Z (sumZ (removelast ks)) /
                                inject_Z (Z.of_nat (pred (List.length L)))) +
                          (inject_Z (last T 0) - inject_Z (sumZ (removelast T)) /
                                inject_Z (Z.of_nat (pred (List.length L)))))).
  - apply trunc_sum3.
  - rewrite !inject_Z_plus. unfold Qdiv. ring.
Qed.

Lemma delta_engagement_close_witness :
  let rows := [{| likes := 0; retweets := 0; permalink := PyStr (u "https://x.com/IndiHome/status/");
               tweet_type := u "Tweet"; replies := 0; date := u "2025-11-14T08:00:00+07:00" |};
             {| likes := 0; retweets := 0; permalink := PyStr (u "https://x.com/IndiHome/status/8");
               tweet_type := u "Tweet"; replies := 0; date := u "2025-11-14T09:00:00+07:00" |};
             {| likes := 1; retweets := 1; permalink := PyStr (u "https://x.com/IndiHome/status/7");
               tweet_type := u "Quote"; replies := 1; date := u "2025-11-15T10:00:00+07:00" |};
             {| likes := 1; retweets := 1; permalink := PyStr (u "https://x.com/IndiHome/status/7");
               tweet_type := u "Tweet"; replies := 1; date := u "2025-11-15T11:00:00+07:00" |}] in
  exists st, get_statistics_with_delta py_int_digits [7] (fun d => py_int_digits (firstn 4 d))
               rows = Some st /\
    Z.abs (delta_engagement st - (delta_likes st + delta_replies st + delta_retweets st)) <= 2 /\
    delta_engagement st - (delta_likes st + delta_replies st + delta_retweets st) = 2.
Proof.
  cbv zeta. eexists.
  match goal with |- ?H /\ _ => assert (E : H) by (vm_compute; reflexivity) end.
  split; [exact E|]. split; [exact (delta_engagement_close _ _ _ _ _ E)|vm_compute; reflexivity].
Defined.


Lemma insert_key_perm k l : Permutation (insert_key k l) (k :: l).
Proof.
  induction l as [|x r IH]; simpl; [reflexivity|].
  destruct (str_ltb k x); [reflexivity|].
  rewrite IH. apply perm_swap.
Qed.

Lemma group_keys_perm types : Permutation (group_keys types) (Report.uniques types).
Proof.
  unfold group_keys. induction (Report.uniques types) as [|k l IH]; simpl; [reflexivity|].
  rewrite insert_key_perm, IH. reflexivity.
Qed.

Lemma sumZ_map_plus {A} (a b : A -> Z) l :
  sumZ (map (fun x => a x + b x) l) = sumZ (map a l) + sumZ (map b l).
Proof. induction l; simpl; lia. Qed.

Lemma sumZ_indicator (U : list ustr) (k : ustr) (c : Z) :
  NoDup U -> In k U -> sumZ (map (fun t => if ustr_eqb k t then c else 0) U) = c.
Proof.
  induction U as [|t U IH]; simpl; [tauto|].
  intros Hnd Hin. inversion Hnd as [|? ? Hnot Hnd']; subst.
  destruct (ustr_eqb_spec k t) as [->|Hne].
  - assert (H0 : forall V, ~ In t V ->
               sumZ (map (fun t' => if ustr_eqb t t' then c else 0) V) = 0).
    { induction V as [|b V IHV]; simpl; [reflexivity|]. intros Hn.
      destruct (ustr_eqb_spec t b); [exfalso; apply Hn; left; congruence|].
      rewrite IHV; [reflexivity|tauto]. }
    rewrite H0; [lia|exact Hnot].
  - destruct Hin as [Heq|Hin]; [congruence|]. rewrite IH; auto.
Qed.

Lemma sum_by_key {A} (g : A -> ustr) (v : A -> Z) (U : list ustr) l :
  NoDup U -> (forall x, In x l -> In (g x) U) ->
  sumZ (map (fun t => sumZ (map v (filter (fun x => ustr_eqb (g x) t) l))) U) = sumZ (map v l).
Proof.
  intros Hnd. induction l as [|x l IH]; intros Hin.
  - clear Hin Hnd. induction U as [|t U IHU]; [reflexivity|].
    unfold sumZ in *. simpl in *. lia.
  - cbn [filter map].
    transitivity (sumZ (map (fun t => (if ustr_eqb (g x) t then v x else 0) +
                        sumZ (map v (filter (fun x => ustr_eqb (g x) t) l))) U)).
    + f_equal. apply map_ext. intros t. destruct (ustr_eqb (g x) t); simpl; lia.
    + rewrite sumZ_map_plus, sumZ_indicator, IH; [simpl; lia| |exact Hnd|].
      * intros y Hy. apply Hin. right; exact Hy.
      * apply Hin. left; reflexivity.
Qed.

Lemma sumZ_snd_combine {A} (l : list A) (ks : list Z) :
  List.length l = List.length ks -> sumZ (map snd (combine l ks)) = sumZ ks.
Proof.
  revert ks; induction l as [|x l IH]; intros [|k ks] H; simpl in H |- *; try lia.
  rewrite IH by lia. reflexivity.
Qed.

(** X17: the per-type totals of [get_engagement_by_type] add up to the
    [total_engagement] of [get_basic_statistics], and there is one entry per
    distinct type. *)
Theorem engagement_by_type_total py_int ids rows b :
  get_basic_statistics py_int ids rows = Some b ->
  let res := get_engagement_by_type py_int ids rows in
  sumZ (map stat_total res) = total_engagement b /\
  Permutation (map stat_type res) (Report.uniques (map tweet_type rows)).
Proof.
  unfold get_basic_statistics, get_engagement_by_type. destruct rows as [|r0 rs0]; [discriminate|].
  set (rows := r0 :: rs0).
  change (match rows with [] => None | _ :: _ => ?x end = Some b -> ?y) with (x = Some b -> y).
  change (match rows with [] => [] | _ :: _ => ?x end) with x.
  pose proof (reply_column_total py_int ids rows) as C.
  destruct (reply_column py_int ids rows) as [ks|]; [|rewrite C; discriminate].
  destruct C as [-> N]. intros E. injection E as <-. cbv zeta.
  pose proof (group_keys_perm (map tweet_type rows)) as P.
  assert (Hnd : NoDup (group_keys (map tweet_type rows))).
  { rewrite P. apply ReportFacts.uniques_nodup. }
  assert (Hin : forall r, In r rows -> In (tweet_type r) (group_keys (map tweet_type rows))).
  { intros r Hr. rewrite P. apply ReportFacts.uniques_in, in_map, Hr. }
  split.
  - rewrite map_map. cbn [stat_total total_engagement].
    rewrite sumZ_map_plus, sumZ_map_plus. unfold type_sum, type_replies.
    rewrite (sum_by_key tweet_type likes), (sum_by_key tweet_type retweets) by assumption.
    rewrite (sum_by_key (fun p => tweet_type (fst p)) snd); [|exact Hnd|].
    + rewrite sumZ_snd_combine by lia. subst rows. unfold sumZ in *. simpl. lia.
    + intros [r k] Hp. apply Hin. exact (in_combine_l _ _ _ _ Hp).
  - rewrite map_map. cbn [stat_type]. rewrite map_id. exact P.
Qed.

Lemma engagement_by_type_total_witness :
  let rows := [{| likes := 0; retweets := 0; permalink := PyNone; tweet_type := u "Tweet";
               replies := 0; date := u "2025-11-14T08:00:00+07:00" |};
             {| likes := 0; retweets := 0; permalink := PyNaN; tweet_type := u "Tweet";
               replies := 0; date := u "2025-11-14T09:00:00+07:00" |};
             {| likes := 1; retweets := 1; permalink := PyStr (u "https://x.com/IndiHome/status/7");
               tweet_type := u "Quote"; replies := 1; date := u "2025-11-15T10:00:00+07:00" |};
             {| likes := 1; retweets := 1; permalink := PyStr (u "https://x.com/IndiHome/status/7");
               tweet_type := u "Tweet"; replies := 1; date := u "2025-11-15T11:00:00+07:00" |}] in
  exists b, get_basic_statistics py_int_digits [7] rows = Some b /\
    sumZ (map stat_total (get_engagement_by_type py_int_digits [7] rows)) = total_engagement b /\
    Permutation (map stat_type (get_engagement_by_type py_int_digits [7] rows))
                (Report.uniques (map tweet_type rows)).
Proof.
  cbv zeta. eexists.
  match goal with |- ?H /\ _ => assert (E : H) by (vm_compute; reflexivity) end.
  split; [exact E|exact (engagement_by_type_total _ _ _ _ E)].
Defined.


Lemma add_day_keys acc n v : map fst (add_day acc n v) = map fst acc.
Proof.
  induction acc as [|[k x] acc IH]; [reflexivity|]. simpl.
  destruct (ustr_eqb k n); simpl; rewrite IH; reflexivity.
Qed.

Lemma add_day_sum acc n v : NoDup (map fst acc) -> In n (map fst acc) ->
  sumZ (map snd (add_day acc n v)) = sumZ (map snd acc) + v.
Proof.
  induction acc as [|[k x] acc IH]; simpl; [tauto|]. intros Hnd Hin.
  inversion Hnd as [|? ? Hnot Hnd']; subst.
  destruct (ustr_eqb_spec k n) as [->|Hne]; simpl.
  - assert (H0 : forall l, ~ In n (map fst l) -> add_day l n v = l).
    { induction l as [|[k' x'] l IHl]; simpl; [reflexivity|]. intros Hn.
      destruct (ustr_eqb_spec k' n); [exfalso; apply Hn; left; assumption|].
      rewrite IHl by tauto. reflexivity. }
    rewrite H0 by exact Hnot. unfold sumZ; simpl. lia.
  - destruct Hin as [Heq|Hin]; [congruence|]. rewrite IH by assumption.
    unfold sumZ; simpl. lia.
Qed.

Lemma day_names_nodup : NoDup day_names.
Proof.
  repeat constructor; simpl; intuition discriminate.
Qed.

Lemma by_day_fold dayofweek rows ds acc :
  map fst acc = day_names ->
  map fst (fold_left (fun acc date_str =>
                   match day_of dayofweek date_str with
                   | Some day_name => add_day acc day_name (date_engagement date_str rows)
                   | None => acc
                   end) ds acc) = day_names /\
  sumZ (map snd (fold_left (fun acc date_str =>
                   match day_of dayofweek date_str with
                   | Some day_name => add_day acc day_name (date_engagement date_str rows)
                   | None => acc
                   end) ds acc)) =
  sumZ (map snd acc) +
  sumZ (map (fun d => match day_of dayofweek d with
                      | Some _ => date_engagement d rows
                      | None => 0
                      end) ds).
Proof.
  revert acc. induction ds as [|d ds IH]; intros acc Hk; cbn [fold_left map].
  - split; [exact Hk|unfold sumZ; simpl; lia].
  - destruct (day_of dayofweek d) as [name|] eqn:E.
    + assert (Hk' : map fst (add_day acc name (date_engagement d rows)) = day_names)
        by (rewrite add_day_keys; exact Hk).
      destruct (IH _ Hk') as [IH1 IH2]. split; [exact IH1|]. rewrite IH2.
      rewrite add_day_sum; [unfold sumZ; simpl; lia|rewrite Hk; apply day_names_nodup|].
      rewrite Hk. unfold day_of in E. destruct (dayofweek d); [|discriminate].
      eapply nth_error_In, E.
    + destruct (IH _ Hk) as [IH1 IH2]. split; [exact IH1|]. rewrite IH2.
      unfold sumZ; simpl. lia.
Qed.

Lemma double_sum {A B} (la : list A) (lb : list B) (f : A -> B -> Z) :
  sumZ (map (fun a => sumZ (map (f a) lb)) la) =
  sumZ (map (fun b => sumZ (map (fun a => f a b) la)) lb).
Proof.
  induction la as [|a la IH].
  - simpl. induction lb as [|b lb IHb]; [reflexivity|]. unfold sumZ in *; simpl in *. lia.
  - cbn [map]. change (sumZ (sumZ (map (f a) lb) :: map (fun a => sumZ (map (f a) lb)) la))
      with (sumZ (map (f a) lb) + sumZ (map (fun a => sumZ (map (f a) lb)) la)).
    rewrite IH. cbn [map].
    rewrite <- (sumZ_map_plus (f a) (fun b => sumZ (map (fun a' => f a' b) la)) lb).
    reflexivity.
Qed.

Lemma sumZ_filter {A} (p : A -> bool) (e : A -> Z) l :
  sumZ (map e (filter p l)) = sumZ (map (fun x => if p x then e x else 0) l).
Proof.
  induction l as [|x l IH]; [reflexivity|]. simpl. destruct (p x); unfold sumZ in *; simpl; lia.
Qed.

Lemma ustr_eqb_sym a b : ustr_eqb a b = ustr_eqb b a.
Proof.
  destruct (ustr_eqb_spec a b) as [E|H1]; [subst; rewrite ustr_eqb_refl; reflexivity|].
  destruct (ustr_eqb_spec b a); congruence.
Qed.

Lemma count_dates dayofweek (ds : list ustr) x c :
  sumZ (map (fun d => match day_of dayofweek d with
                      | Some _ => if ustr_eqb x d then c else 0
                      | None => 0
                      end) ds) =
  match day_of dayofweek x with
  | Some _ => Z.of_nat (List.length (filter (fun d => ustr_eqb d x) ds)) * c
  | None => 0
  end.
Proof.
  induction ds as [|d ds IH]; [destruct (day_of dayofweek x); simpl; lia|].
  cbn [map filter]. unfold sumZ in *. cbn [fold_right]. rewrite IH.
  destruct (ustr_eqb_spec x d) as [<-|Hne].
  - rewrite ustr_eqb_refl. destruct (day_of dayofweek x); cbn [List.length]; lia.
  - rewrite (ustr_eqb_sym d x).
    destruct (ustr_eqb_spec x d) as [|_]; [contradiction|].
    destruct (day_of dayofweek d), (day_of dayofweek x); lia.
Qed.

(** X18: [get_engagement_by_day] gives nothing for no rows and otherwise
    the seven days from Monday to Sunday, and their
    totals add up to the sum over rows with a parseable date of the row's
    engagement times the number of rows sharing its [Date]: a date shared
    by k rows is counted k times. *)
Theorem engagement_by_day_total dayofweek rows :
  let res := get_engagement_by_day dayofweek rows in
  (match rows with [] => res = [] | _ => map fst res = day_names end) /\
  sumZ (map snd res) =
  sumZ (map (fun r => match day_of dayofweek (date r) with
                      | Some _ =>
                          Z.of_nat (List.length (filter (fun r' => ustr_eqb (date r') (date r)) rows))
                          * (likes r + replies r + retweets r)
                      | None => 0
                      end) rows).
Proof.
  cbv zeta. destruct rows as [|r0 rs0]; [split; reflexivity|].
  unfold get_engagement_by_day. set (rows := r0 :: rs0).
  change (match rows with [] => [] | _ :: _ => ?x end) with x.
  change (match rows with [] => ?a | _ :: _ => ?b end) with b.
  assert (Hk : map fst (map (fun day => (day, 0)) day_names) = day_names)
    by (rewrite map_map; apply map_id).
  destruct (by_day_fold dayofweek rows (map date rows) _ Hk) as [K S].
  split; [exact K|]. rewrite S.
  replace (sumZ (map snd (map (fun day => (day, 0)) day_names))) with 0 by reflexivity.
  rewrite Z.add_0_l.
  transitivity (sumZ (map (fun d => sumZ (map (fun r' =>
      match day_of dayofweek d with
      | Some _ => if ustr_eqb (date r') d then likes r' + replies r' + retweets r' else 0
      | None => 0 end) rows)) (map date rows))).
  - f_equal. apply map_ext. intros d. unfold date_engagement. rewrite sumZ_filter.
    destruct (day_of dayofweek d); [reflexivity|].
    clear. induction rows as [|r rows IH]; [reflexivity|]. unfold sumZ in *; simpl; lia.
  - rewrite double_sum. f_equal. apply map_ext. intros r'.
    rewrite count_dates. destruct (day_of dayofweek (date r')); [|reflexivity].
    f_equal. f_equal. clear. induction rows as [|r rows IH]; [reflexivity|].
    simpl. destruct (ustr_eqb (date r) (date r')); simpl; rewrite IH; reflexivity.
Qed.

End StatsFacts.

(** * The claims *)

(** ** Emotion classification *)

(** C1: [predict_emotion] scores the six categories in the order joy,
    anger, sadness, fear, surprise, disgust; with a maximum of 0, or a
    blank text, it returns neutral; otherwise it returns the first category
    whose score is the maximum: every earlier category scores strictly
    less and every later one at most as much.  On "senang marah", joy and
    anger tie at 2 and the result is joy. *)
Theorem predict_emotion_first_max (text : ustr) :
  let scores := Emotion.emotion_scores (Unicode.lower text) in
  let m := Emotion.max_score scores in
  map fst scores = [Emotion.joy; Emotion.anger; Emotion.sadness; Emotion.fear;
                    Emotion.surprise; Emotion.disgust] /\
  (Py.strip text = [] -> Emotion.predict_emotion text = Emotion.neutral) /\
  (m = 0%nat -> Emotion.predict_emotion text = Emotion.neutral) /\
  (Py.strip text <> [] -> m <> 0%nat ->
   exists pre rest,
     scores = pre ++ (Emotion.predict_emotion text, m) :: rest /\
     Forall (fun p => (snd p < m)%nat) pre /\
     Forall (fun p => (snd p <= m)%nat) rest) /\
  (Emotion.emotion_scores (Unicode.lower (u "senang marah")) =
     [(Emotion.joy, 2%nat); (Emotion.anger, 2%nat); (Emotion.sadness, 0%nat);
      (Emotion.fear, 0%nat); (Emotion.surprise, 0%nat); (Emotion.disgust, 0%nat)] /\
   Emotion.predict_emotion (u "senang marah") = Emotion.joy).
Proof.
  cbv zeta.
  remember (Emotion.emotion_scores (Unicode.lower text)) as scores eqn:Hsc.
  remember (Emotion.max_score scores) as m eqn:Hm0.
  assert (Hpe : Emotion.predict_emotion text =
                match text with
                | [] => Emotion.neutral
                | _ => match Py.strip text with
                       | [] => Emotion.neutral
                       | _ => if Nat.eqb m 0 then Emotion.neutral
                              else Emotion.first_with_score scores m
                       end
                end).
  { unfold Emotion.predict_emotion. rewrite <- Hsc, <- Hm0. reflexivity. }
  split; [rewrite Hsc; apply EmotionFacts.emotion_scores_labels|].
  split; [|split; [|split]].
  - intros Hs. rewrite Hpe, Hs. destruct text; reflexivity.
  - intros Hm. rewrite Hpe, Hm. destruct text; [reflexivity|].
    destruct (Py.strip _); reflexivity.
  - intros Hs Hm.
    assert (Hp : Emotion.predict_emotion text = Emotion.first_with_score scores m).
    { rewrite Hpe. destruct text as [|c t]; [exfalso; apply Hs; reflexivity|].
      destruct (Py.strip (c :: t)); [congruence|].
      apply Nat.eqb_neq in Hm. rewrite Hm. reflexivity. }
    rewrite Hp.
    assert (Hatt : exists e, In (e, m) scores).
    { subst m. apply EmotionFacts.max_score_attained. exact Hm. }
    destruct (EmotionFacts.first_with_score_split scores m Hatt) as [pre [rest [E F]]].
    exists pre, rest. split; [exact E|].
    pose proof (EmotionFacts.max_score_upper scores) as U. rewrite <- Hm0 in U.
    rewrite E in U. apply Forall_app in U. destruct U as [U1 U2]. inversion U2; subst.
    split; [|assumption].
    rewrite Forall_forall in *. intros p Hin. specialize (U1 p Hin). specialize (F p Hin). lia.
  - split; vm_compute; reflexivity.
Qed.

(** ** Sentiment fallback *)

(** C2: [_fallback_sentiment] counts the positive and the negative trigger
    phrases that occur in the lower-cased text; it returns negative when
    the negative count is larger, positive when the positive count is
    larger, and neutral on a tie (0 to 0 included).  "bagus" (one positive
    trigger, no negative one) is positive; the empty text is neutral. *)
Theorem fallback_sentiment_counts (text : ustr) :
  let pos := Sentiment.count_found Sentiment.positive_words (Unicode.lower text) in
  let neg := Sentiment.count_found Sentiment.negative_words (Unicode.lower text) in
  ((pos < neg)%nat -> Sentiment.fallback_sentiment text = Sentiment.negative) /\
  ((neg < pos)%nat -> Sentiment.fallback_sentiment text = Sentiment.positive) /\
  (pos = neg -> Sentiment.fallback_sentiment text = Sentiment.neutral) /\
  (pos = 1%nat -> neg = 0%nat -> Sentiment.fallback_sentiment text = Sentiment.positive) /\
  (Sentiment.count_found Sentiment.positive_words (Unicode.lower (u "bagus")) = 1%nat /\
   Sentiment.count_found Sentiment.negative_words (Unicode.lower (u "bagus")) = 0%nat /\
   Sentiment.fallback_sentiment (u "bagus") = Sentiment.positive) /\
  Sentiment.fallback_sentiment [] = Sentiment.neutral.
Proof.
  intros pos neg. unfold Sentiment.fallback_sentiment. fold pos neg.
  repeat split; intros;
    repeat match goal with
    | |- context [(?a <? ?b)%nat] => destruct (Nat.ltb_spec a b)
    end; try reflexivity; try lia; vm_compute; reflexivity.
Qed.

(** ** Report distributions *)

(** C3: in the sentiment report and in the emotion report (over a label
    column with one label per analysed row), the counts of the
    distribution add up to [total_analyzed], and each percentage is
    [round(count / total * 100, 2)]. *)
Theorem report_counts_sum_to_total (column : list ustr) :
  (Report.sum_counts (Report.label_distribution (Report.generate_sentiment_report column))
   = Report.total_analyzed (Report.generate_sentiment_report column) /\
   Forall (fun p => Report.percentage (snd p) =
             PyNum.py_round
               ((inject_Z (Z.of_nat (Report.count (snd p)))
                 / inject_Z (Z.of_nat (Report.total_analyzed
                                         (Report.generate_sentiment_report column)))) * 100) 2)
          (Report.label_distribution (Report.generate_sentiment_report column))) /\
  (Report.sum_counts (Report.label_distribution (Report.generate_emotion_report column))
   = Report.total_analyzed (Report.generate_emotion_report column) /\
   Forall (fun p => Report.percentage (snd p) =
             PyNum.py_round
               ((inject_Z (Z.of_nat (Report.count (snd p)))
                 / inject_Z (Z.of_nat (Report.total_analyzed
                                         (Report.generate_emotion_report column)))) * 100) 2)
          (Report.label_distribution (Report.generate_emotion_report column))).
Proof.
  simpl. repeat split;
    first [apply ReportFacts.distribution_sum | apply ReportFacts.distribution_percentages].
Qed.

(** ** Performance score *)

(** C4 (counterexample): the sub-scores are rounded to one decimal before
    they are reported and weighted, and the weighted sum is computed in
    double precision.  With positive 33.33% and negative 33.34%,
    clamp(positive - negative + 50, 0, 100) is 49.989999999999995 (49.99 to
    two decimals) but the sentiment sub-score is 50.0.  The rating is taken
    from the weighted sum before rounding: with positive 100%, joy 100% and
    166 engagements over 5 posts, the overall score is 79.96..., reported as
    80.0, and the rating is Good, not Excellent.  With positive 36.1%, joy
    49.7% and 499 engagements over 10 posts the sub-scores are 86.1, 99.7 and
    49.9, whose weighted sum is exactly 80, but the double sum is
    79.99999999999999: overall score 80.0, rating Good. *)
Lemma performance_score_rounding_example :
  let r1 := Score.calculate_performance_score
              (Some [(u "positive", Score.of_Q (3333 # 100));
                     (u "negative", Score.of_Q (3334 # 100))]) None None in
  let r2 := Score.calculate_performance_score
              (Some [(u "positive", 100%float)]) (Some [(u "joy", 100%float)])
              (Some {| Score.f_total_posts := Some 5%float;
                       Score.f_total_engagement := Some 166%float |}) in
  let r3 := Score.calculate_performance_score
              (Some [(u "positive", Score.of_Q (361 # 10))])
              (Some [(u "joy", Score.of_Q (497 # 10))])
              (Some {| Score.f_total_posts := Some 10%float;
                       Score.f_total_engagement := Some 499%float |}) in
  Score.round_float (Score.clamp_float (Score.of_Q (3333 # 100) - Score.of_Q (3334 # 100) + 50)%float) 2
    = Score.of_Q (4999 # 100) /\
  Score.sentiment_score r1 = 50%float /\
  Score.average_engagement {| Score.f_total_posts := Some 5%float;
                              Score.f_total_engagement := Some 166%float |}
    = Score.of_Q (332 # 10) /\
  Score.overall_score r2 = 80%float /\
  Score.score_rating r2 = Score.Good /\
  Score.sentiment_score r3 = Score.of_Q (861 # 10) /\
  Score.emotion_score r3 = Score.of_Q (997 # 10) /\
  Score.engagement_score r3 = Score.of_Q (499 # 10) /\
  Qeq_bool ((861 # 10) * (35 # 100) + (997 # 10) * (35 # 100) + (499 # 10) * (30 # 100)) 80
    = true /\
  (Score.sentiment_score r3 * Score.w35 + Score.emotion_score r3 * Score.w35
   + Score.engagement_score r3 * Score.w30 <? 80)%float = true /\
  Score.overall_score r3 = 80%float /\
  Score.score_rating r3 = Score.Good.
Proof. vm_compute. repeat split. Qed.

(** C4 (amended): in double precision, each present report gives its
    sub-score rounded to one decimal: round(min(100, max(0, positive -
    negative + 50)), 1), round(min(100, max(0, joy - (anger + sadness +
    disgust) + 50)), 1) and round(engagement, 1), where engagement is 100
    from an average of 200 engagements per post, 75 from 100, 50 from 50,
    and avg / 50 * 50 below 50 (an average of exactly 200 gives 100, exactly
    50 gives 50).  The weighted sum w = s * 0.35 + e * 0.35 + g * 0.30 of the
    rounded sub-scores is a double sum; the overall score is round(w, 1) and
    the rating is Excellent, Good, Fair or Poor as w is at least 80, at
    least 60, at least 40, or none of these. *)
Theorem performance_score_spec (sd ed : Score.float_dist) (en : Score.engagement_data) :
  let r := Score.calculate_performance_score (Some sd) (Some ed) (Some en) in
  let s := Score.round_float (Score.clamp_float
             (Score.float_pct sd (u "positive") - Score.float_pct sd (u "negative") + 50)%float) 1 in
  let e := Score.round_float (Score.clamp_float
             (Score.float_pct ed (u "joy")
              - (Score.float_pct ed (u "anger") + Score.float_pct ed (u "sadness")
                 + Score.float_pct ed (u "disgust")) + 50)%float) 1 in
  let g := Score.round_float (Score.engagement_sub_score (Score.average_engagement en)) 1 in
  let w := (s * Score.w35 + e * Score.w35 + g * Score.w30)%float in
  Score.sentiment_score r = s /\ Score.emotion_score r = e /\ Score.engagement_score r = g /\
  Score.overall_score r = Score.round_float w 1 /\
  Score.score_rating r = Score.rating_of w /\
  Score.w35 = Score.of_Q (35 # 100) /\ Score.w30 = Score.of_Q (30 # 100) /\
  (forall x,
     (Score.rating_of x = Score.Excellent <-> (80 <=? x)%float = true) /\
     (Score.rating_of x = Score.Good <-> (80 <=? x)%float = false /\ (60 <=? x)%float = true) /\
     (Score.rating_of x = Score.Fair <->
        (80 <=? x)%float = false /\ (60 <=? x)%float = false /\ (40 <=? x)%float = true) /\
     (Score.rating_of x = Score.Poor <->
        (80 <=? x)%float = false /\ (60 <=? x)%float = false /\ (40 <=? x)%float = false)) /\
  (forall a,
     ((200 <=? a)%float = true -> Score.engagement_sub_score a = 100%float) /\
     ((200 <=? a)%float = false -> (100 <=? a)%float = true ->
      Score.engagement_sub_score a = 75%float) /\
     ((200 <=? a)%float = false -> (100 <=? a)%float = false -> (50 <=? a)%float = true ->
      Score.engagement_sub_score a = 50%float) /\
     ((200 <=? a)%float = false -> (100 <=? a)%float = false -> (50 <=? a)%float = false ->
      Score.engagement_sub_score a = ((a / 50) * 50)%float)) /\
  (Score.average_engagement en = 200%float -> g = 100%float) /\
  (Score.average_engagement en = 50%float -> g = 50%float).
Proof.
  cbv zeta. split; [reflexivity|]. split; [reflexivity|]. split; [reflexivity|].
  split; [reflexivity|]. split; [reflexivity|]. split; [reflexivity|]. split; [reflexivity|].
  split; [exact ScoreFacts.rating_of_spec|].
  split; [exact ScoreFacts.engagement_sub_score_spec|].
  split.
  - intros Heq.
    change (Score.engagement_score (Score.calculate_performance_score None None (Some en))
            = 100%float).
    rewrite (ScoreFacts.engagement_score_at en 200 Heq). vm_compute. reflexivity.
  - intros Heq.
    change (Score.engagement_score (Score.calculate_performance_score None None (Some en))
            = 50%float).
    rewrite (ScoreFacts.engagement_score_at en 50 Heq). vm_compute. reflexivity.
Qed.

(** ** Recommendation order *)

(** C5: whatever the five analyzers generate, [generate_recommendations]
    returns a permutation of the generated list, sorted by priority weight
    (critical 1, high 2, medium 3, low 4); the recommendations of each
    priority keep their generation order; a critical recommendation comes
    before a low one, and a critical and a low one generated in either
    order come out as [critical; low]. *)
Theorem generate_recommendations_sorted_stable
    (SD ED TD GD PD : Type)
    (aS : SD -> list Recommend.recommendation) (aE : ED -> list Recommend.recommendation)
    (aT : TD -> list Recommend.recommendation) (aG : GD -> list Recommend.recommendation)
    (aP : PD -> list Recommend.recommendation) sd ed td gd pd :
  let gen := Recommend.generated SD ED TD GD PD aS aE aT aG aP sd ed td gd pd in
  let out := Recommend.generate_recommendations SD ED TD GD PD aS aE aT aG aP sd ed td gd pd in
  (Recommend.weight Recommend.critical < Recommend.weight Recommend.high /\
   Recommend.weight Recommend.high < Recommend.weight Recommend.medium /\
   Recommend.weight Recommend.medium < Recommend.weight Recommend.low)%nat /\
  Sorted Recommend.le_key out /\
  Permutation out gen /\
  (forall p, Recommend.with_key (Recommend.weight p) out
             = Recommend.with_key (Recommend.weight p) gen) /\
  (forall c w, In c gen -> In w gen ->
     Recommend.priority_of c = Recommend.critical -> Recommend.priority_of w = Recommend.low ->
     exists pre mid post, out = pre ++ c :: mid ++ w :: post) /\
  (forall c w, Recommend.priority_of c = Recommend.critical ->
     Recommend.priority_of w = Recommend.low ->
     gen = [c; w] \/ gen = [w; c] -> out = [c; w]).
Proof.
  cbv zeta. unfold Recommend.generate_recommendations.
  set (gen := Recommend.generated SD ED TD GD PD aS aE aT aG aP sd ed td gd pd).
  split; [simpl; repeat split; lia|].
  split; [apply RecommendFacts.sort_by_priority_sorted|].
  split; [apply RecommendFacts.sort_by_priority_perm|].
  split; [intros p; apply RecommendFacts.sort_by_priority_stable|].
  split.
  - intros c w Hc Hw Pc Pw.
    apply RecommendFacts.sorted_before.
    + apply Sorted_StronglySorted; [exact RecommendFacts.le_key_trans|].
      apply RecommendFacts.sort_by_priority_sorted.
    + eapply Permutation_in; [apply Permutation_sym, RecommendFacts.sort_by_priority_perm|].
      exact Hc.
    + eapply Permutation_in; [apply Permutation_sym, RecommendFacts.sort_by_priority_perm|].
      exact Hw.
    + unfold Recommend.key. rewrite Pc, Pw. simpl. lia.
  - intros c w Pc Pw [E|E]; rewrite E; unfold Recommend.sort_by_priority; simpl;
      unfold Recommend.key; rewrite Pc, Pw; reflexivity.
Qed.

(** ** Peak activity hours *)

(** C6 (code bug): the guard [len(hours) < 2] counts parsed timestamps,
    not distinct hours.  Whenever there are 2 or more parsed timestamps but
    fewer than 2 distinct hours, StandardScaler and DBSCAN are called, PCA
    with 2 components fails on the single row of [X], and the handler
    returns [{}], never the insufficient-data error.  Two replies posted at
    10:00 are such an input. *)
Theorem peak_single_hour_is_clustered :
  (forall ca : list (option Z),
     (2 <= List.length (Peak.parsed_hours ca))%nat ->
     (List.length (Peak.uniques (Peak.parsed_hours ca)) < 2)%nat ->
     Peak.get_peak_activity_hours ca = ([Peak.standard_scaler; Peak.dbscan; Peak.pca],
                                        Peak.empty_result) /\
     Peak.get_peak_activity_hours ca <> ([], Peak.not_enough_data)) /\
  Peak.parsed_hours [Some 10; Some 10] = [10; 10] /\
  List.length (Peak.uniques (Peak.parsed_hours [Some 10; Some 10])) = 1%nat /\
  Peak.get_peak_activity_hours [Some 10; Some 10]
    = ([Peak.standard_scaler; Peak.dbscan; Peak.pca], Peak.empty_result).
Proof.
  split; [|split; [|split]]; [|vm_compute; reflexivity ..].
  intros ca Hl Hu.
  assert (E : Peak.get_peak_activity_hours ca
              = ([Peak.standard_scaler; Peak.dbscan; Peak.pca], Peak.empty_result)).
  { rewrite PeakFacts.get_peak_activity_hours_cases.
    destruct ca as [|o ca]; [simpl in Hl; lia|].
    apply Nat.ltb_ge in Hl. apply Nat.ltb_lt in Hu. rewrite Hl, Hu. reflexivity. }
  split; [exact E|]. rewrite E. discriminate.
Qed.

(** C7 (code bug): [avg_count = int(np.mean(cluster_hours))] averages the
    hours of the cluster, column 0 of [X], not its reply counts.  Replies at
    9:00 (4), 10:00 (4) and 20:00 (1) give [X = [[9,4],[10,4],[20,1]]],
    DBSCAN labels [0, 0, -1], and one peak range 09:00 - 10:00 whose
    [avg_activity] is 9, the mean hour, where the mean count is 4. *)
Theorem peak_avg_activity_is_mean_hour :
  let ca := map (@Some Z) [9; 9; 9; 9; 10; 10; 10; 10; 20] in
  let X := Peak.hour_counts (Peak.parsed_hours ca) in
  X = [(9, 4); (10, 4); (20, 1)] /\
  Peak.dbscan_fit_predict X = [0; 0; -1] /\
  Peak.get_peak_activity_hours ca =
    ([Peak.standard_scaler; Peak.dbscan; Peak.pca],
     Peak.peak_hours
       {| Peak.peak_ranges :=
            [{| Peak.cluster_id := 0; Peak.start_hour := 9; Peak.end_hour := 10;
                Peak.range := u "09:00 - 10:00"; Peak.avg_activity := 9 |}];
          Peak.total_hours_analyzed := 9; Peak.unique_hours := 3;
          Peak.num_clusters := 1; Peak.num_outliers := 1 |}) /\
  Z.quot (4 + 4) 2 = 4.
Proof. cbv zeta. split; [|split; [|split]]; vm_compute; reflexivity. Qed.

(** ** Totality of the normalisation *)

(** C9: both [preprocess_text] functions are total functions to strings;
    on [None], [NaN] and the empty string they return the empty string. *)
Theorem preprocess_text_total :
  Sentiment.preprocess_text PyNone = [] /\ Sentiment.preprocess_text PyNaN = [] /\
  Sentiment.preprocess_text (PyStr []) = [] /\
  Emotion.preprocess_text PyNone = [] /\ Emotion.preprocess_text PyNaN = [] /\
  Emotion.preprocess_text (PyStr []) = [] /\
  (forall x, exists s1 s2, Sentiment.preprocess_text x = s1 /\ Emotion.preprocess_text x = s2).
Proof.
  repeat split; try reflexivity.
  intros x. exists (Sentiment.preprocess_text x), (Emotion.preprocess_text x). split; reflexivity.
Qed.


(** ** Idempotence of the normalisation *)

(** C8 (counterexample): the sentiment normalisation is not idempotent on
    every input.  ["ȺȺȺ"] (U+023A, outside the emoji class) is lowered to
    ["ⱥⱥⱥ"] (U+2C65), which lies in the class range U+24C2..U+1F251, so the
    second pass removes it as an emoji and returns the empty string. *)
Lemma sentiment_normalization_not_idempotent :
  Sentiment.preprocess_text (PyStr [570; 570; 570]) = [11365; 11365; 11365] /\
  Sentiment.preprocess_text (PyStr (Sentiment.preprocess_text (PyStr [570; 570; 570]))) = [] /\
  Norm.in_emoji_class 570 = false /\ Norm.in_emoji_class 11365 = true /\
  Unicode.lower_char 570 = [11365].
Proof. vm_compute. repeat split. Qed.

(** C8 (amended): on every input string of ASCII characters, applying the
    sentiment normalisation twice gives the same result as applying it once. *)
Theorem sentiment_normalization_idempotent_ascii (x : ustr) :
  forallb Normal.is_ascii x = true ->
  Sentiment.preprocess_text (PyStr (Sentiment.preprocess_text (PyStr x))) =
  Sentiment.preprocess_text (PyStr x).
Proof.
  intros H.
  assert (Hx : Forall Normal.asc x).
  { apply Forall_forall. intros c Hc. rewrite forallb_forall in H. apply H, Hc. }
  destruct (FirstPass.sentiment_first_pass x Hx) as [ws [E Hws]].
  rewrite E. apply JoinFacts.sentiment_fixed, Hws.
Qed.

Lemma sentiment_normalization_idempotent_ascii_witness :
  forallb Normal.is_ascii (u "Halo @budi!!!! Bagussss bgt #KerenBanget https://t.co/x") = true /\
  Sentiment.preprocess_text (PyStr (Sentiment.preprocess_text
    (PyStr (u "Halo @budi!!!! Bagussss bgt #KerenBanget https://t.co/x")))) =
  Sentiment.preprocess_text (PyStr (u "Halo @budi!!!! Bagussss bgt #KerenBanget https://t.co/x")).
Proof.
  split; [vm_compute; reflexivity|].
  apply sentiment_normalization_idempotent_ascii. vm_compute. reflexivity.
Defined.

(** ** Stopword and length filter *)

(** C10 (counterexample): the emotion normalisation drops no stopword and
    no short token: ["saya di rumah"] is returned unchanged although
    ["saya"] is in the stopword set and ["di"] has length 2; the sentiment
    normalisation reduces it to ["rumah"]. *)
Lemma emotion_normalization_keeps_stopwords :
  Emotion.preprocess_text (PyStr (u "saya di rumah")) = u "saya di rumah" /\
  Py.mem (u "saya") Sentiment.stopwords_id = true /\ List.length (u "di") = 2%nat /\
  Sentiment.preprocess_text (PyStr (u "saya di rumah")) = u "rumah".
Proof. vm_compute. repeat split. Qed.

(** C10 (amended): every output of the sentiment normalisation is a join
    with single spaces of tokens, none in the stopword set and each longer
    than 2 characters, and splitting it on whitespace gives those tokens
    back; the emotion normalisation has no such filter: it returns a
    single-spaced join of lower-case ASCII tokens (no character repeated
    four times) unchanged, e.g. ["saya di rumah"]. *)
Theorem normalization_token_filter :
  (forall x, exists ws,
     Sentiment.preprocess_text x = Py.join [Norm.space] ws /\
     Py.split (Sentiment.preprocess_text x) = ws /\
     Forall (fun w => Py.mem w Sentiment.stopwords_id = false /\ (2 < List.length w)%nat) ws) /\
  (forall ws, Forall (fun w => Normal.normal_token w = true) ws ->
     Emotion.preprocess_text (PyStr (Py.join [Norm.space] ws)) = Py.join [Norm.space] ws) /\
  Emotion.preprocess_text (PyStr (u "saya di rumah")) = u "saya di rumah".
Proof.
  split; [|split].
  - intros x. destruct (JoinFacts.sentiment_output_tokens x) as [ws [E1 [E2 H]]].
    exists ws. split; [exact E1|split; [exact E2|]].
    eapply Forall_impl; [|exact H]. intros w Hw. unfold Sentiment.keep_word in Hw.
    apply andb_prop in Hw as [Hm Hl]. apply negb_true_iff in Hm. apply Nat.ltb_lt in Hl. auto.
  - exact JoinFacts.emotion_fixed.
  - vm_compute. reflexivity.
Qed.
